(** * goproxy: the forwarding round trip and its instrumented connection

    A shallow embedding of [ProxyCtx.RoundTrip], [SetErrorMetric],
    [SetSuccessMetric] (ctx.go) and of [proxyConn], [proxyTCPConn],
    [connCloser] (proxy_conn.go); the logging functions of the context
    ([printf], [Logf], [Infof], [Warnf]) and [Charset] are embedded on
    their own.

    Conventions.
    - Go [int], [int64] and [time.Duration] are [Z]; where the code adds or
      multiplies 64-bit values the wrap-around is written with [wrap64].
    - A Go [error] is its text; a possibly nil error is [option error].
    - [http.Header] and the prometheus counter vector are finite maps.
    - Everything the network, the resolver, the clock and the http library
      decide is read from an environment [Env]; the code under study is a
      function of that environment and of the state it mutates.
    - The two workers of the exchange touch disjoint counters of the
      connection, so their interleaving is observable by the orchestrator
      only through how many reads are done when it looks at the counters;
      that number is part of the environment.
    - In the state of [RoundTrip] log lines keep their format string
      only; module [Logging] has the calls in full. *)

From Equations Require Import Equations.
From Equations.Prop Require Import Logic.
From stdpp Require Import gmap strings list.
From Stdlib Require Import ZArith Lia Ascii.

Local Open Scope string_scope.
Local Open Scope Z_scope.

(** ** Go primitives *)

Definition error := string.

Definition int64_min : Z := - 2 ^ 63.
Definition int64_max : Z := 2 ^ 63 - 1.

(** Two's complement wrap-around of 64-bit signed arithmetic. *)
Definition wrap64 (z : Z) : Z := (z + 2 ^ 63) mod 2 ^ 64 - 2 ^ 63.

(** [time.Second], in nanoseconds. *)
Definition time_Second : Z := 1000000000.

(** [strings.HasPrefix s p]. *)
Definition strings_HasPrefix (s p : string) : bool := String.prefix p s.

(** [strings.Contains s sub]. *)
Fixpoint strings_Contains (s sub : string) : bool :=
  String.prefix sub s ||
  match s with
  | EmptyString => false
  | String _ s' => strings_Contains s' sub
  end.

(** [strings.Split(s, sep)[0]] for a one-character separator. *)
Fixpoint split_head (sep : Ascii.ascii) (s : string) : string :=
  match s with
  | EmptyString => EmptyString
  | String c s' => if Ascii.eqb c sep then EmptyString else String c (split_head sep s')
  end.

Definition nonempty (s : string) : bool := negb (String.eqb s "").

(** [net.JoinHostPort]: a host with a colon in it is put in brackets. *)
Definition net_JoinHostPort (host port : string) : string :=
  if strings_Contains host ":" then "[" +:+ host +:+ "]:" +:+ port
  else host +:+ ":" +:+ port.

(** [p != nil]. *)
Definition notnil {A} (p : option A) : bool :=
  match p with Some _ => true | None => false end.

(** ** proxy_conn.go *)

(** What the code can observe and change of a [net.Conn]: the two deadlines
    ([None] is the zero [time.Time], no deadline), the keepalive settings of
    a TCP connection, and whether and how often it was closed. *)
Record RawConn := mkRawConn {
  isTCPConn : bool;
  writeDeadline : option Z;
  readDeadline : option Z;
  keepAlive : bool;
  keepAlivePeriod : option Z;
  closed : bool;
  closeCalls : nat
}.

Definition SetWriteDeadline (t : option Z) (c : RawConn) : RawConn :=
  mkRawConn (isTCPConn c) t (readDeadline c) (keepAlive c) (keepAlivePeriod c)
            (closed c) (closeCalls c).

Definition SetReadDeadline (t : option Z) (c : RawConn) : RawConn :=
  mkRawConn (isTCPConn c) (writeDeadline c) t (keepAlive c) (keepAlivePeriod c)
            (closed c) (closeCalls c).

Definition SetKeepAlive (b : bool) (c : RawConn) : RawConn :=
  mkRawConn (isTCPConn c) (writeDeadline c) (readDeadline c) b (keepAlivePeriod c)
            (closed c) (closeCalls c).

(** [SetKeepAlivePeriod d] for a positive [d]: the socket takes [d] as its
    idle period. Every call the code here makes has a positive [d] while
    the period in nanoseconds fits 64 bits. For a zero [d] the library
    puts its default period and a negative [d] it ignores; these two
    cases are not modelled. *)
Definition SetKeepAlivePeriod (d : Z) (c : RawConn) : RawConn :=
  mkRawConn (isTCPConn c) (writeDeadline c) (readDeadline c) (keepAlive c) (Some d)
            (closed c) (closeCalls c).

(** [net.Conn.Close]: a closed connection stays closed and answers with an
    error; every call is counted. *)
Definition RawConn_Close (c : RawConn) : RawConn * option error :=
  (mkRawConn (isTCPConn c) (writeDeadline c) (readDeadline c) (keepAlive c)
             (keepAlivePeriod c) true (S (closeCalls c)),
   if closed c then Some "use of closed network connection" else None).

(** One call of the raw connection's [Write] or [Read]: the time at which
    the wrapper is entered and the pair [(n, err)] the raw call returns.
    The buffer is handed through untouched, so it does not appear. *)
Record RawIO := mkRawIO {
  io_now : Z;
  io_n : Z;
  io_err : option error
}.

Module ProxyConn.

Record proxyConn := mk {
  Conn : RawConn;
  BytesWrote : Z;
  BytesRead : Z;
  ReadTimeout : Z;
  WriteTimeout : Z
}.

Definition newProxyConn (conn : RawConn) : proxyConn := mk conn 0 0 0 0.

(** The raw connection as [Write] leaves it for the raw call at time [now]. *)
Definition armWrite (conn : proxyConn) (now : Z) : RawConn :=
  if 0 <? WriteTimeout conn
  then SetWriteDeadline (Some (now + WriteTimeout conn)) (Conn conn)
  else Conn conn.

Definition armRead (conn : proxyConn) (now : Z) : RawConn :=
  if 0 <? ReadTimeout conn
  then SetReadDeadline (Some (now + ReadTimeout conn)) (Conn conn)
  else Conn conn.

Definition Write (conn : proxyConn) (io : RawIO) : proxyConn * (Z * option error) :=
  let raw := armWrite conn (io_now io) in
  match io_err io with
  | Some e =>
      (mk raw (BytesWrote conn) (BytesRead conn) (ReadTimeout conn) (WriteTimeout conn),
       (io_n io, Some e))
  | None =>
      (mk (SetWriteDeadline None raw) (wrap64 (BytesWrote conn + io_n io))
          (BytesRead conn) (ReadTimeout conn) (WriteTimeout conn),
       (io_n io, None))
  end.

Definition Read (conn : proxyConn) (io : RawIO) : proxyConn * (Z * option error) :=
  let raw := armRead conn (io_now io) in
  match io_err io with
  | Some e =>
      (mk raw (BytesWrote conn) (BytesRead conn) (ReadTimeout conn) (WriteTimeout conn),
       (io_n io, Some e))
  | None =>
      (mk (SetReadDeadline None raw) (BytesWrote conn)
          (wrap64 (BytesRead conn + io_n io)) (ReadTimeout conn) (WriteTimeout conn),
       (io_n io, None))
  end.

End ProxyConn.

Module ProxyTCPConn.

(** Modelled from the spec: the field [IgnoreDeadlineErrors], which
    [RoundTrip] assigns, is missing from the declaration in proxy_conn.go
    (that one has [Conn] to [Logger]); section 4.1 says the flag does not
    change what [Read] and [Write] return or count. *)
Record proxyTCPConn := mk {
  Conn : RawConn;
  BytesWrote : Z;
  BytesRead : Z;
  ReadTimeout : Z;
  WriteTimeout : Z;
  Logger : bool;
  IgnoreDeadlineErrors : bool
}.

Definition newProxyTCPConn (conn : RawConn) : proxyTCPConn :=
  mk conn 0 0 0 0 false false.

Definition set_Conn (raw : RawConn) (c : proxyTCPConn) : proxyTCPConn :=
  mk raw (BytesWrote c) (BytesRead c) (ReadTimeout c) (WriteTimeout c)
     (Logger c) (IgnoreDeadlineErrors c).

Definition set_timeouts (rd wr : Z) (ignore : bool) (c : proxyTCPConn) : proxyTCPConn :=
  mk (Conn c) (BytesWrote c) (BytesRead c) rd wr (Logger c) ignore.

Definition set_Logger (l : bool) (c : proxyTCPConn) : proxyTCPConn :=
  mk (Conn c) (BytesWrote c) (BytesRead c) (ReadTimeout c) (WriteTimeout c)
     l (IgnoreDeadlineErrors c).

(** The raw connection as [Write] leaves it for the raw call at time [now]. *)
Definition armWrite (conn : proxyTCPConn) (now : Z) : RawConn :=
  if 0 <? WriteTimeout conn
  then SetWriteDeadline (Some (now + WriteTimeout conn)) (Conn conn)
  else Conn conn.

Definition armRead (conn : proxyTCPConn) (now : Z) : RawConn :=
  if 0 <? ReadTimeout conn
  then SetReadDeadline (Some (now + ReadTimeout conn)) (Conn conn)
  else Conn conn.

Definition Write (conn : proxyTCPConn) (io : RawIO) : proxyTCPConn * (Z * option error) :=
  let raw := armWrite conn (io_now io) in
  match io_err io with
  | Some e => (set_Conn raw conn, (io_n io, Some e))
  | None =>
      (mk (SetWriteDeadline None raw) (wrap64 (BytesWrote conn + io_n io))
          (BytesRead conn) (ReadTimeout conn) (WriteTimeout conn)
          (Logger conn) (IgnoreDeadlineErrors conn),
       (io_n io, None))
  end.

Definition Read (conn : proxyTCPConn) (io : RawIO) : proxyTCPConn * (Z * option error) :=
  let raw := armRead conn (io_now io) in
  match io_err io with
  | Some e => (set_Conn raw conn, (io_n io, Some e))
  | None =>
      (mk (SetReadDeadline None raw) (BytesWrote conn)
          (wrap64 (BytesRead conn + io_n io)) (ReadTimeout conn) (WriteTimeout conn)
          (Logger conn) (IgnoreDeadlineErrors conn),
       (io_n io, None))
  end.

(** [setKeepaliveParameters]; [typ] is what [reflect.TypeOf(conn.Conn)]
    prints, [ka] and [kap] are what the socket answers to
    [SetKeepAlive(true)] and [SetKeepAlivePeriod]. The count and the
    interval are only used by code that is commented out. *)
Definition setKeepaliveParameters (typ : string) (ka kap : option error)
    (conn : proxyTCPConn) (count interval period : Z) : proxyTCPConn * option error :=
  if negb (isTCPConn (Conn conn))
  then (conn, Some ("Could not convert proxy conn from " +:+ typ +:+ " to net.TCPConn"))
  else
    match ka with
    | Some setErr => (conn, Some setErr)
    | None =>
        let conn := set_Conn (SetKeepAlive true (Conn conn)) conn in
        match kap with
        | Some setErr => (conn, Some setErr)
        | None => (set_Conn (SetKeepAlivePeriod (wrap64 (period * time_Second)) (Conn conn)) conn, None)
        end
    end.

(** Modelled from the spec: the exported [SetKeepaliveParameters] that
    [RoundTrip] calls is not in proxy_conn.go; section 4.2 gives it a flag
    for "target" against "forward-proxy" semantics that the algorithm does
    not use, in front of the three tunables of [setKeepaliveParameters]. *)
Definition SetKeepaliveParameters (typ : string) (ka kap : option error)
    (conn : proxyTCPConn) (target : bool) (count interval period : Z)
    : proxyTCPConn * option error :=
  setKeepaliveParameters typ ka kap conn count interval period.

End ProxyTCPConn.

(** An [io.ReadCloser]: the body the http library hands out, or that body
    wrapped into a [connCloser] together with the raw connection. *)
Inductive ReadCloser :=
| httpBody (id : nat)
| connCloser (inner : ReadCloser).

Record Response := mkResponse {
  StatusCode : Z;
  Body : ReadCloser
}.

(** What [http.ReadResponse] returns on success: a response whose body is
    the library's own. *)
Definition readResponse (status : Z) (body : nat) : Response :=
  mkResponse status (httpBody body).

(** ** ctx.go: the request context *)

Record ForwardProxyHeader := mkHeader {
  Header : string;
  Value : string
}.

Record MetricsCounters := mkMetrics {
  Requests : option (gmap (string * string) nat);
  ProxyBandwidth : option Z;
  TLSTimes : option (list Z)
}.

Record Request := mkRequest {
  URL_Host : string;
  URL_String : string;
  RequestURI : string;
  req_Header : gmap string (list string)
}.

(** [http.Header.Get] and [Set] on a key that is already canonical. *)
Definition Header_Get (h : gmap string (list string)) (k : string) : string :=
  match h !! k with
  | Some (v :: _) => v
  | _ => ""
  end.

Definition Header_Set (k v : string) (h : gmap string (list string))
  : gmap string (list string) := <[k := [v]]> h.

(** The fields of [ProxyCtx] that [RoundTrip] reads or writes.
    [RoundTripper] is a handle: what a plugged round tripper does is the
    environment's business. [ForwardProxyErrorFallback] is the Go closure
    [func() (string, string)], [None] when nil. *)
Record ProxyCtx := mkCtx {
  RoundTripper : option nat;
  ProxyLogger : bool;
  ForwardProxy : string;
  ForwardProxyDialTimeout : Z;
  ForwardProxyTLSTimeout : Z;
  ForwardProxyAuth : string;
  ForwardProxyProto : string;
  ForwardProxyHeaders : list ForwardProxyHeader;
  ForwardMetricsCounters : MetricsCounters;
  ForwardProxyRegWrite : bool;
  ForwardProxyErrorFallbackAuth : bool;
  ForwardProxyErrorFallback : option (unit -> string * string);
  ForwardProxyFallbackTimeout : Z;
  ForwardProxyFallbackSecondaryTimeout : Z;
  ForwardProxySourceIP : string;
  ForwardDisableHTTPKeepAlives : bool;
  DNSResolver : string;
  BackupDNSResolver : string;
  TCPKeepAlivePeriod : Z;
  TCPKeepAliveCount : Z;
  TCPKeepAliveInterval : Z;
  MaxIdleConns : Z;
  MaxIdleConnsPerHost : Z;
  IdleConnTimeout : Z;
  ProxyReadDeadline : Z;
  ProxyWriteDeadline : Z;
  CopyBufferSize : Z;
  Accounting : string;
  BytesSent : Z;
  BytesReceived : Z
}.

Section CtxSetters.

Variable c : ProxyCtx.

Definition set_ForwardProxy (v : string) : ProxyCtx :=
  mkCtx (RoundTripper c) (ProxyLogger c) v (ForwardProxyDialTimeout c)
    (ForwardProxyTLSTimeout c) (ForwardProxyAuth c) (ForwardProxyProto c)
    (ForwardProxyHeaders c) (ForwardMetricsCounters c) (ForwardProxyRegWrite c)
    (ForwardProxyErrorFallbackAuth c) (ForwardProxyErrorFallback c)
    (ForwardProxyFallbackTimeout c) (ForwardProxyFallbackSecondaryTimeout c)
    (ForwardProxySourceIP c) (ForwardDisableHTTPKeepAlives c) (DNSResolver c)
    (BackupDNSResolver c) (TCPKeepAlivePeriod c) (TCPKeepAliveCount c)
    (TCPKeepAliveInterval c) (MaxIdleConns c) (MaxIdleConnsPerHost c)
    (IdleConnTimeout c) (ProxyReadDeadline c) (ProxyWriteDeadline c)
    (CopyBufferSize c) (Accounting c) (BytesSent c) (BytesReceived c).

Definition set_ForwardProxyAuth (v : string) : ProxyCtx :=
  mkCtx (RoundTripper c) (ProxyLogger c) (ForwardProxy c) (ForwardProxyDialTimeout c)
    (ForwardProxyTLSTimeout c) v (ForwardProxyProto c)
    (ForwardProxyHeaders c) (ForwardMetricsCounters c) (ForwardProxyRegWrite c)
    (ForwardProxyErrorFallbackAuth c) (ForwardProxyErrorFallback c)
    (ForwardProxyFallbackTimeout c) (ForwardProxyFallbackSecondaryTimeout c)
    (ForwardProxySourceIP c) (ForwardDisableHTTPKeepAlives c) (DNSResolver c)
    (BackupDNSResolver c) (TCPKeepAlivePeriod c) (TCPKeepAliveCount c)
    (TCPKeepAliveInterval c) (MaxIdleConns c) (MaxIdleConnsPerHost c)
    (IdleConnTimeout c) (ProxyReadDeadline c) (ProxyWriteDeadline c)
    (CopyBufferSize c) (Accounting c) (BytesSent c) (BytesReceived c).

Definition set_ForwardProxyProto (v : string) : ProxyCtx :=
  mkCtx (RoundTripper c) (ProxyLogger c) (ForwardProxy c) (ForwardProxyDialTimeout c)
    (ForwardProxyTLSTimeout c) (ForwardProxyAuth c) v
    (ForwardProxyHeaders c) (ForwardMetricsCounters c) (ForwardProxyRegWrite c)
    (ForwardProxyErrorFallbackAuth c) (ForwardProxyErrorFallback c)
    (ForwardProxyFallbackTimeout c) (ForwardProxyFallbackSecondaryTimeout c)
    (ForwardProxySourceIP c) (ForwardDisableHTTPKeepAlives c) (DNSResolver c)
    (BackupDNSResolver c) (TCPKeepAlivePeriod c) (TCPKeepAliveCount c)
    (TCPKeepAliveInterval c) (MaxIdleConns c) (MaxIdleConnsPerHost c)
    (IdleConnTimeout c) (ProxyReadDeadline c) (ProxyWriteDeadline c)
    (CopyBufferSize c) (Accounting c) (BytesSent c) (BytesReceived c).

Definition set_ForwardMetricsCounters (v : MetricsCounters) : ProxyCtx :=
  mkCtx (RoundTripper c) (ProxyLogger c) (ForwardProxy c) (ForwardProxyDialTimeout c)
    (ForwardProxyTLSTimeout c) (ForwardProxyAuth c) (ForwardProxyProto c)
    (ForwardProxyHeaders c) v (ForwardProxyRegWrite c)
    (ForwardProxyErrorFallbackAuth c) (ForwardProxyErrorFallback c)
    (ForwardProxyFallbackTimeout c) (ForwardProxyFallbackSecondaryTimeout c)
    (ForwardProxySourceIP c) (ForwardDisableHTTPKeepAlives c) (DNSResolver c)
    (BackupDNSResolver c) (TCPKeepAlivePeriod c) (TCPKeepAliveCount c)
    (TCPKeepAliveInterval c) (MaxIdleConns c) (MaxIdleConnsPerHost c)
    (IdleConnTimeout c) (ProxyReadDeadline c) (ProxyWriteDeadline c)
    (CopyBufferSize c) (Accounting c) (BytesSent c) (BytesReceived c).

Definition set_ForwardProxyErrorFallback (v : option (unit -> string * string)) : ProxyCtx :=
  mkCtx (RoundTripper c) (ProxyLogger c) (ForwardProxy c) (ForwardProxyDialTimeout c)
    (ForwardProxyTLSTimeout c) (ForwardProxyAuth c) (ForwardProxyProto c)
    (ForwardProxyHeaders c) (ForwardMetricsCounters c) (ForwardProxyRegWrite c)
    (ForwardProxyErrorFallbackAuth c) v
    (ForwardProxyFallbackTimeout c) (ForwardProxyFallbackSecondaryTimeout c)
    (ForwardProxySourceIP c) (ForwardDisableHTTPKeepAlives c) (DNSResolver c)
    (BackupDNSResolver c) (TCPKeepAlivePeriod c) (TCPKeepAliveCount c)
    (TCPKeepAliveInterval c) (MaxIdleConns c) (MaxIdleConnsPerHost c)
    (IdleConnTimeout c) (ProxyReadDeadline c) (ProxyWriteDeadline c)
    (CopyBufferSize c) (Accounting c) (BytesSent c) (BytesReceived c).

Definition set_ForwardProxyFallbackTimeout (v : Z) : ProxyCtx :=
  mkCtx (RoundTripper c) (ProxyLogger c) (ForwardProxy c) (ForwardProxyDialTimeout c)
    (ForwardProxyTLSTimeout c) (ForwardProxyAuth c) (ForwardProxyProto c)
    (ForwardProxyHeaders c) (ForwardMetricsCounters c) (ForwardProxyRegWrite c)
    (ForwardProxyErrorFallbackAuth c) (ForwardProxyErrorFallback c)
    v (ForwardProxyFallbackSecondaryTimeout c)
    (ForwardProxySourceIP c) (ForwardDisableHTTPKeepAlives c) (DNSResolver c)
    (BackupDNSResolver c) (TCPKeepAlivePeriod c) (TCPKeepAliveCount c)
    (TCPKeepAliveInterval c) (MaxIdleConns c) (MaxIdleConnsPerHost c)
    (IdleConnTimeout c) (ProxyReadDeadline c) (ProxyWriteDeadline c)
    (CopyBufferSize c) (Accounting c) (BytesSent c) (BytesReceived c).

Definition set_Accounting (v : string) : ProxyCtx :=
  mkCtx (RoundTripper c) (ProxyLogger c) (ForwardProxy c) (ForwardProxyDialTimeout c)
    (ForwardProxyTLSTimeout c) (ForwardProxyAuth c) (ForwardProxyProto c)
    (ForwardProxyHeaders c) (ForwardMetricsCounters c) (ForwardProxyRegWrite c)
    (ForwardProxyErrorFallbackAuth c) (ForwardProxyErrorFallback c)
    (ForwardProxyFallbackTimeout c) (ForwardProxyFallbackSecondaryTimeout c)
    (ForwardProxySourceIP c) (ForwardDisableHTTPKeepAlives c) (DNSResolver c)
    (BackupDNSResolver c) (TCPKeepAlivePeriod c) (TCPKeepAliveCount c)
    (TCPKeepAliveInterval c) (MaxIdleConns c) (MaxIdleConnsPerHost c)
    (IdleConnTimeout c) (ProxyReadDeadline c) (ProxyWriteDeadline c)
    (CopyBufferSize c) v (BytesSent c) (BytesReceived c).

Definition set_Bytes (sent received : Z) : ProxyCtx :=
  mkCtx (RoundTripper c) (ProxyLogger c) (ForwardProxy c) (ForwardProxyDialTimeout c)
    (ForwardProxyTLSTimeout c) (ForwardProxyAuth c) (ForwardProxyProto c)
    (ForwardProxyHeaders c) (ForwardMetricsCounters c) (ForwardProxyRegWrite c)
    (ForwardProxyErrorFallbackAuth c) (ForwardProxyErrorFallback c)
    (ForwardProxyFallbackTimeout c) (ForwardProxyFallbackSecondaryTimeout c)
    (ForwardProxySourceIP c) (ForwardDisableHTTPKeepAlives c) (DNSResolver c)
    (BackupDNSResolver c) (TCPKeepAlivePeriod c) (TCPKeepAliveCount c)
    (TCPKeepAliveInterval c) (MaxIdleConns c) (MaxIdleConnsPerHost c)
    (IdleConnTimeout c) (ProxyReadDeadline c) (ProxyWriteDeadline c)
    (CopyBufferSize c) (Accounting c) sent received.

End CtxSetters.

(** ** The metrics *)

(** [Requests.WithLabelValues(target, outcome).Inc()]. *)
Definition CounterVec_Inc (target outcome : string) (m : gmap (string * string) nat)
  : gmap (string * string) nat :=
  <[(target, outcome) := S (default 0%nat (m !! (target, outcome)))]> m.

(** The increment applied to the vector the context points to. *)
Definition Requests_Inc (target outcome : string) (ctx : ProxyCtx) : ProxyCtx :=
  let mc := ForwardMetricsCounters ctx in
  match Requests mc with
  | Some m =>
      set_ForwardMetricsCounters ctx
        (mkMetrics (Some (CounterVec_Inc target outcome m)) (ProxyBandwidth mc) (TLSTimes mc))
  | None => ctx
  end.

Definition SetErrorMetric (ctx : ProxyCtx) : ProxyCtx :=
  if nonempty (ForwardProxy ctx) && notnil (Requests (ForwardMetricsCounters ctx))
  then
    let target :=
      if strings_HasPrefix (ForwardProxy ctx) "127.0.0.1" then "local" else "spoof" in
    Requests_Inc target "err" ctx
  else ctx.

Definition SetSuccessMetric (ctx : ProxyCtx) : ProxyCtx :=
  if nonempty (ForwardProxy ctx) && notnil (Requests (ForwardMetricsCounters ctx))
  then
    let target :=
      if strings_HasPrefix (ForwardProxy ctx) "127.0.0.1" then "local" else "spoof" in
    Requests_Inc target "ok" ctx
  else ctx.

(** How often the request counter was incremented under a label pair. *)
Definition requestCount (ctx : ProxyCtx) (target outcome : string) : nat :=
  match Requests (ForwardMetricsCounters ctx) with
  | Some m => default 0%nat (m !! (target, outcome))
  | None => 0%nat
  end.

(** ** The environment and the state *)

(** [tr.Dial]: the method of the dialer [d], with its timeout and local
    address, or the dial through the forward proxy at [proxyURL]. The
    resolver the dialers are given comes from [ctx.Proxy.getResolver] and
    only matters to the outcome of the dial, which the environment fixes. *)
Inductive Dialer :=
| directDialer (timeout : Z) (localAddr : option string)
| connectDialer (proxyURL : string).

(** The transport that [RoundTrip] builds; only its [Dial] is ever called.
    [tr_Proxy] is the proxy URL, [None] for [http.ProxyFromEnvironment];
    [tr_DialContext] is the timeout of the extra dialer that a fallback
    timeout installs. *)
Record Transport := mkTransport {
  tr_Proxy : option string;
  tr_Dial : Dialer;
  tr_DialContext : option Z;
  tr_MaxIdleConns : Z;
  tr_MaxIdleConnsPerHost : Z;
  tr_IdleConnTimeout : Z;
  tr_DisableKeepAlives : bool;
  tr_TLSHandshakeTimeout : Z;
  tr_ExpectContinueTimeout : Z
}.

(** What one connection will answer during one exchange.
    - [cs_isTCP]: whether the raw connection is a [*net.TCPConn];
      [cs_SetKeepAlive], [cs_SetKeepAlivePeriod]: what the socket answers.
    - [cs_type]: what [reflect.TypeOf] prints for the raw connection;
      [cs_keepAlive], [cs_keepAlivePeriod]: the keepalive settings the
      socket has when the dial hands it out.
    - [cs_ser_writes]: the raw writes the buffered writer issues while the
      request is serialized; [cs_ser_err]: what [req.Write] or
      [req.WriteProxy] returns; [cs_flush_writes]: the raw writes of
      [writer.Flush()], whose result the code drops.
    - [cs_reads]: the raw reads [http.ReadResponse] asks for; [cs_parse]:
      what it returns, a status and a body or an error.
    - [cs_reads_done]: how many of these reads have returned when the
      orchestrator receives the writer's signal. *)
Record ConnScript := mkScript {
  cs_isTCP : bool;
  cs_SetKeepAlive : option error;
  cs_SetKeepAlivePeriod : option error;
  cs_ser_writes : list RawIO;
  cs_ser_err : option error;
  cs_flush_writes : list RawIO;
  cs_reads : list RawIO;
  cs_parse : Z * nat + error;
  cs_reads_done : nat;
  cs_type : string;
  cs_keepAlive : bool;
  cs_keepAlivePeriod : option Z
}.

Record DialResult := mkDial {
  dial_start : Z;
  dial_end : Z;
  dial_conn : ConnScript + error
}.

Inductive Event :=
| EvDial (tr : Transport) (network host : string) (connectHeader : gmap string (list string))
| EvResolve (host resolver : string)
| EvFallback (newForwardProxy extra : string)
| EvKeepalive (count interval period : Z) (res : option error)
| EvWriteRequest (proxyForm : bool) (header : gmap string (list string))
| EvFlush
| EvWriteDone (err : option error)
| EvReadDone (err : option error).

(** The context and the request (both reached through pointers), the
    connection of the current attempt, what happened so far, the log, and
    how many dials, resolver calls and calls of the library body's [Close]
    were made. *)
Record St := mkSt {
  st_ctx : ProxyCtx;
  st_req : Request;
  st_conn : option ProxyTCPConn.proxyTCPConn;
  st_trace : list Event;
  st_log : list string;
  st_dials : nat;
  st_resolves : nat;
  st_bodyCloses : nat
}.

Definition Result : Type := option Response * option error.

Record Env := mkEnv {
  env_dial : nat -> DialResult;
  env_resolveDomain : nat -> string -> string -> list string * list string * option error;
  env_ResolveTCPAddr : string -> string + error;
  env_RoundTripper : nat -> St -> Result * St;
  env_bodyClose : nat -> option error
}.

Definition initSt (ctx : ProxyCtx) (req : Request) : St :=
  mkSt ctx req None [] [] 0 0 0.

Definition upd_ctx (f : ProxyCtx -> ProxyCtx) (s : St) : St :=
  mkSt (f (st_ctx s)) (st_req s) (st_conn s) (st_trace s) (st_log s)
       (st_dials s) (st_resolves s) (st_bodyCloses s).

Definition upd_req (f : Request -> Request) (s : St) : St :=
  mkSt (st_ctx s) (f (st_req s)) (st_conn s) (st_trace s) (st_log s)
       (st_dials s) (st_resolves s) (st_bodyCloses s).

Definition set_conn (c : option ProxyTCPConn.proxyTCPConn) (s : St) : St :=
  mkSt (st_ctx s) (st_req s) c (st_trace s) (st_log s)
       (st_dials s) (st_resolves s) (st_bodyCloses s).

Definition emit (e : Event) (s : St) : St :=
  mkSt (st_ctx s) (st_req s) (st_conn s) (st_trace s ++ [e]) (st_log s)
       (st_dials s) (st_resolves s) (st_bodyCloses s).

(** [ctx.Logf(format, ...)]. *)
Definition Logf (format : string) (s : St) : St :=
  mkSt (st_ctx s) (st_req s) (st_conn s) (st_trace s) (st_log s ++ [format])
       (st_dials s) (st_resolves s) (st_bodyCloses s).

Definition count_dial (s : St) : St :=
  mkSt (st_ctx s) (st_req s) (st_conn s) (st_trace s) (st_log s)
       (S (st_dials s)) (st_resolves s) (st_bodyCloses s).

Definition count_resolve (s : St) : St :=
  mkSt (st_ctx s) (st_req s) (st_conn s) (st_trace s) (st_log s)
       (st_dials s) (S (st_resolves s)) (st_bodyCloses s).

Definition count_bodyClose (s : St) : St :=
  mkSt (st_ctx s) (st_req s) (st_conn s) (st_trace s) (st_log s)
       (st_dials s) (st_resolves s) (S (st_bodyCloses s)).

(** ** connCloser.Close *)

(** [Close] of a body. For a [connCloser]: [cc.Conn.Close()], its result
    dropped, then [return cc.ReadCloser.Close()]; [cc.Conn] is the raw
    connection under the instrumented one. The http library's own body
    answers what the environment says. *)
Fixpoint ReadCloser_Close (env : Env) (b : ReadCloser) (s : St) : option error * St :=
  match b with
  | httpBody _ => (env_bodyClose env (st_bodyCloses s), count_bodyClose s)
  | connCloser inner =>
      let s :=
        match st_conn s with
        | Some c =>
            set_conn (Some (ProxyTCPConn.set_Conn (fst (RawConn_Close (ProxyTCPConn.Conn c))) c)) s
        | None => s
        end in
      ReadCloser_Close env inner s
  end.

(** [k] calls of [Close] in a row on the same body. *)
Fixpoint close_times (env : Env) (b : ReadCloser) (k : nat) (s : St) : St :=
  match k with
  | O => s
  | S k' => close_times env b k' (snd (ReadCloser_Close env b s))
  end.

(** ** RoundTrip *)

(** The function handed to [NewConnectDialWithKeepAlives]: it edits the
    header of the request it is given. Custom headers are stored under
    their literal name, after the authorization header. *)
Definition connectReqHandler (ctx : ProxyCtx) (h : gmap string (list string))
  : gmap string (list string) :=
  let h :=
    if nonempty (ForwardProxyAuth ctx)
    then Header_Set "Proxy-Authorization" ("Basic " +:+ ForwardProxyAuth ctx) h
    else h in
  fold_left (fun h pxyHeader => <[Header pxyHeader := [Value pxyHeader]]> h)
            (ForwardProxyHeaders ctx) h.

(** The wire form the writer picks: [true] for [req.WriteProxy]. *)
Definition usesWriteProxy (ctx : ProxyCtx) : bool :=
  nonempty (ForwardProxy ctx) && negb (ForwardProxyRegWrite ctx).

(** Consecutive raw writes, or reads, through the instrumented connection.
    Which calls are made, and what the caller makes of their errors, is
    the library's decision and comes with the script. *)
Definition runWrites (ios : list RawIO) (conn : ProxyTCPConn.proxyTCPConn)
  : ProxyTCPConn.proxyTCPConn :=
  fold_left (fun c io => fst (ProxyTCPConn.Write c io)) ios conn.

Definition runReads (ios : list RawIO) (conn : ProxyTCPConn.proxyTCPConn)
  : ProxyTCPConn.proxyTCPConn :=
  fold_left (fun c io => fst (ProxyTCPConn.Read c io)) ios conn.

Definition addBandwidth (n : Z) (ctx : ProxyCtx) : ProxyCtx :=
  let mc := ForwardMetricsCounters ctx in
  match ProxyBandwidth mc with
  | Some b => set_ForwardMetricsCounters ctx (mkMetrics (Requests mc) (Some (b + n)) (TLSTimes mc))
  | None => ctx
  end.

Definition observeTLSTime (ms : Z) (ctx : ProxyCtx) : ProxyCtx :=
  let mc := ForwardMetricsCounters ctx in
  match TLSTimes mc with
  | Some l => set_ForwardMetricsCounters ctx (mkMetrics (Requests mc) (ProxyBandwidth mc) (Some (l ++ [ms])%list))
  | None => ctx
  end.

Definition set_RequestURI (u : string) (r : Request) : Request :=
  mkRequest (URL_Host r) (URL_String r) u (req_Header r).

Definition set_req_Header (h : gmap string (list string)) (r : Request) : Request :=
  mkRequest (URL_Host r) (URL_String r) (RequestURI r) h.

(** The writer's first statement:
    [if req.Header.Get("User-Agent") == "" { req.Header.Set("User-Agent", "") }]. *)
Definition ensureUserAgent (r : Request) : Request :=
  if String.eqb (Header_Get (req_Header r) "User-Agent") ""
  then set_req_Header (Header_Set "User-Agent" "" (req_Header r)) r
  else r.

(** The two workers and the orchestrator's two receives (from
    "Write the request." to the end of [RoundTrip]). The writer and the
    reader change disjoint fields of [conn], so the writer's calls are
    listed first, then the [cs_reads_done] reads that are over when the
    writer's signal is received, then the remaining reads. When the
    writer's signal is an error the function returns with the reader
    still running: the state it returns has the reads done so far. *)
Definition exchange (cs : ConnScript) (conn : ProxyTCPConn.proxyTCPConn) (s : St)
  : Result * St :=
  (* the writer *)
  let s := upd_req ensureUserAgent s in
  let s := emit (EvWriteRequest (usesWriteProxy (st_ctx s)) (req_Header (st_req s))) s in
  let conn := runWrites (cs_ser_writes cs) conn in
  let err := cs_ser_err cs in
  let '(conn, s) :=
    match err with
    | None => (runWrites (cs_flush_writes cs) conn, emit EvFlush s)
    | Some _ => (conn, Logf "req.Write failed: %v - conn read %v, conn written %v" s)
    end in
  (* the reader, up to the moment the writer's signal is received *)
  let conn := runReads (firstn (cs_reads_done cs) (cs_reads cs)) conn in
  let s := emit (EvWriteDone err) s in
  match err with
  | Some e =>
      let s := Logf "error-metric: writeDone failed: %v - conn read %v, conn written %v" s in
      let s := if negb (strings_Contains e "timeout") then upd_ctx SetErrorMetric s else s in
      ((None, Some e), set_conn (Some conn) s)
  | None =>
      let s :=
        upd_ctx (fun c => set_Bytes c (ProxyTCPConn.BytesWrote conn) (ProxyTCPConn.BytesRead conn)) s in
      (* the reader's remaining reads, then its signal *)
      let conn := runReads (skipn (cs_reads_done cs) (cs_reads cs)) conn in
      let s := set_conn (Some conn) s in
      match cs_parse cs with
      | inr e =>
          let s := emit (EvReadDone (Some e)) s in
          let s := Logf "error-metric: readDone failed: %v" s in
          let s := if negb (strings_Contains e "timeout") then upd_ctx SetErrorMetric s else s in
          ((None, Some e), s)
      | inl (status, body) =>
          let resp := readResponse status body in
          let resp := mkResponse (StatusCode resp) (connCloser (Body resp)) in
          let s := emit (EvReadDone None) s in
          let s := upd_ctx SetSuccessMetric s in
          let s :=
            upd_ctx (addBandwidth (wrap64 (ProxyTCPConn.BytesWrote conn + ProxyTCPConn.BytesRead conn))) s in
          ((Some resp, None), s)
      end
  end.

(** From [conn := newProxyTCPConn(rawConn)] to the end of
    [if setTargetKA { ... }]: wrap the raw connection and tune it. *)
Definition wrapAndTune (cs : ConnScript) (setTargetKA : bool) (s : St)
  : ProxyTCPConn.proxyTCPConn * St :=
  let ctx := st_ctx s in
  let conn :=
    ProxyTCPConn.newProxyTCPConn
      (mkRawConn (cs_isTCP cs) None None (cs_keepAlive cs) (cs_keepAlivePeriod cs) false 0) in
  let conn := ProxyTCPConn.set_Logger (ProxyLogger ctx) conn in
  let conn := ProxyTCPConn.set_timeouts (time_Second * 5) (time_Second * 5) true conn in
  let tcpKAPeriod := if 0 <? TCPKeepAlivePeriod ctx then TCPKeepAlivePeriod ctx else 5 in
  let tcpKACount := if 0 <? TCPKeepAliveCount ctx then TCPKeepAliveCount ctx else 3 in
  let tcpKAInterval := if 0 <? TCPKeepAliveInterval ctx then TCPKeepAliveInterval ctx else 3 in
  if setTargetKA then
    let '(conn, kaErr) :=
      ProxyTCPConn.SetKeepaliveParameters (cs_type cs) (cs_SetKeepAlive cs)
        (cs_SetKeepAlivePeriod cs) conn false tcpKACount tcpKAInterval tcpKAPeriod in
    let s := emit (EvKeepalive tcpKACount tcpKAInterval tcpKAPeriod kaErr) s in
    match kaErr with
    | Some _ =>
        (ProxyTCPConn.set_timeouts (wrap64 (time_Second * ProxyReadDeadline ctx))
                                   (wrap64 (time_Second * ProxyWriteDeadline ctx)) false conn,
         Logf "HTTP conn KeepAlive error: %v" s)
    | None => (conn, s)
    end
  else (conn, s).

(** From [req.RequestURI = req.URL.String()] on: wrap and tune the
    connection, then run the exchange on it. The buffer size only decides
    how the library groups its raw calls, which the script fixes. *)
Definition afterDial (cs : ConnScript) (setTargetKA : bool) (s : St) : Result * St :=
  let s := upd_req (fun r => set_RequestURI (URL_String r) r) s in
  let '(conn, s) := wrapAndTune cs setTargetKA s in
  exchange cs conn (set_conn (Some conn) s).

(** What one pass through the body of [RoundTrip] ends in: a [return] of a
    result, or the tail call [return ctx.RoundTrip(req)]. *)
Inductive Step :=
| Done (r : Result) (s : St)
| Retry (s : St).

(** The resolver chain of the dial-failure block: the primary resolver,
    then the backup one if the primary failed and a backup is configured. *)
Definition resolveChain (env : Env) (host : string) (s : St)
  : list string * list string * option error * St :=
  let name := split_head ":"%char host in
  let '(c4, c6, err) := env_resolveDomain env (st_resolves s) name (DNSResolver (st_ctx s)) in
  let s := count_resolve (emit (EvResolve name (DNSResolver (st_ctx s))) s) in
  if notnil err && nonempty (BackupDNSResolver (st_ctx s)) then
    let '(c4, c6, err) :=
      env_resolveDomain env (st_resolves s) name (BackupDNSResolver (st_ctx s)) in
    (c4, c6, err, count_resolve (emit (EvResolve name (BackupDNSResolver (st_ctx s))) s))
  else (c4, c6, err, s).

(** The block [if err != nil { ... }] after the forward-mode dial.
    Its first statement, [c4, c6, err := ctx.Proxy.resolveDomain(...)],
    declares a new [err] for the block; the dial error [dialErr] of the
    enclosing scope is not mentioned again, and the closing
    [return nil, err] returns the resolver chain's. *)
Definition dialFailure (env : Env) (host : string) (dialErr : error) (s : St) : Step :=
  let '(c4, c6, err, s) := resolveChain env host s in
  let s :=
    if (0 <? Z.of_nat (length c4)) && (0 <? Z.of_nat (length c6))
    then upd_ctx SetErrorMetric (Logf "error-metric: http dial to %s failed: %v" s)
    else s in
  match ForwardProxyErrorFallback (st_ctx s) with
  | Some fallback =>
      let '(newForwardProxy, extra) := fallback tt in
      let s := emit (EvFallback newForwardProxy extra) s in
      let s := upd_ctx (fun c => set_ForwardProxyErrorFallback c None) s in
      if nonempty newForwardProxy then
        let s := upd_ctx (fun c => set_ForwardProxy c newForwardProxy) s in
        let s :=
          if ForwardProxyErrorFallbackAuth (st_ctx s)
          then upd_ctx (fun c => set_ForwardProxyAuth c extra) s
          else upd_ctx (fun c => set_Accounting c extra) s in
        Retry s
      else Done (None, err) s
  | None => Done (None, err) s
  end.

(** Modelled from the spec: [NewConnectDialWithKeepAlives] is not among
    the two source files. Section 4.4: the forward dialer dials through the
    upstream proxy,
    "injecting a Proxy-Authorization header when auth is configured and any
    custom headers ... before the CONNECT/relay dial completes". So the
    handler is run on the dial's own, initially empty, header, once per
    dial, and the outcome of the dial is the environment's. *)
Definition forwardDial (env : Env) (tr : Transport) (host : string) (s : St)
  : DialResult * St :=
  let s :=
    fold_left (fun s _ => Logf "setting proxy header %+v" s)
              (ForwardProxyHeaders (st_ctx s)) s in
  (env_dial env (st_dials s),
   count_dial (emit (EvDial tr "tcp4" host (connectReqHandler (st_ctx s) ∅)) s)).

Definition directDial (env : Env) (tr : Transport) (host : string) (s : St)
  : DialResult * St :=
  (env_dial env (st_dials s), count_dial (emit (EvDial tr "tcp4" host ∅) s)).

(** [dialTimeout], the dialer [d] and its optional local address. *)
Definition newDialer (env : Env) (s : St) : Dialer * St :=
  let ctx := st_ctx s in
  let dialTimeout :=
    if ForwardProxyDialTimeout ctx =? 0 then 20 else ForwardProxyDialTimeout ctx in
  let '(localAddr, s) :=
    if nonempty (ForwardProxySourceIP ctx) then
      match env_ResolveTCPAddr env (net_JoinHostPort (ForwardProxySourceIP ctx) "0") with
      | inr _ => (None, Logf "Failed to resolve local address: %s - err: %v" s)
      | inl a => (Some a, s)
      end
    else (None, s) in
  (directDialer (wrap64 (dialTimeout * time_Second)) localAddr, s).

(** [host]: the URL's host, with port 80 when it names none. *)
Definition dialHost (r : Request) : string :=
  if negb (strings_Contains (URL_Host r) ":") then URL_Host r +:+ ":80" else URL_Host r.

(** [idleTimeout], [maxConns], [maxPerHostConns]. *)
Record Pool := mkPool {
  idleTimeout : Z;
  maxConns : Z;
  maxPerHostConns : Z
}.

Definition poolOf (ctx : ProxyCtx) : Pool :=
  mkPool (if negb (IdleConnTimeout ctx =? 0) then IdleConnTimeout ctx else 90 * time_Second)
         (if negb (MaxIdleConns ctx =? 0) then MaxIdleConns ctx else 100)
         (if negb (MaxIdleConnsPerHost ctx =? 0) then MaxIdleConnsPerHost ctx else 2).

(** The branch [if ctx.ForwardProxy != "" { ... }]. *)
Definition forwardMode (env : Env) (pool : Pool) (host : string) (s : St) : Step :=
  let s :=
    if String.eqb (ForwardProxyProto (st_ctx s)) ""
    then upd_ctx (fun c => set_ForwardProxyProto c "http") s
    else s in
  let tlsTimeout :=
    if ForwardProxyTLSTimeout (st_ctx s) =? 0 then 15 else ForwardProxyTLSTimeout (st_ctx s) in
  let proxyURL := ForwardProxyProto (st_ctx s) +:+ "://" +:+ ForwardProxy (st_ctx s) in
  let '(dialContext, s) :=
    if 0 <? ForwardProxyFallbackTimeout (st_ctx s) then
      (Some (wrap64 (ForwardProxyFallbackTimeout (st_ctx s) * time_Second)),
       upd_ctx (fun c =>
         set_ForwardProxyFallbackTimeout c
           (if 0 <? ForwardProxyFallbackSecondaryTimeout c
            then ForwardProxyFallbackSecondaryTimeout c else 10)) s)
    else (None, s) in
  let tr :=
    mkTransport (Some proxyURL) (connectDialer proxyURL) dialContext
      (maxConns pool) (maxPerHostConns pool) (idleTimeout pool) false
      (wrap64 (tlsTimeout * time_Second)) (1 * time_Second) in
  let '(dial, s) := forwardDial env tr host s in
  match dial_conn dial with
  | inr err => dialFailure env host err s
  | inl cs =>
      let tlsTime := Z.quot (dial_end dial) 1000000 - Z.quot (dial_start dial) 1000000 in
      let '(r, s) := afterDial cs false (upd_ctx (observeTLSTime tlsTime) s) in
      Done r s
  end.

(** The [else] branch: no forward proxy. *)
Definition directMode (env : Env) (d : Dialer) (pool : Pool) (host : string) (s : St) : Step :=
  let setTargetKA := true in
  let tlsTimeout :=
    if ForwardProxyTLSTimeout (st_ctx s) =? 0 then 15 else ForwardProxyTLSTimeout (st_ctx s) in
  let tr :=
    mkTransport None d None (maxConns pool) (maxPerHostConns pool) (idleTimeout pool)
      (ForwardDisableHTTPKeepAlives (st_ctx s))
      (wrap64 (tlsTimeout * time_Second)) (1 * time_Second) in
  let '(dial, s) := directDial env tr host s in
  match dial_conn dial with
  | inr err => Done (None, Some err) s
  | inl cs => let '(r, s) := afterDial cs setTargetKA s in Done r s
  end.

(** One pass through the body of [RoundTrip]. *)
Definition attempt (env : Env) (s : St) : Step :=
  match RoundTripper (st_ctx s) with
  | Some h => let '(r, s') := env_RoundTripper env h s in Done r s'
  | None =>
      let '(d, s) := newDialer env s in
      let host := dialHost (st_req s) in
      let pool := poolOf (st_ctx s) in
      if nonempty (ForwardProxy (st_ctx s))
      then forwardMode env pool host s
      else directMode env d pool host s
  end.

(** A context can cause a retry only while it holds its callback. *)
Definition retries_left (s : St) : nat :=
  if notnil (ForwardProxyErrorFallback (st_ctx s)) then 1%nat else 0%nat.

(** [RoundTrip]: passes through the body until one returns. *)
Equations? RoundTrip (env : Env) (s : St) : Result * St by wf (retries_left s) lt :=
  RoundTrip env s with inspect (attempt env s) := {
    | exist _ (Done r s') _ := (r, s');
    | exist _ (Retry s') Hstep := RoundTrip env s' }.
Proof.
  assert (Hlog : forall (l : list ForwardProxyHeader) y,
             st_ctx (fold_left (fun s _ => Logf "setting proxy header %+v" s) l y) = st_ctx y).
  { induction l as [|a l IH]; intros y; [reflexivity|]. cbn. rewrite IH. reflexivity. }
  assert (Hmet : forall c,
             ForwardProxyErrorFallback (SetErrorMetric c) = ForwardProxyErrorFallback c).
  { intros c. unfold SetErrorMetric, Requests_Inc.
    destruct (_ && _); [destruct (Requests _)|]; reflexivity. }
  clear RoundTrip. revert Hstep. unfold attempt, retries_left.
  destruct (RoundTripper (st_ctx s)).
  { destruct (env_RoundTripper env n s). discriminate. }
  destruct (newDialer env s) as [d s0] eqn:Hd.
  assert (H0 : st_ctx s0 = st_ctx s).
  { revert Hd. unfold newDialer.
    destruct (nonempty _); [destruct (env_ResolveTCPAddr env _)|]; intros [= <- <-]; reflexivity. }
  clear Hd. rewrite <- H0. clear H0 s. rename s0 into s.
  destruct (nonempty (ForwardProxy (st_ctx s))).
  2:{ unfold directMode, directDial. destruct (dial_conn _); [|discriminate].
      destruct (afterDial _ _ _). discriminate. }
  unfold forwardMode.
  match goal with |- context [if 0 <? ?a then ?b else ?c] =>
    destruct (if 0 <? a then b else c) as [dc x] eqn:Hx end.
  assert (H1 : ForwardProxyErrorFallback (st_ctx x) = ForwardProxyErrorFallback (st_ctx s)).
  { revert Hx.
    destruct (0 <? _); destruct (String.eqb _ _); intros [= <- <-]; reflexivity. }
  clear Hx. unfold forwardDial. cbv beta iota.
  destruct (dial_conn _) as [cs|e].
  { destruct (afterDial _ _ _). discriminate. }
  unfold dialFailure, resolveChain.
  destruct (env_resolveDomain env _ _ _) as [[a4 a6] e1].
  destruct (notnil e1 && _);
    [destruct (env_resolveDomain env _ _ _) as [[b4 b6] e2]|]; cbv beta iota.
  all: destruct (_ && _); cbn [st_ctx upd_ctx Logf count_resolve count_dial emit];
    rewrite ?Hmet, Hlog, H1.
  all: destruct (ForwardProxyErrorFallback (st_ctx s)) as [f|]; [|discriminate].
  all: destruct (f tt) as [np extra]; destruct (nonempty np); [|discriminate].
  all: intros [= <-]; cbn; destruct (ForwardProxyErrorFallbackAuth _); cbn; lia.
Qed.

(** ** Notions used in the statements *)

(** The events of the dial and of the dial-failure block, of the tuning,
    and of the exchange. *)
Definition isDialEvent (e : Event) : Prop :=
  match e with
  | EvDial _ _ _ _ | EvResolve _ _ | EvFallback _ _ => True
  | _ => False
  end.

Definition isKeepaliveEvent (e : Event) : Prop :=
  match e with EvKeepalive _ _ _ _ => True | _ => False end.

Definition isExchangeEvent (e : Event) : Prop :=
  match e with
  | EvWriteRequest _ _ | EvFlush | EvWriteDone _ | EvReadDone _ => True
  | _ => False
  end.

(** From [s] to [s'] the trace grew by events that satisfy [P]. *)
Definition appends (P : Event -> Prop) (s s' : St) : Prop :=
  exists l, st_trace s' = (st_trace s ++ l)%list /\ Forall P l.

(** What no statement before the exchange changes in the context: the
    byte fields, the deadlines and keepalive tunables, the plugged round
    tripper, the write flag, the "ok" counters, and whether a forward
    proxy is set. *)
Definition ctx_kept (c c' : ProxyCtx) : Prop :=
  RoundTripper c' = RoundTripper c /\
  BytesSent c' = BytesSent c /\ BytesReceived c' = BytesReceived c /\
  ProxyReadDeadline c' = ProxyReadDeadline c /\
  ProxyWriteDeadline c' = ProxyWriteDeadline c /\
  ForwardProxyRegWrite c' = ForwardProxyRegWrite c /\
  nonempty (ForwardProxy c') = nonempty (ForwardProxy c) /\
  notnil (Requests (ForwardMetricsCounters c')) = notnil (Requests (ForwardMetricsCounters c)) /\
  forall t, requestCount c' t "ok" = requestCount c t "ok".

(** The keepalive call of [wrapAndTune]: its three tunables and its result. *)
Definition keepaliveOf (cs : ConnScript) (ctx : ProxyCtx) : Event :=
  let period := if 0 <? TCPKeepAlivePeriod ctx then TCPKeepAlivePeriod ctx else 5 in
  let count := if 0 <? TCPKeepAliveCount ctx then TCPKeepAliveCount ctx else 3 in
  let interval := if 0 <? TCPKeepAliveInterval ctx then TCPKeepAliveInterval ctx else 3 in
  EvKeepalive count interval period
    (snd (ProxyTCPConn.SetKeepaliveParameters (cs_type cs) (cs_SetKeepAlive cs)
            (cs_SetKeepAlivePeriod cs)
            (ProxyTCPConn.set_timeouts (time_Second * 5) (time_Second * 5) true
               (ProxyTCPConn.set_Logger (ProxyLogger ctx)
                  (ProxyTCPConn.newProxyTCPConn
                     (mkRawConn (cs_isTCP cs) None None (cs_keepAlive cs)
                                (cs_keepAlivePeriod cs) false 0))))
            false count interval period)).

Definition keepaliveResult (e : Event) : option error :=
  match e with EvKeepalive _ _ _ res => res | _ => None end.

(** The tuned connection and the state in which the exchange starts, for
    a dial that ended in state [s]. *)
Definition tuned (cs : ConnScript) (ka : bool) (s : St) : ProxyTCPConn.proxyTCPConn * St :=
  wrapAndTune cs ka (upd_req (fun r => set_RequestURI (URL_String r) r) s).

Definition exchangeStart (cs : ConnScript) (ka : bool) (s : St) : St :=
  set_conn (Some (fst (tuned cs ka s))) (snd (tuned cs ka s)).

(** How often [Close] was called on the raw connection, and whether it is
    closed. *)
Definition connCloseCalls (s : St) : option nat :=
  match st_conn s with
  | Some c => Some (closeCalls (ProxyTCPConn.Conn c))
  | None => None
  end.

Definition connClosed (s : St) : option bool :=
  match st_conn s with
  | Some c => Some (closed (ProxyTCPConn.Conn c))
  | None => None
  end.

(** The counters of the connection in the state. *)
Definition connBytesWrote (s : St) : option Z :=
  match st_conn s with
  | Some c => Some (ProxyTCPConn.BytesWrote c)
  | None => None
  end.

Definition connBytesRead (s : St) : option Z :=
  match st_conn s with
  | Some c => Some (ProxyTCPConn.BytesRead c)
  | None => None
  end.

(** [s1] is [s] after one more dial. *)
Definition dialled (s s1 : St) : Prop :=
  appends isDialEvent s s1 /\ ctx_kept (st_ctx s) (st_ctx s1) /\
  st_conn s1 = st_conn s /\ st_req s1 = st_req s /\ st_dials s1 = S (st_dials s).

(** The state but for the log. *)
Definition core (s : St) :=
  (st_ctx s, st_req s, st_conn s, st_trace s, st_dials s, st_resolves s, st_bodyCloses s).

(** ** Sequences of operations on one instrumented connection *)

Inductive Op :=
| OpWrite (io : RawIO)
| OpRead (io : RawIO).

Definition op_io (op : Op) : RawIO :=
  match op with OpWrite io => io | OpRead io => io end.

Definition runOp (conn : ProxyTCPConn.proxyTCPConn) (op : Op) : ProxyTCPConn.proxyTCPConn :=
  match op with
  | OpWrite io => fst (ProxyTCPConn.Write conn io)
  | OpRead io => fst (ProxyTCPConn.Read conn io)
  end.

Definition runOps (ops : list Op) (conn : ProxyTCPConn.proxyTCPConn)
  : ProxyTCPConn.proxyTCPConn := fold_left runOp ops conn.

(** The bytes that crossed the wire in the raw calls that returned no error. *)
Definition io_bytes (io : RawIO) : Z :=
  match io_err io with None => io_n io | Some _ => 0 end.

Fixpoint written (ops : list Op) : Z :=
  match ops with
  | [] => 0
  | OpWrite io :: rest => io_bytes io + written rest
  | OpRead _ :: rest => written rest
  end.

Fixpoint received (ops : list Op) : Z :=
  match ops with
  | [] => 0
  | OpRead io :: rest => io_bytes io + received rest
  | OpWrite _ :: rest => received rest
  end.

(** The contract of [io.Reader] and [io.Writer]: a call reports a
    non-negative number of bytes. *)
Definition io_nonneg (op : Op) : Prop := 0 <= io_n (op_io op).

(** The plain wrapper seen as the TCP one (no logger, flag off): the two
    declarations in proxy_conn.go have the same four fields in common. *)
Definition asTCP (c : ProxyConn.proxyConn) : ProxyTCPConn.proxyTCPConn :=
  ProxyTCPConn.mk (ProxyConn.Conn c) (ProxyConn.BytesWrote c) (ProxyConn.BytesRead c)
    (ProxyConn.ReadTimeout c) (ProxyConn.WriteTimeout c) false false.

(** ** Loopback addresses *)

(** Follows the spec's words ("whether the forward-proxy address is
    loopback"), not the code: the host of a [host:port] address is a
    loopback address when it is an IPv4 literal in 127.0.0.0/8 or the IPv6
    literal [::1]. *)
Fixpoint split_on (sep : ascii) (s : string) : list string :=
  match s with
  | EmptyString => [EmptyString]
  | String c s' =>
      if Ascii.eqb c sep then EmptyString :: split_on sep s'
      else match split_on sep s' with
           | [] => [String c EmptyString]
           | w :: ws => String c w :: ws
           end
  end.

Definition digit (c : ascii) : option nat :=
  let n := nat_of_ascii c in
  if (48 <=? n)%nat && (n <=? 57)%nat then Some (n - 48)%nat else None.

Fixpoint decimal (acc : nat) (s : string) : option nat :=
  match s with
  | EmptyString => Some acc
  | String c s' =>
      match digit c with
      | Some d => decimal (10 * acc + d) s'
      | None => None
      end
  end.

Definition octet (s : string) : option nat :=
  if (String.length s =? 0)%nat || (3 <? String.length s)%nat then None
  else match decimal 0 s with
       | Some n => if (n <=? 255)%nat then Some n else None
       | None => None
       end.

Definition isLoopbackAddr (addr : string) : bool :=
  if String.prefix "[::1]:" addr then true
  else
    match split_on "."%char (split_head ":"%char addr) with
    | [a; b; c; d] =>
        match octet a, octet b, octet c, octet d with
        | Some a, Some _, Some _, Some _ => (a =? 127)%nat
        | _, _, _, _ => false
        end
    | _ => false
    end.

(** What reads and writes leave alone: the configuration of the wrapper
    and, on the raw connection, everything but the deadlines. *)
Definition same_config (c c' : ProxyTCPConn.proxyTCPConn) : Prop :=
  ProxyTCPConn.ReadTimeout c' = ProxyTCPConn.ReadTimeout c /\
  ProxyTCPConn.WriteTimeout c' = ProxyTCPConn.WriteTimeout c /\
  ProxyTCPConn.IgnoreDeadlineErrors c' = ProxyTCPConn.IgnoreDeadlineErrors c /\
  closed (ProxyTCPConn.Conn c') = closed (ProxyTCPConn.Conn c) /\
  closeCalls (ProxyTCPConn.Conn c') = closeCalls (ProxyTCPConn.Conn c) /\
  keepAlive (ProxyTCPConn.Conn c') = keepAlive (ProxyTCPConn.Conn c) /\
  keepAlivePeriod (ProxyTCPConn.Conn c') = keepAlivePeriod (ProxyTCPConn.Conn c).

(** ** Interleavings of the two workers *)

(** The writes of a sequence of operations, and its reads, in their order. *)
Fixpoint writes_of (ops : list Op) : list RawIO :=
  match ops with
  | [] => []
  | OpWrite io :: rest => io :: writes_of rest
  | OpRead _ :: rest => writes_of rest
  end.

Fixpoint reads_of (ops : list Op) : list RawIO :=
  match ops with
  | [] => []
  | OpRead io :: rest => io :: reads_of rest
  | OpWrite _ :: rest => reads_of rest
  end.

(** ** ctx.go: Charset *)

(** [strings.CutPrefix]: what follows the prefix [p] in [s]. *)
Fixpoint strings_CutPrefix (s p : string) : option string :=
  match p, s with
  | EmptyString, _ => Some s
  | String a p', String b s' => if Ascii.eqb a b then strings_CutPrefix s' p' else None
  | String _ _, EmptyString => None
  end.

(** What the group of [charsetFinder] takes at the head of [s], a starred
    class of every character but the space and the semicolon: the star is
    greedy, so it is every character up to the first space or semicolon. *)
Fixpoint charsetGroup (s : string) : string :=
  match s with
  | EmptyString => EmptyString
  | String c s' =>
      if Ascii.eqb c " " || Ascii.eqb c ";" then EmptyString
      else String c (charsetGroup s')
  end.

(** [charsetFinder.FindStringSubmatch(s)]; the expression is the literal
    [charset=] followed by the group. The result is the leftmost match and
    its group, [None] for nil. The group may be empty, so the expression
    matches wherever the literal starts, and the leftmost such place is
    taken. *)
Fixpoint charsetFinder_FindStringSubmatch (s : string) : option (list string) :=
  match s with
  | EmptyString => None
  | String _ s' =>
      match strings_CutPrefix s "charset=" with
      | Some rest => Some ["charset=" +:+ charsetGroup rest; charsetGroup rest]
      | None => charsetFinder_FindStringSubmatch s'
      end
  end.

(** [ctx.Charset()], given the header of [ctx.Resp]. [ctx.Resp] is nil
    until the request was sent; the function dereferences it unguarded, so
    on nil it panics: [None]. *)
Definition Charset (Resp : option (gmap string (list string))) : option string :=
  match Resp with
  | None => None
  | Some header =>
      match charsetFinder_FindStringSubmatch (Header_Get header "Content-Type") with
      | None => Some ""
      | Some charsets => Some (default "" (charsets !! 1%nat))
      end
  end.

(** No character of [s] is a space or a semicolon. *)
Definition noSeparator (s : string) : Prop :=
  Forall (fun c => c <> " "%char /\ c <> ";"%char) (String.list_ascii_of_string s).

(** ** ctx.go: the logging functions *)

Module Logging.

(** An argument of a formatting call: the request id, the session tag, or
    one of the caller's own arguments, which are handed through. *)
Inductive Arg :=
| ArgString (s : string)
| ArgInt (n : Z)
| ArgCaller (id : nat).

(** Where a line goes: one of the three functions of the leveled logger,
    or [ctx.Proxy.Logger.Printf]. *)
Inductive Sink := toDebugf | toInfof | toWarningf | toPrintf.

Record Call := mkCall {
  sink : Sink;
  format : string;
  args : list Arg
}.

(** The fields the logging functions read: [ctx.ProxyLogger != nil],
    [ctx.LogRequestID], [ctx.Session] and [ctx.Proxy.Verbose]. *)
Record LogCtx := mkLogCtx {
  ProxyLogger : bool;
  LogRequestID : string;
  Session : Z;
  Verbose : bool
}.

(** Line feed, the ["\n"] of [printf]. *)
Definition LF : string := String (ascii_of_nat 10) EmptyString.

(** Each function returns the one call it makes, or [None] when it makes
    none. [ctx.Session & 0xFF] is [Z.land] with 255. *)
Definition printf (ctx : LogCtx) (msg : string) (argv : list Arg) : option Call :=
  if Verbose ctx then
    if nonempty (LogRequestID ctx)
    then Some (mkCall toPrintf ("[%s] " +:+ msg +:+ LF) (ArgString (LogRequestID ctx) :: argv))
    else Some (mkCall toPrintf ("[%03d] " +:+ msg +:+ LF) (ArgInt (Z.land (Session ctx) 255) :: argv))
  else None.

Definition Logf (ctx : LogCtx) (msg : string) (argv : list Arg) : option Call :=
  if ProxyLogger ctx then
    if nonempty (LogRequestID ctx)
    then Some (mkCall toDebugf ("[%s] " +:+ msg) (ArgString (LogRequestID ctx) :: argv))
    else Some (mkCall toDebugf ("[%03d] " +:+ msg) (ArgInt (Z.land (Session ctx) 255) :: argv))
  else printf ctx msg argv.

Definition Infof (ctx : LogCtx) (msg : string) (argv : list Arg) : option Call :=
  if ProxyLogger ctx then
    if nonempty (LogRequestID ctx)
    then Some (mkCall toInfof ("[%s] " +:+ msg) (ArgString (LogRequestID ctx) :: argv))
    else Some (mkCall toInfof ("[%03d] " +:+ msg) (ArgInt (Z.land (Session ctx) 255) :: argv))
  else printf ctx msg argv.

Definition Warnf (ctx : LogCtx) (msg : string) (argv : list Arg) : option Call :=
  if ProxyLogger ctx then
    if nonempty (LogRequestID ctx)
    then Some (mkCall toWarningf ("[%s] " +:+ msg) (ArgString (LogRequestID ctx) :: argv))
    else Some (mkCall toWarningf ("[%03d] " +:+ msg) (ArgInt (Z.land (Session ctx) 255) :: argv))
  else printf ctx msg argv.

(** The three exported functions. *)
Inductive Level := LevelLogf | LevelInfof | LevelWarnf.

Definition log (l : Level) : LogCtx -> string -> list Arg -> option Call :=
  match l with
  | LevelLogf => Logf
  | LevelInfof => Infof
  | LevelWarnf => Warnf
  end.

End Logging.

(** The context after the dial of a forward-mode pass: the protocol
    defaulted, the fallback timeout replaced once it was used. *)
Definition afterForwardDial (c : ProxyCtx) : ProxyCtx :=
  set_ForwardProxyFallbackTimeout
    (set_ForwardProxyProto c
       (if String.eqb (ForwardProxyProto c) "" then "http" else ForwardProxyProto c))
    (if 0 <? ForwardProxyFallbackTimeout c
     then (if 0 <? ForwardProxyFallbackSecondaryTimeout c
           then ForwardProxyFallbackSecondaryTimeout c else 10)
     else ForwardProxyFallbackTimeout c).

(** The events of the dial-failure block. *)
Definition isFailureEvent (e : Event) : Prop :=
  match e with
  | EvResolve _ _ | EvFallback _ _ => True
  | _ => False
  end.

(** If [e] is a dial, it is a dial of [host] over tcp4. *)
Definition dialsOnly (host : string) (e : Event) : Prop :=
  match e with
  | EvDial _ network h _ => network = "tcp4" /\ h = host
  | _ => True
  end.

(** ** Sequences of metric calls *)

(** The label a metric function counts under. *)
Definition targetLabel (ctx : ProxyCtx) : string :=
  if strings_HasPrefix (ForwardProxy ctx) "127.0.0.1" then "local" else "spoof".

(** Calls of the two metric functions on one context, in their order:
    [true] is a call of [SetSuccessMetric], [false] one of
    [SetErrorMetric]. *)
Definition runMetrics (calls : list bool) (ctx : ProxyCtx) : ProxyCtx :=
  fold_left (fun c (ok : bool) => if ok then SetSuccessMetric c else SetErrorMetric c)
            calls ctx.

(** How many of the calls are calls of the function that counts under
    [outcome]. *)
Definition callsFor (outcome : string) (calls : list bool) : nat :=
  if String.eqb outcome "ok" then length (List.filter (fun ok : bool => ok) calls)
  else if String.eqb outcome "err" then length (List.filter negb calls)
  else 0%nat.

(** ** The context when an exchange starts *)

(** Whether the run is in forward mode and its first dial fails. *)
Definition firstDialFails (env : Env) (ctx : ProxyCtx) : bool :=
  nonempty (ForwardProxy ctx) &&
  match dial_conn (env_dial env 0) with inr _ => true | inl _ => false end.

(** What the resolver chain answers after a failed first dial: the
    primary resolver's answer, or the backup's when the primary returned
    an error and a backup is configured. *)
Definition resolverAnswer (env : Env) (ctx : ProxyCtx) (req : Request)
  : list string * list string * option error :=
  let name := split_head ":"%char (dialHost req) in
  let primary := env_resolveDomain env 0 name (DNSResolver ctx) in
  if notnil (snd primary) && nonempty (BackupDNSResolver ctx)
  then env_resolveDomain env 1 name (BackupDNSResolver ctx)
  else primary.

(** The forward proxy of the context when the exchange starts: after a
    failed first dial an exchange is reached through the callback only. *)
Definition proxyAtExchange (env : Env) (ctx : ProxyCtx) : string :=
  if firstDialFails env ctx then
    match ForwardProxyErrorFallback ctx with
    | Some fallback => fst (fallback tt)
    | None => ForwardProxy ctx
    end
  else ForwardProxy ctx.

(** The "err" counter of a label when the exchange starts: the caller's,
    and one more when a failed first dial was counted. *)
Definition errBeforeExchange (env : Env) (ctx : ProxyCtx) (req : Request) (t : string) : nat :=
  (requestCount ctx t "err" +
   if firstDialFails env ctx
      && (0 <? Z.of_nat (length (fst (fst (resolverAnswer env ctx req)))))%Z
      && (0 <? Z.of_nat (length (snd (fst (resolverAnswer env ctx req)))))%Z
      && notnil (Requests (ForwardMetricsCounters ctx))
      && String.eqb t (targetLabel ctx)
   then 1 else 0)%nat.

(** The dial whose connection the exchange runs on. *)
Definition lastDial (env : Env) (ctx : ProxyCtx) : DialResult :=
  env_dial env (if firstDialFails env ctx then 1%nat else 0%nat).

(** What the dial defaults and the dial-time observation leave of the
    context. *)
Definition entry_kept (c c' : ProxyCtx) : Prop :=
  RoundTripper c' = RoundTripper c /\
  ForwardProxy c' = ForwardProxy c /\
  ForwardProxyErrorFallback c' = ForwardProxyErrorFallback c /\
  ProxyBandwidth (ForwardMetricsCounters c') = ProxyBandwidth (ForwardMetricsCounters c) /\
  notnil (Requests (ForwardMetricsCounters c')) = notnil (Requests (ForwardMetricsCounters c)) /\
  forall t o, requestCount c' t o = requestCount c t o.

(** ** Scenarios *)

(** A connection with the 5 s timeouts of [RoundTrip]. *)
Definition conn_5s : ProxyTCPConn.proxyTCPConn :=
  ProxyTCPConn.set_timeouts (time_Second * 5) (time_Second * 5) true
    (ProxyTCPConn.newProxyTCPConn (mkRawConn true None None false None false 0)).

(** A context with a forward proxy and everything else at its zero value,
    but a resolver address and 30 s proxy deadlines. *)
Definition forwardCtx (forwardProxy auth : string) (headers : list ForwardProxyHeader)
    (metrics : MetricsCounters) (fallback : option (unit -> string * string)) : ProxyCtx :=
  mkCtx None false forwardProxy 0 0 auth "" headers metrics false false fallback
        0 0 "" false "8.8.8.8" "" 0 0 0 0 0 0 30 30 0 "" 0 0.

(** A context without forward proxy. *)
Definition directCtx (metrics : MetricsCounters)
    (fallback : option (unit -> string * string)) : ProxyCtx :=
  forwardCtx "" "" [] metrics fallback.

Definition freshMetrics : MetricsCounters := mkMetrics (Some ∅) (Some 0) (Some []).

Definition ctx_127_0_0_2 : ProxyCtx := forwardCtx "127.0.0.2:8080" "" [] freshMetrics None.

Definition req_example : Request := mkRequest "example.com" "http://example.com/" "" ∅.

Definition refused : DialResult := mkDial 0 5000000 (inr "connection refused").

(** A connection on which the request goes out in one write of 120 bytes
    at flush time and the response comes in with one read of 100 bytes,
    which returns after the writer has signalled. *)
Definition script_ok : ConnScript :=
  mkScript true None None [] None [mkRawIO 10 120 None] [mkRawIO 20 100 None]
           (inl (200, 0%nat)) 0 "*net.TCPConn" true (Some (15 * time_Second)).

Definition connected : DialResult := mkDial 0 7000000 (inl script_ok).

Definition resolves_both (n : nat) (host resolver : string)
  : list string * list string * option error :=
  (["93.184.216.34"], ["2606:2800:220:1::1"], None).

Definition resolves_nothing (n : nat) (host resolver : string)
  : list string * list string * option error :=
  ([], [], Some "no such host").

Definition envOf (dial : nat -> DialResult)
    (resolve : nat -> string -> string -> list string * list string * option error) : Env :=
  mkEnv dial resolve (fun a => inl a) (fun _ s => ((None, None), s)) (fun _ => None).

(** Every dial is refused. *)
Definition env_refused : Env := envOf (fun _ => refused) resolves_both.

(** The first dial is refused, the second connects. *)
Definition env_second_connects : Env :=
  envOf (fun n => match n with O => refused | _ => connected end) resolves_both.

Definition fallback_to_10_0_0_2 : unit -> string * string :=
  fun _ => ("10.0.0.2:3128", "acct-7").

Definition ctx_with_fallback : ProxyCtx :=
  forwardCtx "10.0.0.1:3128" "abc123" [] freshMetrics (Some fallback_to_10_0_0_2).

Definition ctx_direct_with_fallback : ProxyCtx :=
  directCtx freshMetrics (Some fallback_to_10_0_0_2).

(** A connection on which serializing the request fails. *)
Definition script_broken_pipe : ConnScript :=
  mkScript true None None [mkRawIO 10 0 (Some "write tcp: broken pipe")]
           (Some "write tcp: broken pipe") [] [] (inr "unexpected EOF") 0
           "*net.TCPConn" true (Some (15 * time_Second)).

Definition env_broken_pipe : Env :=
  envOf (fun _ => mkDial 0 7000000 (inl script_broken_pipe)) resolves_both.

Definition env_connects : Env := envOf (fun _ => connected) resolves_both.

Definition ctx_forward : ProxyCtx := forwardCtx "10.0.0.1:3128" "" [] freshMetrics None.

Definition ctx_direct : ProxyCtx := directCtx freshMetrics None.

(** A connection on which the write of the request runs into its deadline. *)
Definition script_write_timeout : ConnScript :=
  mkScript true None None [mkRawIO 10 0 (Some "write tcp 10.0.0.1:3128: i/o timeout")]
           (Some "write tcp 10.0.0.1:3128: i/o timeout") [] [] (inr "unexpected EOF") 0
           "*net.TCPConn" true (Some (15 * time_Second)).

Definition env_write_timeout : Env :=
  envOf (fun _ => mkDial 0 7000000 (inl script_write_timeout)) resolves_both.

(** A TCP connection whose socket refuses to switch keepalive on. *)
Definition script_keepalive_refused : ConnScript :=
  mkScript true (Some "set tcp 192.0.2.7:50314: setsockopt: operation not permitted") None
           [] None [mkRawIO 10 120 None] [mkRawIO 20 100 None]
           (inl (200, 0%nat)) 0 "*net.TCPConn" true (Some (15 * time_Second)).

Definition env_keepalive_refused : Env :=
  envOf (fun _ => mkDial 0 7000000 (inl script_keepalive_refused)) resolves_both.

(** The scenario of the spec: forward proxy 127.0.0.1:8080 with auth
    "abc123". *)
Definition ctx_auth : ProxyCtx := forwardCtx "127.0.0.1:8080" "abc123" [] freshMetrics None.


(** Every dial is refused and the resolver finds nothing. *)
Definition env_refused_unresolved : Env := envOf (fun _ => refused) resolves_nothing.

(** A callback that names no proxy. *)
Definition fallback_to_nothing : unit -> string * string := fun _ => ("", "acct-7").

Definition ctx_with_empty_fallback : ProxyCtx :=
  forwardCtx "10.0.0.1:3128" "" [] freshMetrics (Some fallback_to_nothing).

(** A connection on which the request goes out and the response cannot be
    parsed: the reader's 40 bytes end early. *)
Definition script_reader_eof : ConnScript :=
  mkScript true None None [] None [mkRawIO 10 120 None] [mkRawIO 20 40 None]
           (inr "unexpected EOF") 1 "*net.TCPConn" true (Some (15 * time_Second)).

Definition env_reader_eof : Env :=
  envOf (fun _ => mkDial 0 7000000 (inl script_reader_eof)) resolves_both.

(** A connection on which the request goes out and the read of the
    response runs into its deadline. *)
Definition script_read_timeout : ConnScript :=
  mkScript true None None [] None [mkRawIO 10 120 None]
           [mkRawIO 20 0 (Some "read tcp 10.0.0.1:3128: i/o timeout")]
           (inr "read tcp 10.0.0.1:3128: i/o timeout") 0
           "*net.TCPConn" true (Some (15 * time_Second)).

Definition env_read_timeout : Env :=
  envOf (fun _ => mkDial 0 7000000 (inl script_read_timeout)) resolves_both.

(** The transport of a direct dial from a context of zero values: the
    defaults of [RoundTrip]. *)
Definition transport_defaults : Transport :=
  mkTransport None (directDialer (20 * time_Second) None) None 100 2 (90 * time_Second)
              false (15 * time_Second) (1 * time_Second).

(** A forward-proxy context with a backup resolver, and a resolver
    service that only answers through the backup. *)
Definition ctx_backup_resolver : ProxyCtx :=
  mkCtx None false "10.0.0.1:3128" 0 0 "" "" [] freshMetrics false false None
        0 0 "" false "8.8.8.8" "1.1.1.1" 0 0 0 0 0 0 30 30 0 "" 0 0.

Definition resolves_by_backup (n : nat) (host resolver : string)
  : list string * list string * option error :=
  if String.eqb resolver "1.1.1.1"
  then (["93.184.216.34"], ["2606:2800:220:1::1"], None)
  else ([], [], Some "no such host").

Definition env_backup_resolves : Env := envOf (fun _ => refused) resolves_by_backup.

(** * Properties *)

(** ** 64-bit arithmetic *)

Lemma wrap64_id (z : Z) : int64_min <= z <= int64_max -> wrap64 z = z.
Proof.
  unfold wrap64, int64_min, int64_max. intros H.
  rewrite Z.mod_small by lia. lia.
Qed.

Lemma wrap64_range (z : Z) : int64_min <= wrap64 z <= int64_max.
Proof.
  unfold wrap64, int64_min, int64_max.
  pose proof (Z.mod_pos_bound (z + 2 ^ 63) (2 ^ 64) ltac:(lia)). lia.
Qed.

Lemma wrap64_add (a n : Z) :
  0 <= a -> 0 <= n -> a + n <= int64_max -> wrap64 (a + n) = a + n.
Proof. intros. apply wrap64_id. unfold int64_min. lia. Qed.

(** ** The instrumented connection *)

Module TCPFacts.
Import ProxyTCPConn.

Lemma Write_result conn io : snd (Write conn io) = (io_n io, io_err io).
Proof. unfold Write. destruct (io_err io); reflexivity. Qed.

Lemma Read_result conn io : snd (Read conn io) = (io_n io, io_err io).
Proof. unfold Read. destruct (io_err io); reflexivity. Qed.

Lemma armWrite_deadline conn now :
  0 < WriteTimeout conn ->
  writeDeadline (armWrite conn now) = Some (now + WriteTimeout conn).
Proof.
  intros H. unfold armWrite. apply Z.ltb_lt in H. rewrite H. reflexivity.
Qed.

Lemma armRead_deadline conn now :
  0 < ReadTimeout conn ->
  readDeadline (armRead conn now) = Some (now + ReadTimeout conn).
Proof.
  intros H. unfold armRead. apply Z.ltb_lt in H. rewrite H. reflexivity.
Qed.

Lemma armWrite_off conn now : WriteTimeout conn <= 0 -> armWrite conn now = Conn conn.
Proof.
  intros H. unfold armWrite. destruct (Z.ltb_spec 0 (WriteTimeout conn)); [lia|reflexivity].
Qed.

Lemma armRead_off conn now : ReadTimeout conn <= 0 -> armRead conn now = Conn conn.
Proof.
  intros H. unfold armRead. destruct (Z.ltb_spec 0 (ReadTimeout conn)); [lia|reflexivity].
Qed.

Lemma Write_ok conn io :
  io_err io = None ->
  Conn (fst (Write conn io)) = SetWriteDeadline None (armWrite conn (io_now io)) /\
  BytesWrote (fst (Write conn io)) = wrap64 (BytesWrote conn + io_n io) /\
  BytesRead (fst (Write conn io)) = BytesRead conn.
Proof. intros H. unfold Write. rewrite H. cbn. auto. Qed.

Lemma Write_err conn io :
  io_err io <> None ->
  Conn (fst (Write conn io)) = armWrite conn (io_now io) /\
  BytesWrote (fst (Write conn io)) = BytesWrote conn /\
  BytesRead (fst (Write conn io)) = BytesRead conn.
Proof. intros H. unfold Write. destruct (io_err io); [cbn; auto|congruence]. Qed.

Lemma Read_ok conn io :
  io_err io = None ->
  Conn (fst (Read conn io)) = SetReadDeadline None (armRead conn (io_now io)) /\
  BytesRead (fst (Read conn io)) = wrap64 (BytesRead conn + io_n io) /\
  BytesWrote (fst (Read conn io)) = BytesWrote conn.
Proof. intros H. unfold Read. rewrite H. cbn. auto. Qed.

Lemma Read_err conn io :
  io_err io <> None ->
  Conn (fst (Read conn io)) = armRead conn (io_now io) /\
  BytesRead (fst (Read conn io)) = BytesRead conn /\
  BytesWrote (fst (Read conn io)) = BytesWrote conn.
Proof. intros H. unfold Read. destruct (io_err io); [cbn; auto|congruence]. Qed.

(** [Write] and [Read] leave the timeouts and the flag alone. *)
Lemma Write_config conn io :
  ReadTimeout (fst (Write conn io)) = ReadTimeout conn /\
  WriteTimeout (fst (Write conn io)) = WriteTimeout conn /\
  IgnoreDeadlineErrors (fst (Write conn io)) = IgnoreDeadlineErrors conn.
Proof. unfold Write. destruct (io_err io); cbn; auto. Qed.

Lemma Read_config conn io :
  ReadTimeout (fst (Read conn io)) = ReadTimeout conn /\
  WriteTimeout (fst (Read conn io)) = WriteTimeout conn /\
  IgnoreDeadlineErrors (fst (Read conn io)) = IgnoreDeadlineErrors conn.
Proof. unfold Read. destruct (io_err io); cbn; auto. Qed.

(** One operation adds its bytes to its own counter. *)
Lemma runOp_counters conn op :
  BytesWrote (runOp conn op) =
    match op with
    | OpWrite io => match io_err io with
                    | None => wrap64 (BytesWrote conn + io_n io)
                    | Some _ => BytesWrote conn
                    end
    | OpRead _ => BytesWrote conn
    end /\
  BytesRead (runOp conn op) =
    match op with
    | OpRead io => match io_err io with
                   | None => wrap64 (BytesRead conn + io_n io)
                   | Some _ => BytesRead conn
                   end
    | OpWrite _ => BytesRead conn
    end.
Proof.
  destruct op as [io|io]; cbn; unfold Write, Read; destruct (io_err io); cbn; auto.
Qed.

Lemma written_nonneg ops : Forall io_nonneg ops -> 0 <= written ops.
Proof.
  induction 1 as [|op ops Hop _ IH]; cbn; [lia|].
  destruct op as [io|io]; [|exact IH].
  unfold io_bytes. unfold io_nonneg in Hop. cbn in Hop. destruct (io_err io); lia.
Qed.

Lemma received_nonneg ops : Forall io_nonneg ops -> 0 <= received ops.
Proof.
  induction 1 as [|op ops Hop _ IH]; cbn; [lia|].
  destruct op as [io|io]; [exact IH|].
  unfold io_bytes. unfold io_nonneg in Hop. cbn in Hop. destruct (io_err io); lia.
Qed.

(** As long as no counter overflows, a run of operations adds exactly
    the bytes of its successful calls. *)
Lemma runOps_counters ops : forall conn,
  Forall io_nonneg ops ->
  0 <= BytesWrote conn -> BytesWrote conn + written ops <= int64_max ->
  0 <= BytesRead conn -> BytesRead conn + received ops <= int64_max ->
  BytesWrote (runOps ops conn) = BytesWrote conn + written ops /\
  BytesRead (runOps ops conn) = BytesRead conn + received ops.
Proof.
  induction ops as [|op ops IH]; intros conn Hnn Hw0 Hw Hr0 Hr; cbn.
  - lia.
  - inversion Hnn as [|? ? Hop Hrest]; subst.
    pose proof (written_nonneg ops Hrest) as Hwn.
    pose proof (received_nonneg ops Hrest) as Hrn.
    change (runOps (op :: ops) conn) with (runOps ops (runOp conn op)).
    destruct (runOp_counters conn op) as [Ew Er].
    assert (Hstep : BytesWrote (runOp conn op) + written ops
                      = BytesWrote conn + written (op :: ops) /\
                    BytesRead (runOp conn op) + received ops
                      = BytesRead conn + received (op :: ops) /\
                    0 <= BytesWrote (runOp conn op) /\ 0 <= BytesRead (runOp conn op)).
    { rewrite Ew, Er. unfold io_nonneg in Hop.
      destruct op as [io|io]; cbn in Hw, Hr, Hop |- *; unfold io_bytes in *;
        destruct (io_err io); rewrite ?wrap64_add by lia; lia. }
    destruct Hstep as (A & B & C & D).
    destruct (IH (runOp conn op) Hrest C ltac:(lia) D ltac:(lia)) as [IHw IHr].
    unfold runOps in IHw, IHr. rewrite IHw, IHr. split; [exact A | exact B].
Qed.

End TCPFacts.

Lemma written_app (pre post : list Op) : written (pre ++ post) = written pre + written post.
Proof.
  induction pre as [|[io|io] pre IH]; cbn; rewrite ?IH; lia.
Qed.

Lemma received_app (pre post : list Op) : received (pre ++ post) = received pre + received post.
Proof.
  induction pre as [|[io|io] pre IH]; cbn; rewrite ?IH; lia.
Qed.

Lemma runOps_app (pre post : list Op) conn :
  runOps (pre ++ post) conn = runOps post (runOps pre conn).
Proof. unfold runOps. apply fold_left_app. Qed.

(** The plain wrapper and the TCP wrapper do the same. *)
Lemma asTCP_Write (c : ProxyConn.proxyConn) (io : RawIO) :
  asTCP (fst (ProxyConn.Write c io)) = fst (ProxyTCPConn.Write (asTCP c) io) /\
  snd (ProxyConn.Write c io) = snd (ProxyTCPConn.Write (asTCP c) io).
Proof.
  unfold ProxyConn.Write, ProxyTCPConn.Write. destruct (io_err io); cbn; auto.
Qed.

Lemma asTCP_Read (c : ProxyConn.proxyConn) (io : RawIO) :
  asTCP (fst (ProxyConn.Read c io)) = fst (ProxyTCPConn.Read (asTCP c) io) /\
  snd (ProxyConn.Read c io) = snd (ProxyTCPConn.Read (asTCP c) io).
Proof.
  unfold ProxyConn.Read, ProxyTCPConn.Read. destruct (io_err io); cbn; auto.
Qed.

(** C9. A write (a read) at time [now] on the instrumented connection
    enters the raw call with the deadline [now + timeout] armed when the
    timeout is positive; when the raw call succeeds the deadline is cleared
    and the counter grows by exactly [n]; when it fails the counter is
    unchanged and the raw connection is left as armed; so over any run of
    operations, and over any prefix of it, both counters never decrease.
    The counters are 64-bit: the statement is for runs that stay below
    2^63 bytes and raw calls that report a non-negative [n]. The plain
    [proxyConn] behaves the same, operation by operation. *)
Theorem instrumented_io_accounting
    (conn : ProxyTCPConn.proxyTCPConn) (io : RawIO) (ops : list Op) :
  0 <= io_n io ->
  0 <= ProxyTCPConn.BytesWrote conn -> ProxyTCPConn.BytesWrote conn + io_n io <= int64_max ->
  0 <= ProxyTCPConn.BytesRead conn -> ProxyTCPConn.BytesRead conn + io_n io <= int64_max ->
  Forall io_nonneg ops ->
  ProxyTCPConn.BytesWrote conn + written ops <= int64_max ->
  ProxyTCPConn.BytesRead conn + received ops <= int64_max ->
  let w := fst (ProxyTCPConn.Write conn io) in
  let r := fst (ProxyTCPConn.Read conn io) in
  (0 < ProxyTCPConn.WriteTimeout conn ->
     writeDeadline (ProxyTCPConn.armWrite conn (io_now io))
       = Some (io_now io + ProxyTCPConn.WriteTimeout conn)) /\
  (0 < ProxyTCPConn.ReadTimeout conn ->
     readDeadline (ProxyTCPConn.armRead conn (io_now io))
       = Some (io_now io + ProxyTCPConn.ReadTimeout conn)) /\
  (io_err io = None ->
     ProxyTCPConn.Conn w = SetWriteDeadline None (ProxyTCPConn.armWrite conn (io_now io)) /\
     writeDeadline (ProxyTCPConn.Conn w) = None /\
     ProxyTCPConn.BytesWrote w = ProxyTCPConn.BytesWrote conn + io_n io /\
     ProxyTCPConn.Conn r = SetReadDeadline None (ProxyTCPConn.armRead conn (io_now io)) /\
     readDeadline (ProxyTCPConn.Conn r) = None /\
     ProxyTCPConn.BytesRead r = ProxyTCPConn.BytesRead conn + io_n io) /\
  (io_err io <> None ->
     ProxyTCPConn.Conn w = ProxyTCPConn.armWrite conn (io_now io) /\
     ProxyTCPConn.BytesWrote w = ProxyTCPConn.BytesWrote conn /\
     ProxyTCPConn.Conn r = ProxyTCPConn.armRead conn (io_now io) /\
     ProxyTCPConn.BytesRead r = ProxyTCPConn.BytesRead conn) /\
  snd (ProxyTCPConn.Write conn io) = (io_n io, io_err io) /\
  snd (ProxyTCPConn.Read conn io) = (io_n io, io_err io) /\
  (forall pre post, ops = (pre ++ post)%list ->
     ProxyTCPConn.BytesWrote conn <= ProxyTCPConn.BytesWrote (runOps pre conn)
       <= ProxyTCPConn.BytesWrote (runOps ops conn) /\
     ProxyTCPConn.BytesRead conn <= ProxyTCPConn.BytesRead (runOps pre conn)
       <= ProxyTCPConn.BytesRead (runOps ops conn)) /\
  (forall c : ProxyConn.proxyConn,
     asTCP (fst (ProxyConn.Write c io)) = fst (ProxyTCPConn.Write (asTCP c) io) /\
     snd (ProxyConn.Write c io) = snd (ProxyTCPConn.Write (asTCP c) io) /\
     asTCP (fst (ProxyConn.Read c io)) = fst (ProxyTCPConn.Read (asTCP c) io) /\
     snd (ProxyConn.Read c io) = snd (ProxyTCPConn.Read (asTCP c) io)).
Proof.
  intros Hn Hw0 Hw Hr0 Hr Hops Hwo Hro w r. subst w r.
  repeat apply conj.
  - apply TCPFacts.armWrite_deadline.
  - apply TCPFacts.armRead_deadline.
  - intros Hok.
    destruct (TCPFacts.Write_ok conn io Hok) as (A & B & _).
    destruct (TCPFacts.Read_ok conn io Hok) as (C & D & _).
    rewrite A, B, C, D, !wrap64_add by lia. repeat split; reflexivity.
  - intros Herr.
    destruct (TCPFacts.Write_err conn io Herr) as (A & B & _).
    destruct (TCPFacts.Read_err conn io Herr) as (C & D & _).
    auto.
  - apply TCPFacts.Write_result.
  - apply TCPFacts.Read_result.
  - intros pre post ->.
    apply Forall_app in Hops as [Hpre Hpost].
    rewrite written_app in Hwo. rewrite received_app in Hro.
    pose proof (TCPFacts.written_nonneg _ Hpre).
    pose proof (TCPFacts.written_nonneg _ Hpost).
    pose proof (TCPFacts.received_nonneg _ Hpre).
    pose proof (TCPFacts.received_nonneg _ Hpost).
    destruct (TCPFacts.runOps_counters pre conn Hpre) as [P1 P2]; [lia | lia | lia | lia |].
    rewrite runOps_app.
    destruct (TCPFacts.runOps_counters post (runOps pre conn) Hpost) as [Q1 Q2]; lia.
  - intros c. destruct (asTCP_Write c io), (asTCP_Read c io). auto.
Qed.

Lemma instrumented_io_accounting_witness :
  ProxyTCPConn.BytesWrote
    (runOps [OpWrite (mkRawIO 10 120 None); OpRead (mkRawIO 20 0 (Some "i/o timeout"));
             OpRead (mkRawIO 30 100 None)] conn_5s) = 120 /\
  writeDeadline (ProxyTCPConn.armWrite conn_5s 10) = Some 5000000010.
Proof.
  pose proof (instrumented_io_accounting conn_5s (mkRawIO 10 120 None)
    [OpWrite (mkRawIO 10 120 None); OpRead (mkRawIO 20 0 (Some "i/o timeout"));
     OpRead (mkRawIO 30 100 None)]) as H.
  cbn in H. unfold int64_max, io_nonneg in H.
  specialize (H ltac:(lia) ltac:(lia) ltac:(lia) ltac:(lia) ltac:(lia)).
  specialize (H ltac:(repeat constructor; cbn; lia) ltac:(lia) ltac:(lia)).
  destruct H as (A & _). split; [reflexivity | apply A; reflexivity].
Defined.

(** ** The metrics *)

(** The spec-side notion of a loopback address, on examples. *)
Example loopback_examples :
  isLoopbackAddr "127.0.0.1:8080" = true /\ isLoopbackAddr "127.0.0.2:8080" = true /\
  isLoopbackAddr "[::1]:3128" = true /\ isLoopbackAddr "10.0.0.1:3128" = false /\
  isLoopbackAddr "127.0.0.1.example.com:80" = false /\ isLoopbackAddr "1270.0.0.1:80" = false.
Proof. repeat split; reflexivity. Qed.

Lemma nonempty_true (s : string) : nonempty s = true <-> s <> "".
Proof.
  unfold nonempty. rewrite negb_true_iff. apply String.eqb_neq.
Qed.

Lemma nonempty_false (s : string) : nonempty s = false <-> s = "".
Proof.
  unfold nonempty. rewrite negb_false_iff. apply String.eqb_eq.
Qed.

Lemma CounterVec_Inc_same (t o : string) (m : gmap (string * string) nat) :
  default 0%nat (CounterVec_Inc t o m !! (t, o)) = S (default 0%nat (m !! (t, o))).
Proof. unfold CounterVec_Inc. rewrite lookup_insert_eq. reflexivity. Qed.

Lemma CounterVec_Inc_other (t o t' o' : string) (m : gmap (string * string) nat) :
  (t, o) <> (t', o') ->
  default 0%nat (CounterVec_Inc t o m !! (t', o')) = default 0%nat (m !! (t', o')).
Proof. intros H. unfold CounterVec_Inc. rewrite lookup_insert_ne by exact H. reflexivity. Qed.

(** When the guard of a metric function fails, nothing is counted. *)
Lemma SetErrorMetric_off ctx :
  ForwardProxy ctx = "" \/ Requests (ForwardMetricsCounters ctx) = None ->
  SetErrorMetric ctx = ctx.
Proof.
  unfold SetErrorMetric. intros [H|H]; rewrite H; [reflexivity|].
  rewrite andb_false_r. reflexivity.
Qed.

Lemma SetSuccessMetric_off ctx :
  ForwardProxy ctx = "" \/ Requests (ForwardMetricsCounters ctx) = None ->
  SetSuccessMetric ctx = ctx.
Proof.
  unfold SetSuccessMetric. intros [H|H]; rewrite H; [reflexivity|].
  rewrite andb_false_r. reflexivity.
Qed.

(** The error metric never touches an "ok" counter, and conversely. *)
Lemma SetErrorMetric_ok_count ctx t :
  requestCount (SetErrorMetric ctx) t "ok" = requestCount ctx t "ok".
Proof.
  unfold SetErrorMetric, Requests_Inc, requestCount.
  destruct (_ && _); [|reflexivity].
  destruct (Requests (ForwardMetricsCounters ctx)) as [m|] eqn:Hm; [|rewrite Hm; reflexivity].
  cbn. apply CounterVec_Inc_other. congruence.
Qed.


(** What the error metric adds to the counter of a label. *)
Lemma SetErrorMetric_err_count ctx t :
  requestCount (SetErrorMetric ctx) t "err" =
    (requestCount ctx t "err" +
     if nonempty (ForwardProxy ctx) && notnil (Requests (ForwardMetricsCounters ctx))
        && String.eqb t (if strings_HasPrefix (ForwardProxy ctx) "127.0.0.1"
                         then "local" else "spoof")
     then 1 else 0)%nat.
Proof.
  unfold SetErrorMetric, Requests_Inc, requestCount.
  destruct (nonempty _); cbn [andb]; [|lia].
  destruct (Requests (ForwardMetricsCounters ctx)) as [m|] eqn:Hm; cbn; [|rewrite Hm; lia].
  destruct (String.eqb_spec t (if strings_HasPrefix (ForwardProxy ctx) "127.0.0.1"
                               then "local" else "spoof")) as [->|Hne].
  - rewrite CounterVec_Inc_same. lia.
  - rewrite CounterVec_Inc_other by congruence. lia.
Qed.

(** The metric functions change nothing but the request counter. *)
Lemma SetErrorMetric_frame ctx :
  exists m, SetErrorMetric ctx = set_ForwardMetricsCounters ctx m /\
            ProxyBandwidth m = ProxyBandwidth (ForwardMetricsCounters ctx) /\
            TLSTimes m = TLSTimes (ForwardMetricsCounters ctx).
Proof.
  unfold SetErrorMetric, Requests_Inc.
  destruct (_ && _); [destruct (Requests _)|]; eauto;
    exists (ForwardMetricsCounters ctx); destruct ctx; auto.
Qed.

Lemma SetSuccessMetric_frame ctx :
  exists m, SetSuccessMetric ctx = set_ForwardMetricsCounters ctx m /\
            ProxyBandwidth m = ProxyBandwidth (ForwardMetricsCounters ctx) /\
            TLSTimes m = TLSTimes (ForwardMetricsCounters ctx).
Proof.
  unfold SetSuccessMetric, Requests_Inc.
  destruct (_ && _); [destruct (Requests _)|]; eauto;
    exists (ForwardMetricsCounters ctx); destruct ctx; auto.
Qed.

(** C7, as the code has it. Whenever a metric function counts (a forward
    proxy is set and the request counter is present), it counts under the
    target label "local" if and only if the forward-proxy address, as a
    string, starts with "127.0.0.1", and under "spoof" otherwise. *)
Theorem target_label_by_prefix (ctx : ProxyCtx) (m : gmap (string * string) nat) :
  ForwardProxy ctx <> "" ->
  Requests (ForwardMetricsCounters ctx) = Some m ->
  exists target,
    Requests (ForwardMetricsCounters (SetErrorMetric ctx))
      = Some (CounterVec_Inc target "err" m) /\
    Requests (ForwardMetricsCounters (SetSuccessMetric ctx))
      = Some (CounterVec_Inc target "ok" m) /\
    (target = "local" <-> strings_HasPrefix (ForwardProxy ctx) "127.0.0.1" = true) /\
    (target = "spoof" <-> strings_HasPrefix (ForwardProxy ctx) "127.0.0.1" = false).
Proof.
  intros Hfp Hm. apply nonempty_true in Hfp.
  exists (if strings_HasPrefix (ForwardProxy ctx) "127.0.0.1" then "local" else "spoof").
  unfold SetErrorMetric, SetSuccessMetric, Requests_Inc. rewrite Hfp, Hm. cbn.
  destruct (strings_HasPrefix _ _); repeat split; intros; congruence.
Qed.

Lemma target_label_by_prefix_witness :
  exists target,
    Requests (ForwardMetricsCounters
                (SetErrorMetric (forwardCtx "127.0.0.1:8080" "" [] freshMetrics None)))
      = Some (CounterVec_Inc target "err" ∅) /\
    target = "local".
Proof.
  destruct (target_label_by_prefix (forwardCtx "127.0.0.1:8080" "" [] freshMetrics None) ∅)
    as (t & He & _ & Hl & _); [discriminate | reflexivity |].
  exists t. split; [exact He | apply Hl; reflexivity].
Defined.

(** C7, as stated, fails: 127.0.0.2 is a loopback address, and a metric for
    the forward proxy 127.0.0.2:8080 is counted under "spoof", not under
    "local". *)
Lemma target_label_loopback_counterexample :
  isLoopbackAddr (ForwardProxy ctx_127_0_0_2) = true /\
  requestCount (SetErrorMetric ctx_127_0_0_2) "local" "err" = 0%nat /\
  requestCount (SetErrorMetric ctx_127_0_0_2) "spoof" "err" = 1%nat /\
  requestCount (SetSuccessMetric ctx_127_0_0_2) "local" "ok" = 0%nat /\
  requestCount (SetSuccessMetric ctx_127_0_0_2) "spoof" "ok" = 1%nat.
Proof. repeat split; vm_compute; reflexivity. Qed.

(** ** The forward dialer's handler and the writer's wire form *)


(** A custom header is stored under its literal name with its value, and
    the last one of a name wins. *)
Lemma custom_headers_last (l : list ForwardProxyHeader) (p : ForwardProxyHeader) :
  forall h : gmap string (list string),
  fold_left (fun h pxyHeader => <[Header pxyHeader := [Value pxyHeader]]> h) (l ++ [p]) h
    !! Header p = Some [Value p].
Proof.
  intros h. rewrite fold_left_app. cbn. apply lookup_insert_eq.
Qed.

(** ** The exchange *)

(** The writer signalled [e]: the orchestrator's part is one log line, the
    error metric unless [e] mentions a timeout, and the return. *)
Lemma exchange_writer_failed cs conn s e :
  cs_ser_err cs = Some e ->
  fst (exchange cs conn s) = (None, Some e) /\
  st_ctx (snd (exchange cs conn s))
    = (if strings_Contains e "timeout" then st_ctx s else SetErrorMetric (st_ctx s)) /\
  st_trace (snd (exchange cs conn s))
    = (st_trace s ++ [EvWriteRequest (usesWriteProxy (st_ctx s))
                        (req_Header (ensureUserAgent (st_req s)));
                      EvWriteDone (Some e)])%list /\
  st_conn (snd (exchange cs conn s))
    = Some (runReads (firstn (cs_reads_done cs) (cs_reads cs))
                     (runWrites (cs_ser_writes cs) conn)) /\
  st_dials (snd (exchange cs conn s)) = st_dials s.
Proof.
  intros He. unfold exchange. rewrite He.
  destruct (strings_Contains e "timeout"); cbn; rewrite <- ?app_assoc; auto.
Qed.

(** The writer signalled nil: the counters are copied at that moment, then
    the reader's signal is awaited. *)
Lemma exchange_writer_ok cs conn s :
  cs_ser_err cs = None ->
  let snapshot :=
    runReads (firstn (cs_reads_done cs) (cs_reads cs))
      (runWrites (cs_flush_writes cs) (runWrites (cs_ser_writes cs) conn)) in
  let final := runReads (skipn (cs_reads_done cs) (cs_reads cs)) snapshot in
  BytesSent (st_ctx (snd (exchange cs conn s))) = ProxyTCPConn.BytesWrote snapshot /\
  BytesReceived (st_ctx (snd (exchange cs conn s))) = ProxyTCPConn.BytesRead snapshot /\
  st_conn (snd (exchange cs conn s)) = Some final /\
  fst (exchange cs conn s)
    = match cs_parse cs with
      | inl (status, body) => (Some (mkResponse status (connCloser (httpBody body))), None)
      | inr e => (None, Some e)
      end /\
  st_trace (snd (exchange cs conn s))
    = (st_trace s ++ [EvWriteRequest (usesWriteProxy (st_ctx s))
                        (req_Header (ensureUserAgent (st_req s)));
                      EvFlush; EvWriteDone None;
                      EvReadDone match cs_parse cs with inl _ => None | inr e => Some e end])%list /\
  st_dials (snd (exchange cs conn s)) = st_dials s.
Proof.
  intros He. unfold exchange. rewrite He.
  destruct (cs_parse cs) as [[status body]|e].
  - cbn. rewrite <- !app_assoc. repeat split.
    + destruct (SetSuccessMetric_frame
                  (set_Bytes (st_ctx s)
                     (ProxyTCPConn.BytesWrote
                        (runReads (firstn (cs_reads_done cs) (cs_reads cs))
                           (runWrites (cs_flush_writes cs) (runWrites (cs_ser_writes cs) conn))))
                     (ProxyTCPConn.BytesRead
                        (runReads (firstn (cs_reads_done cs) (cs_reads cs))
                           (runWrites (cs_flush_writes cs) (runWrites (cs_ser_writes cs) conn))))))
        as (m & -> & _).
      unfold addBandwidth. cbn. destruct (ProxyBandwidth m); reflexivity.
    + destruct (SetSuccessMetric_frame
                  (set_Bytes (st_ctx s)
                     (ProxyTCPConn.BytesWrote
                        (runReads (firstn (cs_reads_done cs) (cs_reads cs))
                           (runWrites (cs_flush_writes cs) (runWrites (cs_ser_writes cs) conn))))
                     (ProxyTCPConn.BytesRead
                        (runReads (firstn (cs_reads_done cs) (cs_reads cs))
                           (runWrites (cs_flush_writes cs) (runWrites (cs_ser_writes cs) conn))))))
        as (m & -> & _).
      unfold addBandwidth. cbn. destruct (ProxyBandwidth m); reflexivity.
  - destruct (strings_Contains e "timeout"); cbn; rewrite <- !app_assoc; repeat split.
    all: match goal with
         | |- context [SetErrorMetric ?c] =>
             destruct (SetErrorMetric_frame c) as (m & -> & _); reflexivity
         end.
Qed.

(** ** The retry *)

Lemma RoundTrip_step env s :
  RoundTrip env s =
    match attempt env s with
    | Done r s' => (r, s')
    | Retry s' => RoundTrip env s'
    end.
Proof.
  funelim (RoundTrip env s).
  - rewrite e. reflexivity.
  - rewrite Hstep. reflexivity.
Qed.

(** Splits the conjunctions that are written out in the goal. *)
Ltac conjs := repeat match goal with |- _ /\ _ => split end.

(** Closes [appends P s s'] when [s'] is [s] followed by explicit events. *)
Ltac appends_by_computation :=
  unfold appends; cbn; rewrite <- ?app_assoc;
  eexists; split; [reflexivity | cbn; repeat constructor].

Lemma appends_refl (P : Event -> Prop) s : appends P s s.
Proof. exists []. rewrite app_nil_r. auto. Qed.

Lemma appends_trans (P : Event -> Prop) s1 s2 s3 :
  appends P s1 s2 -> appends P s2 s3 -> appends P s1 s3.
Proof.
  intros (l1 & E1 & F1) (l2 & E2 & F2). exists (l1 ++ l2)%list.
  rewrite E2, E1, app_assoc. split; [reflexivity|]. apply Forall_app; auto.
Qed.

Lemma appends_weaken (P Q : Event -> Prop) s s' :
  (forall e, P e -> Q e) -> appends P s s' -> appends Q s s'.
Proof.
  intros HPQ (l & E & F). exists l. split; [exact E|].
  eapply Forall_impl; eauto.
Qed.

Lemma appends_same_trace (P : Event -> Prop) s s' :
  st_trace s' = st_trace s -> appends P s s'.
Proof. intros E. exists []. rewrite app_nil_r. auto. Qed.

Lemma appends_In (P : Event -> Prop) s s' e :
  appends P s s' -> In e (st_trace s') -> In e (st_trace s) \/ P e.
Proof.
  intros (l & E & F) Hin. rewrite E in Hin. apply in_app_or in Hin as [H|H]; [auto|].
  right. rewrite Forall_forall in F. apply F. apply list_elem_of_In. exact H.
Qed.

Lemma appends_keeps (P : Event -> Prop) s s' e :
  appends P s s' -> In e (st_trace s) -> In e (st_trace s').
Proof. intros (l & E & _) Hin. rewrite E. apply in_or_app. auto. Qed.

Lemma log_each_core (l : list ForwardProxyHeader) : forall s,
  core (fold_left (fun s _ => Logf "setting proxy header %+v" s) l s) = core s.
Proof.
  induction l as [|a l IH]; intros s; [reflexivity|]. cbn. rewrite IH. reflexivity.
Qed.

Lemma newDialer_core env s : core (snd (newDialer env s)) = core s.
Proof.
  unfold newDialer.
  destruct (nonempty _); [destruct (env_ResolveTCPAddr env _)|]; reflexivity.
Qed.

Lemma core_fields s s' :
  core s' = core s ->
  st_ctx s' = st_ctx s /\ st_req s' = st_req s /\ st_conn s' = st_conn s /\
  st_trace s' = st_trace s /\ st_dials s' = st_dials s /\
  st_resolves s' = st_resolves s /\ st_bodyCloses s' = st_bodyCloses s.
Proof. unfold core. intros [= -> -> -> -> -> -> ->]. repeat split. Qed.

(** The resolver chain asks once or twice and changes nothing else. *)
Lemma resolveChain_frame env host s :
  let s' := snd (resolveChain env host s) in
  st_ctx s' = st_ctx s /\ st_req s' = st_req s /\ st_conn s' = st_conn s /\
  st_dials s' = st_dials s /\ appends isDialEvent s s'.
Proof.
  unfold resolveChain.
  destruct (env_resolveDomain env (st_resolves s) _ _) as [[a4 a6] e1].
  destruct (notnil e1 && _).
  - destruct (env_resolveDomain env _ _ _) as [[b4 b6] e2]. cbn.
    repeat split. appends_by_computation.
  - cbn. repeat split. appends_by_computation.
Qed.

(** The dial-failure block, case by case. [c4], [c6] and [err] are the
    resolver chain's answer; the dial error does not appear. *)
Lemma dialFailure_spec env host dialErr s :
  exists s',
    let '(c4, c6, err, _) := resolveChain env host s in
    let c1 :=
      if (0 <? Z.of_nat (length c4)) && (0 <? Z.of_nat (length c6))
      then SetErrorMetric (st_ctx s) else st_ctx s in
    st_req s' = st_req s /\ st_conn s' = st_conn s /\ st_dials s' = st_dials s /\
    appends isDialEvent s s' /\
    match ForwardProxyErrorFallback (st_ctx s) with
    | None => dialFailure env host dialErr s = Done (None, err) s' /\ st_ctx s' = c1
    | Some fallback =>
        let c2 := set_ForwardProxyErrorFallback c1 None in
        if nonempty (fst (fallback tt)) then
          dialFailure env host dialErr s = Retry s' /\
          st_ctx s' =
            (if ForwardProxyErrorFallbackAuth (st_ctx s)
             then set_ForwardProxyAuth (set_ForwardProxy c2 (fst (fallback tt))) (snd (fallback tt))
             else set_Accounting (set_ForwardProxy c2 (fst (fallback tt))) (snd (fallback tt)))
        else
          dialFailure env host dialErr s = Done (None, err) s' /\ st_ctx s' = c2
    end.
Proof.
  unfold dialFailure.
  pose proof (resolveChain_frame env host s) as Hf.
  destruct (resolveChain env host s) as [[[c4 c6] err] s1]. cbn [snd] in Hf.
  destruct Hf as (Hctx & Hreq & Hconn & Hdials & Happ).
  set (both := (0 <? Z.of_nat (length c4)) && (0 <? Z.of_nat (length c6))).
  set (s2 := if both then upd_ctx SetErrorMetric (Logf _ s1) else s1).
  assert (H2 : st_ctx s2 = (if both then SetErrorMetric (st_ctx s) else st_ctx s) /\
               st_req s2 = st_req s /\ st_conn s2 = st_conn s /\ st_dials s2 = st_dials s /\
               appends isDialEvent s s2).
  { subst s2. destruct both; cbn; rewrite ?Hctx; repeat split; try assumption. }
  clearbody s2. destruct H2 as (Hc2 & Hr2 & Hn2 & Hd2 & Ha2).
  assert (Hfb : ForwardProxyErrorFallback (st_ctx s2) = ForwardProxyErrorFallback (st_ctx s)).
  { rewrite Hc2. destruct both; [|reflexivity].
    destruct (SetErrorMetric_frame (st_ctx s)) as (m & -> & _). reflexivity. }
  assert (Hfa : ForwardProxyErrorFallbackAuth (st_ctx s2) = ForwardProxyErrorFallbackAuth (st_ctx s)).
  { rewrite Hc2. destruct both; [|reflexivity].
    destruct (SetErrorMetric_frame (st_ctx s)) as (m & -> & _). reflexivity. }
  rewrite Hfb. destruct (ForwardProxyErrorFallback (st_ctx s)) as [f|].
  - destruct (f tt) as [np extra] eqn:Hf. cbn [fst snd].
    destruct (nonempty np).
    + eexists. repeat apply conj. 5: reflexivity.
      * cbn. destruct (ForwardProxyErrorFallbackAuth _); exact Hr2.
      * cbn. destruct (ForwardProxyErrorFallbackAuth _); exact Hn2.
      * cbn. destruct (ForwardProxyErrorFallbackAuth _); exact Hd2.
      * eapply appends_trans; [exact Ha2|].
        destruct (ForwardProxyErrorFallbackAuth _); appends_by_computation.
      * cbn. rewrite Hfa. destruct (ForwardProxyErrorFallbackAuth (st_ctx s)); cbn;
          rewrite Hc2; reflexivity.
    + eexists. repeat apply conj. 5: reflexivity.
      * exact Hr2.
      * exact Hn2.
      * exact Hd2.
      * eapply appends_trans; [exact Ha2|]. appends_by_computation.
      * cbn. rewrite Hc2. reflexivity.
  - exists s2. repeat split; assumption.
Qed.

(** ** Wrapping and tuning the connection *)

Lemma wrapAndTune_frame cs ka s :
  let s' := snd (wrapAndTune cs ka s) in
  st_ctx s' = st_ctx s /\ st_req s' = st_req s /\ st_conn s' = st_conn s /\
  st_dials s' = st_dials s /\
  st_trace s' = (st_trace s ++ if ka then [keepaliveOf cs (st_ctx s)] else [])%list.
Proof.
  unfold wrapAndTune, keepaliveOf.
  destruct ka; [|cbn; rewrite app_nil_r; auto].
  destruct (ProxyTCPConn.SetKeepaliveParameters _ _ _ _ _ _ _) as [c [e|]]; cbn; auto.
Qed.

(** A fresh connection: nothing counted, not closed. *)
Lemma wrapAndTune_fresh cs ka s :
  let conn := fst (wrapAndTune cs ka s) in
  ProxyTCPConn.BytesWrote conn = 0 /\ ProxyTCPConn.BytesRead conn = 0 /\
  closed (ProxyTCPConn.Conn conn) = false /\ closeCalls (ProxyTCPConn.Conn conn) = 0%nat.
Proof.
  unfold wrapAndTune, ProxyTCPConn.SetKeepaliveParameters, ProxyTCPConn.setKeepaliveParameters.
  destruct ka; [|cbn; auto].
  cbn. destruct (cs_isTCP cs); cbn; [|auto].
  destruct (cs_SetKeepAlive cs); cbn; [auto|].
  destruct (cs_SetKeepAlivePeriod cs); cbn; auto.
Qed.

(** The timeouts the connection ends up with. *)
Lemma wrapAndTune_timeouts cs ka s :
  let conn := fst (wrapAndTune cs ka s) in
  if ka && notnil (keepaliveResult (keepaliveOf cs (st_ctx s))) then
    ProxyTCPConn.ReadTimeout conn = wrap64 (time_Second * ProxyReadDeadline (st_ctx s)) /\
    ProxyTCPConn.WriteTimeout conn = wrap64 (time_Second * ProxyWriteDeadline (st_ctx s)) /\
    ProxyTCPConn.IgnoreDeadlineErrors conn = false
  else
    ProxyTCPConn.ReadTimeout conn = time_Second * 5 /\
    ProxyTCPConn.WriteTimeout conn = time_Second * 5 /\
    ProxyTCPConn.IgnoreDeadlineErrors conn = true.
Proof.
  unfold wrapAndTune, keepaliveOf, keepaliveResult.
  destruct ka; [|cbn; auto]. cbn [andb snd].
  unfold ProxyTCPConn.SetKeepaliveParameters, ProxyTCPConn.setKeepaliveParameters.
  cbn. destruct (cs_isTCP cs); cbn; [|auto].
  destruct (cs_SetKeepAlive cs); cbn; [auto|].
  destruct (cs_SetKeepAlivePeriod cs); cbn; auto.
Qed.

(** The writer and the reader leave the timeouts and the flag alone. *)
Lemma runWrites_config ios : forall conn,
  ProxyTCPConn.ReadTimeout (runWrites ios conn) = ProxyTCPConn.ReadTimeout conn /\
  ProxyTCPConn.WriteTimeout (runWrites ios conn) = ProxyTCPConn.WriteTimeout conn /\
  ProxyTCPConn.IgnoreDeadlineErrors (runWrites ios conn) = ProxyTCPConn.IgnoreDeadlineErrors conn.
Proof.
  induction ios as [|io ios IH]; intros conn; [cbn; auto|].
  unfold runWrites in *. cbn.
  destruct (IH (fst (ProxyTCPConn.Write conn io))) as (A & B & C).
  destruct (TCPFacts.Write_config conn io) as (A' & B' & C').
  rewrite A, B, C. auto.
Qed.

Lemma runReads_config ios : forall conn,
  ProxyTCPConn.ReadTimeout (runReads ios conn) = ProxyTCPConn.ReadTimeout conn /\
  ProxyTCPConn.WriteTimeout (runReads ios conn) = ProxyTCPConn.WriteTimeout conn /\
  ProxyTCPConn.IgnoreDeadlineErrors (runReads ios conn) = ProxyTCPConn.IgnoreDeadlineErrors conn.
Proof.
  induction ios as [|io ios IH]; intros conn; [cbn; auto|].
  unfold runReads in *. cbn.
  destruct (IH (fst (ProxyTCPConn.Read conn io))) as (A & B & C).
  destruct (TCPFacts.Read_config conn io) as (A' & B' & C').
  rewrite A, B, C. auto.
Qed.

(** ** One pass through the body *)

Lemma afterDial_pair cs ka s :
  (let '(r, s') := afterDial cs ka s in Done r s')
  = Done (fst (afterDial cs ka s)) (snd (afterDial cs ka s)).
Proof. destruct (afterDial cs ka s). reflexivity. Qed.

(** Direct mode: one dial; its error is returned as it is. *)
Lemma directMode_spec env d pool host s :
  exists tr,
    tr_Dial tr = d /\
    let s1 := count_dial (emit (EvDial tr "tcp4" host ∅) s) in
    directMode env d pool host s =
      match dial_conn (env_dial env (st_dials s)) with
      | inr err => Done (None, Some err) s1
      | inl cs => Done (fst (afterDial cs true s1)) (snd (afterDial cs true s1))
      end.
Proof.
  unfold directMode, directDial. eexists. split; [|cbv zeta].
  2:{ destruct (dial_conn _); [apply afterDial_pair|reflexivity]. }
  reflexivity.
Qed.

(** Forward mode: the defaults are written into the context, the dial goes
    through the proxy URL, and a failure enters the dial-failure block. *)
Lemma forwardMode_spec env pool host s :
  exists s1 tr,
    forwardMode env pool host s =
      match dial_conn (env_dial env (st_dials s)) with
      | inr err => dialFailure env host err s1
      | inl cs =>
          let s2 :=
            upd_ctx (observeTLSTime
                       (Z.quot (dial_end (env_dial env (st_dials s))) 1000000
                        - Z.quot (dial_start (env_dial env (st_dials s))) 1000000)) s1 in
          Done (fst (afterDial cs false s2)) (snd (afterDial cs false s2))
      end /\
    st_trace s1 = (st_trace s ++ [EvDial tr "tcp4" host (connectReqHandler (st_ctx s) ∅)])%list /\
    tr_Dial tr =
      connectDialer ((if String.eqb (ForwardProxyProto (st_ctx s)) "" then "http"
                      else ForwardProxyProto (st_ctx s)) +:+ "://" +:+ ForwardProxy (st_ctx s)) /\
    st_dials s1 = S (st_dials s) /\ st_conn s1 = st_conn s /\ st_req s1 = st_req s /\
    exists t,
      st_ctx s1 =
        set_ForwardProxyFallbackTimeout
          (set_ForwardProxyProto (st_ctx s)
             (if String.eqb (ForwardProxyProto (st_ctx s)) "" then "http"
              else ForwardProxyProto (st_ctx s))) t.
Proof.
  unfold forwardMode.
  set (sp := if String.eqb (ForwardProxyProto (st_ctx s)) "" then _ else s).
  assert (Hsp : st_trace sp = st_trace s /\ st_dials sp = st_dials s /\
                st_conn sp = st_conn s /\ st_req sp = st_req s /\
                ForwardProxy (st_ctx sp) = ForwardProxy (st_ctx s) /\
                ForwardProxyProto (st_ctx sp)
                  = (if String.eqb (ForwardProxyProto (st_ctx s)) "" then "http"
                     else ForwardProxyProto (st_ctx s)) /\
                connectReqHandler (st_ctx sp) ∅ = connectReqHandler (st_ctx s) ∅ /\
                st_ctx sp = set_ForwardProxyProto (st_ctx s) (ForwardProxyProto (st_ctx sp))).
  { subst sp. destruct (String.eqb _ _); cbn; repeat split.
    destruct (st_ctx s); reflexivity. }
  clearbody sp. destruct Hsp as (T & D & C & R & F & P & H & X).
  rewrite P in X.
  match goal with |- context [if 0 <? ?a then ?b else ?c] =>
    destruct (if 0 <? a then b else c) as [dc sf] eqn:Hx end.
  assert (Hsf : st_trace sf = st_trace s /\ st_dials sf = st_dials s /\
                st_conn sf = st_conn s /\ st_req sf = st_req s /\
                connectReqHandler (st_ctx sf) ∅ = connectReqHandler (st_ctx s) ∅ /\
                (forall l : list ForwardProxyHeader,
                   core (fold_left (fun s _ => Logf "setting proxy header %+v" s) l sf)
                   = core sf) /\
                exists t, st_ctx sf
                  = set_ForwardProxyFallbackTimeout
                      (set_ForwardProxyProto (st_ctx s)
                         (if String.eqb (ForwardProxyProto (st_ctx s)) "" then "http"
                          else ForwardProxyProto (st_ctx s))) t).
  { revert Hx. destruct (0 <? _); intros [= <- <-].
    - repeat apply conj; try assumption; [intros l; apply log_each_core|].
      eexists. cbn. rewrite <- X. reflexivity.
    - repeat apply conj; try assumption; [intros l; apply log_each_core|].
      rewrite <- X. exists (ForwardProxyFallbackTimeout (st_ctx sp)).
      destruct (st_ctx sp); reflexivity. }
  clear Hx. destruct Hsf as (T' & D' & C' & R' & H' & L & t & X').
  unfold forwardDial. cbv beta iota.
  destruct (core_fields _ _ (L (ForwardProxyHeaders (st_ctx sf))))
    as (Lc & Lr & Ln & Lt & Ld & _).
  rewrite Ld, D'.
  eexists _, _. split; [|repeat apply conj].
  - destruct (dial_conn _); [apply afterDial_pair|reflexivity].
  - cbn. rewrite Lt, T', Lc, H'. reflexivity.
  - cbn. rewrite F, P. reflexivity.
  - cbn. rewrite Ld, D'. reflexivity.
  - cbn. rewrite Ln, C'. reflexivity.
  - cbn. rewrite Lr, R'. reflexivity.
  - cbn. rewrite Lc. eauto.
Qed.

Lemma ctx_kept_refl c : ctx_kept c c.
Proof. unfold ctx_kept. auto 10. Qed.

Lemma ctx_kept_trans c1 c2 c3 : ctx_kept c1 c2 -> ctx_kept c2 c3 -> ctx_kept c1 c3.
Proof.
  unfold ctx_kept.
  intros (A1 & A2 & A3 & A4 & A5 & A6 & A7 & A8 & A9) (B1 & B2 & B3 & B4 & B5 & B6 & B7 & B8 & B9).
  repeat split; try congruence; intros t; rewrite B9; apply A9.
Qed.

Lemma SetErrorMetric_notnil c :
  notnil (Requests (ForwardMetricsCounters (SetErrorMetric c)))
  = notnil (Requests (ForwardMetricsCounters c)).
Proof.
  unfold SetErrorMetric, Requests_Inc.
  destruct (_ && _); [|reflexivity].
  destruct (Requests (ForwardMetricsCounters c)) eqn:E; [reflexivity|]. rewrite E. reflexivity.
Qed.

Lemma ctx_kept_SetErrorMetric c : ctx_kept c (SetErrorMetric c).
Proof.
  unfold ctx_kept.
  repeat split; try apply SetErrorMetric_ok_count; try apply SetErrorMetric_notnil;
    destruct (SetErrorMetric_frame c) as (m & -> & _); reflexivity.
Qed.

Lemma ctx_kept_dial_defaults c p t :
  ctx_kept c (set_ForwardProxyFallbackTimeout (set_ForwardProxyProto c p) t).
Proof. unfold ctx_kept. repeat split. Qed.

Lemma ctx_kept_observeTLSTime c ms : ctx_kept c (observeTLSTime ms c).
Proof.
  unfold observeTLSTime. destruct (TLSTimes _); [|apply ctx_kept_refl].
  unfold ctx_kept. repeat split.
Qed.

Lemma ctx_kept_callback c : ctx_kept c (set_ForwardProxyErrorFallback c None).
Proof. unfold ctx_kept. repeat split. Qed.

Lemma ctx_kept_fallback c np extra (auth : bool) :
  nonempty (ForwardProxy c) = true -> nonempty np = true ->
  ctx_kept c (if auth then set_ForwardProxyAuth (set_ForwardProxy c np) extra
              else set_Accounting (set_ForwardProxy c np) extra).
Proof.
  intros H1 H2. unfold ctx_kept. destruct auth; cbn; rewrite H1, H2; repeat split.
Qed.

Lemma attempt_unfold env s :
  RoundTripper (st_ctx s) = None ->
  exists d s0,
    core s0 = core s /\
    attempt env s =
      if nonempty (ForwardProxy (st_ctx s))
      then forwardMode env (poolOf (st_ctx s)) (dialHost (st_req s)) s0
      else directMode env d (poolOf (st_ctx s)) (dialHost (st_req s)) s0.
Proof.
  intros Hrt. unfold attempt. rewrite Hrt.
  pose proof (newDialer_core env s) as Hc.
  destruct (newDialer env s) as [d s0]. cbn [snd] in Hc.
  exists d, s0. split; [exact Hc|].
  destruct (core_fields _ _ Hc) as (-> & -> & _). reflexivity.
Qed.

(** Direct mode. *)
Lemma attempt_direct env s :
  RoundTripper (st_ctx s) = None -> ForwardProxy (st_ctx s) = "" ->
  exists s1,
    dialled s s1 /\ st_ctx s1 = st_ctx s /\
    attempt env s =
      match dial_conn (env_dial env (st_dials s)) with
      | inr err => Done (None, Some err) s1
      | inl cs => Done (fst (afterDial cs true s1)) (snd (afterDial cs true s1))
      end.
Proof.
  intros Hrt Hfp.
  destruct (attempt_unfold env s Hrt) as (d & s0 & Hc & ->).
  rewrite Hfp. cbn [nonempty String.eqb negb].
  destruct (core_fields _ _ Hc) as (Hctx & Hreq & Hconn & Htr & Hd & _).
  destruct (directMode_spec env d (poolOf (st_ctx s)) (dialHost (st_req s)) s0) as (tr & _ & ->).
  rewrite Hd. eexists. split; [|split; [|reflexivity]].
  - unfold dialled. cbn. rewrite Hctx, Hreq, Hconn, Hd.
    repeat apply conj; try reflexivity.
    unfold appends. cbn. rewrite Htr. eexists. split; [reflexivity|repeat constructor].
  - cbn. exact Hctx.
Qed.

(** Forward mode, up to the dial. *)
Lemma attempt_forward env s :
  RoundTripper (st_ctx s) = None -> ForwardProxy (st_ctx s) <> "" ->
  exists s1 tr,
    dialled s s1 /\
    (exists t,
       st_ctx s1 =
         set_ForwardProxyFallbackTimeout
           (set_ForwardProxyProto (st_ctx s)
              (if String.eqb (ForwardProxyProto (st_ctx s)) "" then "http"
               else ForwardProxyProto (st_ctx s))) t) /\
    st_trace s1
      = (st_trace s ++ [EvDial tr "tcp4" (dialHost (st_req s)) (connectReqHandler (st_ctx s) ∅)])%list /\
    tr_Dial tr =
      connectDialer ((if String.eqb (ForwardProxyProto (st_ctx s)) "" then "http"
                      else ForwardProxyProto (st_ctx s)) +:+ "://" +:+ ForwardProxy (st_ctx s)) /\
    attempt env s =
      match dial_conn (env_dial env (st_dials s)) with
      | inr err => dialFailure env (dialHost (st_req s)) err s1
      | inl cs =>
          let s2 :=
            upd_ctx (observeTLSTime
                       (Z.quot (dial_end (env_dial env (st_dials s))) 1000000
                        - Z.quot (dial_start (env_dial env (st_dials s))) 1000000)) s1 in
          Done (fst (afterDial cs false s2)) (snd (afterDial cs false s2))
      end.
Proof.
  intros Hrt Hfp.
  destruct (attempt_unfold env s Hrt) as (d & s0 & Hc & ->).
  apply nonempty_true in Hfp. rewrite Hfp.
  destruct (core_fields _ _ Hc) as (Hctx & Hreq & Hconn & Htr & Hd & _).
  destruct (forwardMode_spec env (poolOf (st_ctx s)) (dialHost (st_req s)) s0)
    as (s1 & tr & -> & T & D & N & C & R & t & X).
  rewrite Hd, Hctx, ?Htr, ?Hconn, ?Hreq in *.
  exists s1, tr.
  split; [|split; [eauto|split; [exact T|split; [exact D|reflexivity]]]].
  unfold dialled. split; [eexists; split; [exact T|repeat constructor]|].
  split; [rewrite X; apply ctx_kept_dial_defaults|]. auto.
Qed.

(** ** What the exchange leaves alone *)

Lemma addBandwidth_frame n c :
  exists m, addBandwidth n c = set_ForwardMetricsCounters c m /\
            Requests m = Requests (ForwardMetricsCounters c).
Proof.
  unfold addBandwidth. destruct (ProxyBandwidth _); eauto.
  exists (ForwardMetricsCounters c). destruct c; auto.
Qed.

(** The exchange changes the metrics and the two byte fields of the
    context, nothing else. *)
Lemma exchange_ctx cs conn s :
  exists m a b,
    st_ctx (snd (exchange cs conn s)) = set_Bytes (set_ForwardMetricsCounters (st_ctx s) m) a b.
Proof.
  unfold exchange.
  destruct (cs_ser_err cs) as [e|].
  - exists (ForwardMetricsCounters
              (if strings_Contains e "timeout" then st_ctx s else SetErrorMetric (st_ctx s))),
           (BytesSent (st_ctx s)), (BytesReceived (st_ctx s)).
    destruct (strings_Contains e "timeout"); cbn.
    + destruct (st_ctx s); reflexivity.
    + destruct (SetErrorMetric_frame (st_ctx s)) as (m & -> & _).
      destruct (st_ctx s); reflexivity.
  - destruct (cs_parse cs) as [[status body]|e].
    + cbn.
      match goal with |- context [SetSuccessMetric ?c] =>
        destruct (SetSuccessMetric_frame c) as (m & -> & _) end.
      match goal with |- context [addBandwidth ?n ?c] =>
        destruct (addBandwidth_frame n c) as (m' & -> & _) end.
      eexists m', _, _. reflexivity.
    + destruct (strings_Contains e "timeout"); cbn.
      * eexists (ForwardMetricsCounters (st_ctx s)), _, _.
        destruct (st_ctx s); reflexivity.
      * match goal with |- context [SetErrorMetric ?c] =>
          destruct (SetErrorMetric_frame c) as (m & -> & _) end.
        eexists m, _, _. reflexivity.
Qed.

Lemma exchange_frame cs conn s :
  st_dials (snd (exchange cs conn s)) = st_dials s /\
  appends isExchangeEvent s (snd (exchange cs conn s)).
Proof.
  destruct (cs_ser_err cs) as [e|] eqn:He.
  - destruct (exchange_writer_failed cs conn s e He) as (_ & _ & T & _ & D).
    split; [exact D|]. eexists. split; [exact T|repeat constructor].
  - destruct (exchange_writer_ok cs conn s He) as (_ & _ & _ & _ & T & D).
    split; [exact D|]. eexists. split; [exact T|repeat constructor].
Qed.

Lemma afterDial_unfold cs ka s :
  afterDial cs ka s = exchange cs (fst (tuned cs ka s)) (exchangeStart cs ka s).
Proof. unfold afterDial, exchangeStart, tuned. destruct (wrapAndTune _ _ _). reflexivity. Qed.

Lemma exchangeStart_frame cs ka s :
  st_ctx (exchangeStart cs ka s) = st_ctx s /\
  st_dials (exchangeStart cs ka s) = st_dials s /\
  st_trace (exchangeStart cs ka s)
    = (st_trace s ++ if ka then [keepaliveOf cs (st_ctx s)] else [])%list.
Proof.
  unfold exchangeStart, tuned.
  destruct (wrapAndTune_frame cs ka (upd_req (fun r => set_RequestURI (URL_String r) r) s))
    as (C & _ & _ & D & T).
  cbn. rewrite C, D, T. auto.
Qed.

Lemma afterDial_ctx cs ka s :
  exists m a b,
    st_ctx (snd (afterDial cs ka s)) = set_Bytes (set_ForwardMetricsCounters (st_ctx s) m) a b.
Proof.
  rewrite afterDial_unfold.
  destruct (exchange_ctx cs (fst (tuned cs ka s)) (exchangeStart cs ka s)) as (m & a & b & ->).
  exists m, a, b. destruct (exchangeStart_frame cs ka s) as (-> & _). reflexivity.
Qed.

Lemma afterDial_frame cs ka s :
  st_dials (snd (afterDial cs ka s)) = st_dials s /\
  appends (fun e => (ka = true /\ isKeepaliveEvent e) \/ isExchangeEvent e)
          s (snd (afterDial cs ka s)).
Proof.
  rewrite afterDial_unfold.
  destruct (exchangeStart_frame cs ka s) as (_ & D & T).
  destruct (exchange_frame cs (fst (tuned cs ka s)) (exchangeStart cs ka s)) as (D' & A').
  split; [rewrite D'; exact D|].
  eapply appends_trans; [|eapply appends_weaken; [|exact A']; auto].
  eexists. split; [exact T|].
  destruct ka; repeat constructor.
Qed.

Lemma SetErrorMetric_fields c :
  RoundTripper (SetErrorMetric c) = RoundTripper c /\
  ForwardProxy (SetErrorMetric c) = ForwardProxy c /\
  ForwardProxyProto (SetErrorMetric c) = ForwardProxyProto c /\
  ForwardProxyAuth (SetErrorMetric c) = ForwardProxyAuth c /\
  Accounting (SetErrorMetric c) = Accounting c /\
  ForwardProxyErrorFallbackAuth (SetErrorMetric c) = ForwardProxyErrorFallbackAuth c /\
  ForwardProxyErrorFallback (SetErrorMetric c) = ForwardProxyErrorFallback c.
Proof. destruct (SetErrorMetric_frame c) as (m & -> & _). repeat split. Qed.

(** The same fields, whether or not the error metric was counted. *)
Lemma classified_fields (b : bool) c :
  let c1 := if b then SetErrorMetric c else c in
  RoundTripper c1 = RoundTripper c /\
  ForwardProxy c1 = ForwardProxy c /\
  ForwardProxyProto c1 = ForwardProxyProto c /\
  ForwardProxyAuth c1 = ForwardProxyAuth c /\
  Accounting c1 = Accounting c /\
  ForwardProxyErrorFallbackAuth c1 = ForwardProxyErrorFallbackAuth c /\
  ForwardProxyErrorFallback c1 = ForwardProxyErrorFallback c.
Proof. destruct b; [apply SetErrorMetric_fields|repeat split]. Qed.

(** A pass that ends in the tail call: forward mode, a failed dial, a
    callback that names a proxy. The state handed to the tail call has the
    callback cleared and the new proxy installed. *)
Lemma attempt_retry env s fallback dialErr :
  RoundTripper (st_ctx s) = None ->
  ForwardProxy (st_ctx s) <> "" ->
  ForwardProxyErrorFallback (st_ctx s) = Some fallback ->
  fst (fallback tt) <> "" ->
  dial_conn (env_dial env (st_dials s)) = inr dialErr ->
  exists s2,
    attempt env s = Retry s2 /\
    RoundTripper (st_ctx s2) = None /\
    ForwardProxyErrorFallback (st_ctx s2) = None /\
    ForwardProxy (st_ctx s2) = fst (fallback tt) /\
    ForwardProxyProto (st_ctx s2)
      = (if String.eqb (ForwardProxyProto (st_ctx s)) "" then "http"
         else ForwardProxyProto (st_ctx s)) /\
    ForwardProxyAuth (st_ctx s2)
      = (if ForwardProxyErrorFallbackAuth (st_ctx s) then snd (fallback tt)
         else ForwardProxyAuth (st_ctx s)) /\
    Accounting (st_ctx s2)
      = (if ForwardProxyErrorFallbackAuth (st_ctx s) then Accounting (st_ctx s)
         else snd (fallback tt)) /\
    st_dials s2 = S (st_dials s) /\ st_conn s2 = st_conn s /\ st_req s2 = st_req s /\
    appends isDialEvent s s2.
Proof.
  intros Hrt Hfp Hcb Hnp Hdial.
  destruct (attempt_forward env s Hrt Hfp) as (s1 & tr & Hd & (t & X) & T & _ & ->).
  rewrite Hdial.
  destruct Hd as (A1 & _ & C1 & R1 & D1).
  destruct (dialFailure_spec env (dialHost (st_req s)) dialErr s1) as (s2 & Hs2).
  destruct (resolveChain env (dialHost (st_req s)) s1) as [[[c4 c6] err] sx].
  destruct Hs2 as (R2 & C2 & D2 & A2 & Hcase).
  assert (Hcb1 : ForwardProxyErrorFallback (st_ctx s1) = Some fallback)
    by (rewrite X; exact Hcb).
  rewrite Hcb1 in Hcase. apply nonempty_true in Hnp. rewrite Hnp in Hcase.
  destruct Hcase as (-> & Hctx).
  destruct (classified_fields ((0 <? Z.of_nat (length c4)) && (0 <? Z.of_nat (length c6)))
              (st_ctx s1)) as (F1 & F2 & F3 & F4 & F5 & F6 & F7).
  assert (Hfa : ForwardProxyErrorFallbackAuth (st_ctx s1)
                = ForwardProxyErrorFallbackAuth (st_ctx s)) by (rewrite X; reflexivity).
  exists s2. split; [reflexivity|].
  rewrite Hctx, Hfa.
  destruct (ForwardProxyErrorFallbackAuth (st_ctx s)); cbn;
    rewrite ?F1, ?F3, ?F4, ?F5, X; cbn;
    (repeat apply conj; try reflexivity; try congruence;
     eapply appends_trans; eassumption).
Qed.

(** A forward-mode pass without callback returns: it dials once, through
    the proxy of its context, and a failed dial ends it. *)
Lemma attempt_forward_final env s :
  RoundTripper (st_ctx s) = None ->
  ForwardProxy (st_ctx s) <> "" ->
  ForwardProxyErrorFallback (st_ctx s) = None ->
  exists r s' tr,
    attempt env s = Done r s' /\
    st_dials s' = S (st_dials s) /\
    In (EvDial tr "tcp4" (dialHost (st_req s)) (connectReqHandler (st_ctx s) ∅)) (st_trace s') /\
    tr_Dial tr =
      connectDialer ((if String.eqb (ForwardProxyProto (st_ctx s)) "" then "http"
                      else ForwardProxyProto (st_ctx s)) +:+ "://" +:+ ForwardProxy (st_ctx s)) /\
    ForwardProxyErrorFallback (st_ctx s') = None /\
    ForwardProxy (st_ctx s') = ForwardProxy (st_ctx s) /\
    (forall e, In e (st_trace s) -> In e (st_trace s')) /\
    (forall err, dial_conn (env_dial env (st_dials s)) = inr err ->
       fst r = None /\ st_conn s' = st_conn s).
Proof.
  intros Hrt Hfp Hcb.
  destruct (attempt_forward env s Hrt Hfp) as (s1 & tr & Hd & (t & X) & T & U & ->).
  destruct Hd as (A1 & _ & C1 & R1 & D1).
  assert (Hin : In (EvDial tr "tcp4" (dialHost (st_req s)) (connectReqHandler (st_ctx s) ∅))
                   (st_trace s1)).
  { rewrite T. apply in_or_app. right. left. reflexivity. }
  destruct (dial_conn (env_dial env (st_dials s))) as [cs|err].
  - cbv zeta.
    match goal with |- context [afterDial cs false ?x] =>
      destruct (afterDial_ctx cs false x) as (m & a & b & Hc);
      destruct (afterDial_frame cs false x) as (Hdl & Ha)
    end.
    eexists _, _, tr. split; [reflexivity|].
    rewrite Hdl, Hc. cbn.
    assert (Hobs : forall ms,
               ForwardProxyErrorFallback (observeTLSTime ms (st_ctx s1)) = None /\
               ForwardProxy (observeTLSTime ms (st_ctx s1)) = ForwardProxy (st_ctx s)).
    { intros ms. unfold observeTLSTime. rewrite X.
      destruct (TLSTimes _); cbn; auto. }
    destruct (Hobs (Z.quot (dial_end (env_dial env (st_dials s))) 1000000
                    - Z.quot (dial_start (env_dial env (st_dials s))) 1000000)) as (O1 & O2).
    repeat apply conj; try assumption.
    + eapply appends_keeps; [exact Ha|]. exact Hin.
    + intros e He. eapply appends_keeps; [exact Ha|]. cbn.
      eapply appends_keeps; [exact A1|exact He].
    + intros err [=].
  - destruct (dialFailure_spec env (dialHost (st_req s)) err s1) as (s2 & Hs2).
    destruct (resolveChain env (dialHost (st_req s)) s1) as [[[c4 c6] err'] sx].
    destruct Hs2 as (R2 & C2 & D2 & A2 & Hcase).
    assert (Hcb1 : ForwardProxyErrorFallback (st_ctx s1) = None) by (rewrite X; exact Hcb).
    rewrite Hcb1 in Hcase. destruct Hcase as (-> & Hctx).
    destruct (classified_fields ((0 <? Z.of_nat (length c4)) && (0 <? Z.of_nat (length c6)))
                (st_ctx s1)) as (F1 & F2 & F3 & F4 & F5 & F6 & F7).
    eexists _, _, tr. split; [reflexivity|].
    rewrite Hctx, F7, F2, D2, D1, C2, C1, X. cbn.
    repeat apply conj; try reflexivity; try assumption.
    + eapply appends_keeps; [exact A2|exact Hin].
    + intros e He. eapply appends_keeps; [exact A2|].
      eapply appends_keeps; [exact A1|exact He].
    + intros _ _. split; reflexivity.
Qed.

(** C2, as the code has it. In forward mode, when the dial fails while a
    callback is present and the callback names a proxy, the pass ends in the
    tail call on a context whose callback is already nil and whose forward
    proxy (and auth or accounting string) is the returned one; that second
    pass dials once more, through the new proxy, and returns whatever
    happens: two dials in all, and after a second failed dial no response
    and no connection. *)
Theorem fallback_retries_once (env : Env) (ctx : ProxyCtx) (req : Request)
    (fallback : unit -> string * string) (dialErr : error) :
  RoundTripper ctx = None ->
  ForwardProxy ctx <> "" ->
  ForwardProxyErrorFallback ctx = Some fallback ->
  fst (fallback tt) <> "" ->
  dial_conn (env_dial env 0) = inr dialErr ->
  exists retry : St,
    attempt env (initSt ctx req) = Retry retry /\
    ForwardProxyErrorFallback (st_ctx retry) = None /\
    ForwardProxy (st_ctx retry) = fst (fallback tt) /\
    ForwardProxyAuth (st_ctx retry)
      = (if ForwardProxyErrorFallbackAuth ctx then snd (fallback tt) else ForwardProxyAuth ctx) /\
    Accounting (st_ctx retry)
      = (if ForwardProxyErrorFallbackAuth ctx then Accounting ctx else snd (fallback tt)) /\
    st_dials retry = 1%nat /\
    RoundTrip env (initSt ctx req) = RoundTrip env retry /\
    attempt env retry
      = Done (fst (RoundTrip env (initSt ctx req))) (snd (RoundTrip env (initSt ctx req))) /\
    st_dials (snd (RoundTrip env (initSt ctx req))) = 2%nat /\
    (exists tr hdr,
       In (EvDial tr "tcp4" (dialHost req) hdr) (st_trace (snd (RoundTrip env (initSt ctx req)))) /\
       tr_Dial tr =
         connectDialer ((if String.eqb (ForwardProxyProto ctx) "" then "http"
                         else ForwardProxyProto ctx) +:+ "://" +:+ fst (fallback tt))) /\
    ForwardProxyErrorFallback (st_ctx (snd (RoundTrip env (initSt ctx req)))) = None /\
    ForwardProxy (st_ctx (snd (RoundTrip env (initSt ctx req)))) = fst (fallback tt) /\
    (forall err2, dial_conn (env_dial env 1) = inr err2 ->
       fst (fst (RoundTrip env (initSt ctx req))) = None /\
       st_conn (snd (RoundTrip env (initSt ctx req))) = None).
Proof.
  intros Hrt Hfp Hcb Hnp Hdial.
  destruct (attempt_retry env (initSt ctx req) fallback dialErr Hrt Hfp Hcb Hnp Hdial)
    as (s2 & Hstep & Rt2 & Cb2 & Fp2 & Pr2 & Au2 & Ac2 & D2 & C2 & R2 & A2).
  cbn in Pr2, Au2, Ac2, D2, C2, R2.
  assert (Hfp2 : ForwardProxy (st_ctx s2) <> "") by (rewrite Fp2; exact Hnp).
  destruct (attempt_forward_final env s2 Rt2 Hfp2 Cb2)
    as (r & s' & tr & Hfin & D' & Hin & Htr & Cb' & Fp' & _ & Herr).
  assert (HRT : RoundTrip env (initSt ctx req) = (r, s')).
  { rewrite RoundTrip_step, Hstep, RoundTrip_step, Hfin. reflexivity. }
  assert (HRT2 : RoundTrip env (initSt ctx req) = RoundTrip env s2).
  { rewrite (RoundTrip_step env (initSt ctx req)), Hstep. reflexivity. }
  exists s2. rewrite HRT. cbn [fst snd].
  repeat apply conj; try assumption.
  - rewrite <- HRT. exact HRT2.
  - rewrite D', D2. reflexivity.
  - exists tr, (connectReqHandler (st_ctx s2) ∅). rewrite R2 in Hin. split; [exact Hin|].
    rewrite Htr, Pr2, Fp2.
    destruct (String.eqb_spec (ForwardProxyProto ctx) ""); [reflexivity|].
    destruct (String.eqb_spec (ForwardProxyProto ctx) ""); [contradiction|reflexivity].
  - rewrite Fp'. exact Fp2.
  - intros err2 H2. rewrite D2 in Herr. destruct (Herr err2 H2) as [E1 E2].
    split; [exact E1|]. rewrite E2. exact C2.
Qed.

Lemma fallback_retries_once_witness :
  st_dials (snd (RoundTrip env_second_connects (initSt ctx_with_fallback req_example))) = 2%nat /\
  ForwardProxy (st_ctx (snd (RoundTrip env_second_connects (initSt ctx_with_fallback req_example))))
    = "10.0.0.2:3128".
Proof.
  destruct (fallback_retries_once env_second_connects ctx_with_fallback req_example
              fallback_to_10_0_0_2 "connection refused")
    as (retry & _ & _ & _ & _ & _ & _ & _ & _ & Hd & _ & _ & Hfp & _);
    [reflexivity | discriminate | reflexivity | discriminate | reflexivity |].
  split; [exact Hd | exact Hfp].
Defined.

(** C2, as stated, fails: without forward proxy a failed dial is returned at
    once. The callback is present, and yet there is one dial only, the
    callback is still there, and no forward proxy was installed. *)
Lemma fallback_direct_mode_counterexample :
  ForwardProxyErrorFallback ctx_direct_with_fallback = Some fallback_to_10_0_0_2 /\
  dial_conn (env_dial env_refused 0) = inr "connection refused" /\
  st_dials (snd (RoundTrip env_refused (initSt ctx_direct_with_fallback req_example))) = 1%nat /\
  ForwardProxyErrorFallback
    (st_ctx (snd (RoundTrip env_refused (initSt ctx_direct_with_fallback req_example))))
    = Some fallback_to_10_0_0_2 /\
  ForwardProxy (st_ctx (snd (RoundTrip env_refused (initSt ctx_direct_with_fallback req_example))))
    = "" /\
  fst (RoundTrip env_refused (initSt ctx_direct_with_fallback req_example))
    = (None, Some "connection refused").
Proof. repeat split; vm_compute; reflexivity. Qed.

(** ** How a pass ends, and how [RoundTrip] ends *)

Lemma ctx_kept_classified (b : bool) c : ctx_kept c (if b then SetErrorMetric c else c).
Proof. destruct b; [apply ctx_kept_SetErrorMetric|apply ctx_kept_refl]. Qed.

(** A pass ends in the tail call, or returns without a connection, or
    returns what [afterDial] returns on a fresh connection. In direct
    mode [afterDial] is told to set keepalives, in forward mode not. *)
Lemma attempt_cases env s :
  RoundTripper (st_ctx s) = None ->
  (exists s',
     attempt env s = Retry s' /\
     ForwardProxyErrorFallback (st_ctx s) <> None /\
     ForwardProxyErrorFallback (st_ctx s') = None /\
     nonempty (ForwardProxy (st_ctx s)) = true /\
     st_conn s' = st_conn s /\ st_req s' = st_req s /\
     appends isDialEvent s s' /\ ctx_kept (st_ctx s) (st_ctx s')) \/
  (exists r s',
     attempt env s = Done r s' /\ fst r = None /\
     st_conn s' = st_conn s /\
     appends isDialEvent s s' /\ ctx_kept (st_ctx s) (st_ctx s')) \/
  (exists cs s1,
     attempt env s
       = Done (fst (afterDial cs (negb (nonempty (ForwardProxy (st_ctx s)))) s1))
              (snd (afterDial cs (negb (nonempty (ForwardProxy (st_ctx s)))) s1)) /\
     st_conn s1 = st_conn s /\ st_req s1 = st_req s /\
     appends isDialEvent s s1 /\ ctx_kept (st_ctx s) (st_ctx s1)).
Proof.
  intros Hrt.
  destruct (nonempty (ForwardProxy (st_ctx s))) eqn:Hne.
  - apply nonempty_true in Hne as Hfp.
    destruct (attempt_forward env s Hrt Hfp) as (s1 & tr & Hd & (t & X) & T & _ & ->).
    destruct Hd as (A1 & K1 & C1 & R1 & D1).
    destruct (dial_conn (env_dial env (st_dials s))) as [cs|err].
    + right. right. cbv zeta. eexists cs, _. split; [reflexivity|].
      cbn. conjs; try assumption.
      eapply ctx_kept_trans; [exact K1|apply ctx_kept_observeTLSTime].
    + destruct (dialFailure_spec env (dialHost (st_req s)) err s1) as (s2 & Hs2).
      destruct (resolveChain env (dialHost (st_req s)) s1) as [[[c4 c6] err'] sx].
      destruct Hs2 as (R2 & C2 & D2 & A2 & Hcase).
      pose proof (ctx_kept_classified
                    ((0 <? Z.of_nat (length c4)) && (0 <? Z.of_nat (length c6))) (st_ctx s1)) as Kc.
      destruct (classified_fields ((0 <? Z.of_nat (length c4)) && (0 <? Z.of_nat (length c6)))
                  (st_ctx s1)) as (F1 & F2 & F3 & F4 & F5 & F6 & F7).
      assert (Hcb1 : ForwardProxyErrorFallback (st_ctx s1) = ForwardProxyErrorFallback (st_ctx s))
        by (rewrite X; reflexivity).
      assert (Hfp1 : ForwardProxy (st_ctx s1) = ForwardProxy (st_ctx s))
        by (rewrite X; reflexivity).
      rewrite Hcb1 in Hcase.
      destruct (ForwardProxyErrorFallback (st_ctx s)) as [f|] eqn:Hcb.
      * destruct (nonempty (fst (f tt))) eqn:Hnp; destruct Hcase as (-> & Hctx).
        -- left. exists s2. conjs; try congruence.
           ++ rewrite Hctx. destruct (ForwardProxyErrorFallbackAuth (st_ctx s1)); reflexivity.
           ++ eapply appends_trans; eassumption.
           ++ eapply ctx_kept_trans; [exact K1|]. rewrite Hctx.
              eapply ctx_kept_trans; [exact Kc|].
              eapply ctx_kept_trans; [apply ctx_kept_callback|].
              apply ctx_kept_fallback; [|exact Hnp].
              cbn. rewrite F2, Hfp1. exact Hne.
        -- right. left. eexists _, s2. conjs; try reflexivity; try congruence.
           ++ eapply appends_trans; eassumption.
           ++ eapply ctx_kept_trans; [exact K1|]. rewrite Hctx.
              eapply ctx_kept_trans; [exact Kc|apply ctx_kept_callback].
      * destruct Hcase as (-> & Hctx).
        right. left. eexists _, s2. conjs; try reflexivity; try congruence.
        -- eapply appends_trans; eassumption.
        -- eapply ctx_kept_trans; [exact K1|]. rewrite Hctx. exact Kc.
  - apply nonempty_false in Hne as Hfp.
    destruct (attempt_direct env s Hrt Hfp) as (s1 & Hd & Hctx & ->).
    destruct Hd as (A1 & K1 & C1 & R1 & D1).
    destruct (dial_conn (env_dial env (st_dials s))) as [cs|err].
    + right. right. exists cs, s1. cbn. conjs; try reflexivity; assumption.
    + right. left. eexists _, s1. conjs; try reflexivity; assumption.
Qed.

(** [RoundTrip] returns without a connection and without a response, or it
    returns what [afterDial] returns on the connection of its last dial. *)
Lemma RoundTrip_cases env s :
  RoundTripper (st_ctx s) = None ->
  (fst (fst (RoundTrip env s)) = None /\
   st_conn (snd (RoundTrip env s)) = st_conn s /\
   appends isDialEvent s (snd (RoundTrip env s)) /\
   ctx_kept (st_ctx s) (st_ctx (snd (RoundTrip env s)))) \/
  (exists cs s1,
     RoundTrip env s = afterDial cs (negb (nonempty (ForwardProxy (st_ctx s)))) s1 /\
     st_conn s1 = st_conn s /\ st_req s1 = st_req s /\
     appends isDialEvent s s1 /\ ctx_kept (st_ctx s) (st_ctx s1)).
Proof.
  intros Hrt. rewrite RoundTrip_step.
  destruct (attempt_cases env s Hrt)
    as [(s' & -> & _ & Hcb & Hne & C & R & A & K)
       | [(r & s' & -> & Hr & C & A & K) | (cs & s1 & -> & C & R & A & K)]].
  - assert (Hrt' : RoundTripper (st_ctx s') = None).
    { destruct K as (-> & _). exact Hrt. }
    assert (Hne' : nonempty (ForwardProxy (st_ctx s')) = nonempty (ForwardProxy (st_ctx s))).
    { destruct K as (_ & _ & _ & _ & _ & _ & E & _). exact E. }
    rewrite RoundTrip_step.
    destruct (attempt_cases env s' Hrt')
      as [(s'' & _ & Hno & _)
         | [(r & s'' & -> & Hr & C' & A' & K') | (cs & s1 & -> & C' & R' & A' & K')]].
    + contradiction.
    + left. cbn. conjs; try congruence.
      * eapply appends_trans; eassumption.
      * eapply ctx_kept_trans; eassumption.
    + right. exists cs, s1. rewrite <- Hne'. conjs; try congruence.
      * destruct (afterDial cs _ s1); reflexivity.
      * eapply appends_trans; eassumption.
      * eapply ctx_kept_trans; eassumption.
  - left. cbn. auto.
  - right. exists cs, s1. conjs; try assumption.
    destruct (afterDial cs _ s1); reflexivity.
Qed.

(** Before the exchange starts the trace holds dial events and, in direct
    mode, the keepalive call. *)
Lemma exchangeStart_trace cs ka s s1 e :
  st_trace s = [] -> appends isDialEvent s s1 ->
  In e (st_trace (exchangeStart cs ka s1)) ->
  isDialEvent e \/ (ka = true /\ e = keepaliveOf cs (st_ctx s1)).
Proof.
  intros Hnil Ha Hin.
  destruct (exchangeStart_frame cs ka s1) as (_ & _ & T). rewrite T in Hin.
  apply in_app_or in Hin as [Hin|Hin].
  - destruct (appends_In _ _ _ _ Ha Hin) as [H|H]; [rewrite Hnil in H; destruct H|auto].
  - destruct ka; [|destruct Hin]. destruct Hin as [<-|[]]. auto.
Qed.

(** C4, as stated, fails on the error metric: in direct mode the writer's
    error "write tcp: broken pipe", which does not contain "timeout", is
    returned, and no "err" counter moves although the request counter is
    present. *)
Lemma writer_error_direct_mode_counterexample :
  In (EvWriteDone (Some "write tcp: broken pipe"))
     (st_trace (snd (RoundTrip env_broken_pipe (initSt ctx_direct req_example)))) /\
  strings_Contains "write tcp: broken pipe" "timeout" = false /\
  notnil (Requests (ForwardMetricsCounters ctx_direct)) = true /\
  fst (RoundTrip env_broken_pipe (initSt ctx_direct req_example))
    = (None, Some "write tcp: broken pipe") /\
  requestCount (st_ctx (snd (RoundTrip env_broken_pipe (initSt ctx_direct req_example)))) "local" "err"
    = 0%nat /\
  requestCount (st_ctx (snd (RoundTrip env_broken_pipe (initSt ctx_direct req_example)))) "spoof" "err"
    = 0%nat /\
  Requests (ForwardMetricsCounters
              (st_ctx (snd (RoundTrip env_broken_pipe (initSt ctx_direct req_example)))))
    = Some ∅.
Proof. repeat split; vm_compute; auto. Qed.

(** ** The connection after the exchange *)

Lemma same_config_refl c : same_config c c.
Proof. unfold same_config. auto 10. Qed.

Lemma same_config_trans c1 c2 c3 : same_config c1 c2 -> same_config c2 c3 -> same_config c1 c3.
Proof.
  unfold same_config. intros (A1 & A2 & A3 & A4 & A5 & A6 & A7) (B1 & B2 & B3 & B4 & B5 & B6 & B7).
  repeat split; congruence.
Qed.

Lemma Write_same_config c io : same_config c (fst (ProxyTCPConn.Write c io)).
Proof.
  unfold same_config, ProxyTCPConn.Write, ProxyTCPConn.armWrite.
  destruct (io_err io); destruct (0 <? _); cbn; auto 10.
Qed.

Lemma Read_same_config c io : same_config c (fst (ProxyTCPConn.Read c io)).
Proof.
  unfold same_config, ProxyTCPConn.Read, ProxyTCPConn.armRead.
  destruct (io_err io); destruct (0 <? _); cbn; auto 10.
Qed.

Lemma runWrites_same_config ios : forall c, same_config c (runWrites ios c).
Proof.
  induction ios as [|io ios IH]; intros c; [apply same_config_refl|].
  eapply same_config_trans; [apply (Write_same_config c io)|apply IH].
Qed.

Lemma runReads_same_config ios : forall c, same_config c (runReads ios c).
Proof.
  induction ios as [|io ios IH]; intros c; [apply same_config_refl|].
  eapply same_config_trans; [apply (Read_same_config c io)|apply IH].
Qed.

(** The exchange leaves its connection in the state, configured as it was. *)
Lemma exchange_conn cs conn s :
  exists c', st_conn (snd (exchange cs conn s)) = Some c' /\ same_config conn c'.
Proof.
  destruct (cs_ser_err cs) as [e|] eqn:He.
  - destruct (exchange_writer_failed cs conn s e He) as (_ & _ & _ & C & _).
    eexists. split; [exact C|].
    eapply same_config_trans; [apply runWrites_same_config|apply runReads_same_config].
  - destruct (exchange_writer_ok cs conn s He) as (_ & _ & C & _).
    eexists. split; [exact C|].
    eapply same_config_trans; [|apply runReads_same_config].
    eapply same_config_trans; [|apply runReads_same_config].
    eapply same_config_trans; [apply runWrites_same_config|apply runWrites_same_config].
Qed.

(** ** Closing the response body *)

Lemma connCloser_Close_conn env body s c :
  st_conn s = Some c ->
  st_conn (snd (ReadCloser_Close env (connCloser (httpBody body)) s))
    = Some (ProxyTCPConn.set_Conn (fst (RawConn_Close (ProxyTCPConn.Conn c))) c) /\
  st_bodyCloses (snd (ReadCloser_Close env (connCloser (httpBody body)) s))
    = S (st_bodyCloses s).
Proof. intros H. cbn. rewrite H. cbn. auto. Qed.

(** Every call of [Close] on the body calls [Close] on the raw connection
    and on the inner body. *)
Lemma close_times_calls env body k : forall s c,
  st_conn s = Some c ->
  exists c',
    st_conn (close_times env (connCloser (httpBody body)) k s) = Some c' /\
    closeCalls (ProxyTCPConn.Conn c') = (closeCalls (ProxyTCPConn.Conn c) + k)%nat /\
    closed (ProxyTCPConn.Conn c') = closed (ProxyTCPConn.Conn c) || negb (k =? 0)%nat /\
    st_bodyCloses (close_times env (connCloser (httpBody body)) k s)
      = (st_bodyCloses s + k)%nat.
Proof.
  induction k as [|k IH]; intros s c Hc.
  - exists c. cbn. rewrite orb_false_r, !Nat.add_0_r. auto.
  - destruct (connCloser_Close_conn env body s c Hc) as (Hc1 & Hb1).
    destruct (IH _ _ Hc1) as (c' & E & N & B & L).
    exists c'. cbn [close_times]. rewrite E, N, B, L, Hb1. cbn.
    rewrite orb_true_r. repeat split; lia.
Qed.

(** C3, as the code has it. The body of a response that [RoundTrip]
    returns is a [connCloser] around the library's body; the connection is
    open when the response is returned; and [k >= 1] calls of [Close] on
    the body leave the connection closed after [k] calls of the raw
    connection's [Close] and [k] calls of the inner body's: the wrapper
    forwards every call. *)
Theorem body_close_forwards_every_call
    (env : Env) (ctx : ProxyCtx) (req : Request) (resp : Response) (k : nat) :
  RoundTripper ctx = None ->
  fst (fst (RoundTrip env (initSt ctx req))) = Some resp ->
  (1 <= k)%nat ->
  exists body,
    Body resp = connCloser (httpBody body) /\
    connClosed (snd (RoundTrip env (initSt ctx req))) = Some false /\
    connCloseCalls (snd (RoundTrip env (initSt ctx req))) = Some 0%nat /\
    connClosed (close_times env (Body resp) k (snd (RoundTrip env (initSt ctx req))))
      = Some true /\
    connCloseCalls (close_times env (Body resp) k (snd (RoundTrip env (initSt ctx req))))
      = Some k /\
    st_bodyCloses (close_times env (Body resp) k (snd (RoundTrip env (initSt ctx req))))
      = (st_bodyCloses (snd (RoundTrip env (initSt ctx req))) + k)%nat.
Proof.
  intros Hrt Hresp Hk.
  destruct (RoundTrip_cases env (initSt ctx req) Hrt)
    as [(Hnone & _) | (cs & s1 & HRT & _)].
  { rewrite Hnone in Hresp. discriminate Hresp. }
  rewrite HRT, afterDial_unfold in *. cbn [st_ctx initSt] in *.
  set (ka := negb (nonempty (ForwardProxy ctx))) in *.
  destruct (exchange_conn cs (fst (tuned cs ka s1)) (exchangeStart cs ka s1))
    as (c' & Hc' & (_ & _ & _ & S4 & S5 & _)).
  destruct (wrapAndTune_fresh cs ka (upd_req (fun r => set_RequestURI (URL_String r) r) s1))
    as (_ & _ & F3 & F4).
  fold (tuned cs ka s1) in F3, F4. rewrite F3 in S4. rewrite F4 in S5.
  destruct (cs_ser_err cs) as [e|] eqn:He.
  { destruct (exchange_writer_failed cs (fst (tuned cs ka s1)) (exchangeStart cs ka s1) e He)
      as (R & _). rewrite R in Hresp. discriminate Hresp. }
  destruct (exchange_writer_ok cs (fst (tuned cs ka s1)) (exchangeStart cs ka s1) He)
    as (_ & _ & _ & R & _).
  rewrite R in Hresp.
  destruct (cs_parse cs) as [[status body]|e]; [|discriminate Hresp].
  injection Hresp as <-. exists body. cbn [Body].
  destruct (close_times_calls env body k _ c' Hc') as (c'' & E & N & B & L).
  unfold connClosed, connCloseCalls. rewrite Hc', E, S4, S5, N, B, L, S4, S5.
  destruct k; [lia|]. cbn. repeat split.
Qed.

Lemma body_close_forwards_every_call_witness :
  connCloseCalls
    (close_times env_connects (connCloser (httpBody 0)) 3
       (snd (RoundTrip env_connects (initSt ctx_direct req_example)))) = Some 3%nat /\
  connClosed
    (close_times env_connects (connCloser (httpBody 0)) 3
       (snd (RoundTrip env_connects (initSt ctx_direct req_example)))) = Some true.
Proof.
  destruct (body_close_forwards_every_call env_connects ctx_direct req_example
              (mkResponse 200 (connCloser (httpBody 0))) 3)
    as (body & _ & _ & _ & Hc & Hn & _); [reflexivity | reflexivity | lia |].
  split; [exact Hn | exact Hc].
Defined.

(** C3, as stated, fails: a response is returned, its body is closed
    twice, and the raw connection's [Close] has been called twice, not
    once. *)
Lemma body_closed_twice_counterexample :
  fst (RoundTrip env_connects (initSt ctx_direct req_example))
    = (Some (mkResponse 200 (connCloser (httpBody 0))), None) /\
  connCloseCalls
    (close_times env_connects (connCloser (httpBody 0)) 1
       (snd (RoundTrip env_connects (initSt ctx_direct req_example)))) = Some 1%nat /\
  connCloseCalls
    (close_times env_connects (connCloser (httpBody 0)) 2
       (snd (RoundTrip env_connects (initSt ctx_direct req_example)))) = Some 2%nat.
Proof. repeat split; vm_compute; reflexivity. Qed.

(** ** The handler of the forward dialer and the writer's wire form *)




(** The spec's scenario, run: the dial carries the authorization header,
    and the request the writer serializes, in proxy form, has the empty
    "User-Agent" and nothing else. *)
Example forward_proxy_with_auth_run :
  exists tr,
    st_trace (snd (RoundTrip env_connects (initSt ctx_auth req_example)))
    = [EvDial tr "tcp4" "example.com:80" {["Proxy-Authorization" := ["Basic abc123"]]};
       EvWriteRequest true {["User-Agent" := [""]]};
       EvFlush; EvWriteDone None; EvReadDone None] /\
    tr_Dial tr = connectDialer "http://127.0.0.1:8080".
Proof. eexists. split; vm_compute; reflexivity. Qed.

(** ** The byte fields of the context *)

Lemma runReads_BytesWrote ios : forall c,
  ProxyTCPConn.BytesWrote (runReads ios c) = ProxyTCPConn.BytesWrote c.
Proof.
  induction ios as [|io ios IH]; intros c; [reflexivity|].
  unfold runReads in *. cbn. rewrite IH.
  unfold ProxyTCPConn.Read. destruct (io_err io); reflexivity.
Qed.

(** When a response is returned, [BytesSent] is the connection's write
    counter, and [BytesReceived] is the read counter as it was when the
    writer's signal was received: the reads that return later, [rest], are
    on the connection's counter only. *)
Lemma bytes_recorded_at_writer_signal (env : Env) (ctx : ProxyCtx) (req : Request)
    (resp : Response) :
  RoundTripper ctx = None ->
  fst (fst (RoundTrip env (initSt ctx req))) = Some resp ->
  exists conn snapshot rest,
    st_conn (snd (RoundTrip env (initSt ctx req))) = Some conn /\
    conn = runReads rest snapshot /\
    BytesSent (st_ctx (snd (RoundTrip env (initSt ctx req)))) = ProxyTCPConn.BytesWrote conn /\
    BytesReceived (st_ctx (snd (RoundTrip env (initSt ctx req))))
      = ProxyTCPConn.BytesRead snapshot.
Proof.
  intros Hrt Hresp.
  destruct (RoundTrip_cases env (initSt ctx req) Hrt)
    as [(Hnone & _) | (cs & s1 & HRT & _)].
  { rewrite Hnone in Hresp. discriminate Hresp. }
  rewrite HRT, afterDial_unfold in *. cbn [st_ctx initSt] in *.
  set (ka := negb (nonempty (ForwardProxy ctx))) in *.
  destruct (cs_ser_err cs) as [e|] eqn:He.
  { destruct (exchange_writer_failed cs (fst (tuned cs ka s1)) (exchangeStart cs ka s1) e He)
      as (R & _). rewrite R in Hresp. discriminate Hresp. }
  destruct (exchange_writer_ok cs (fst (tuned cs ka s1)) (exchangeStart cs ka s1) He)
    as (Bs & Br & C & _).
  eexists _, _, _. split; [exact C|]. split; [reflexivity|].
  split; [rewrite Bs, !runReads_BytesWrote; reflexivity | exact Br].
Qed.

(** C1 on the code. Direct dial, 120 bytes written at flush time, the 100
    bytes of the response read after the writer has signalled: the response
    is returned, [BytesSent] is 120, [BytesReceived] is 0, and the
    connection has read 100 bytes; the bandwidth counter, fed after the
    reader's signal, got 220. *)
Lemma bytes_received_recorded_early :
  fst (RoundTrip env_connects (initSt ctx_direct req_example))
    = (Some (mkResponse 200 (connCloser (httpBody 0))), None) /\
  BytesSent (st_ctx (snd (RoundTrip env_connects (initSt ctx_direct req_example)))) = 120 /\
  connBytesWrote (snd (RoundTrip env_connects (initSt ctx_direct req_example))) = Some 120 /\
  BytesReceived (st_ctx (snd (RoundTrip env_connects (initSt ctx_direct req_example)))) = 0 /\
  connBytesRead (snd (RoundTrip env_connects (initSt ctx_direct req_example))) = Some 100 /\
  ProxyBandwidth
    (ForwardMetricsCounters (st_ctx (snd (RoundTrip env_connects (initSt ctx_direct req_example)))))
    = Some 220.
Proof. repeat split; vm_compute; reflexivity. Qed.

(** C5 on the code. Forward mode, no callback, the dial is refused.
    If the resolver finds the host in both families, [RoundTrip] returns
    [(nil, nil)]; if the resolver fails, it returns the resolver's error.
    The dial error "connection refused" is returned in neither case. The
    "err" counter is incremented in the first case only. *)
Lemma dial_error_not_propagated :
  dial_conn (env_dial env_refused 0) = inr "connection refused" /\
  fst (RoundTrip env_refused (initSt ctx_forward req_example)) = (None, None) /\
  requestCount (st_ctx (snd (RoundTrip env_refused (initSt ctx_forward req_example))))
    "spoof" "err" = 1%nat /\
  dial_conn (env_dial env_refused_unresolved 0) = inr "connection refused" /\
  fst (RoundTrip env_refused_unresolved (initSt ctx_forward req_example))
    = (None, Some "no such host") /\
  requestCount (st_ctx (snd (RoundTrip env_refused_unresolved (initSt ctx_forward req_example))))
    "spoof" "err" = 0%nat.
Proof. repeat split; vm_compute; reflexivity. Qed.

(** C10 on the code. Forward mode, the dial is refused, the callback
    returns an empty address: the callback is consumed, there is no second
    dial, the forward proxy is unchanged, and [RoundTrip] returns
    [(nil, nil)], not the dial error. *)
Lemma empty_fallback_loses_dial_error :
  dial_conn (env_dial env_refused 0) = inr "connection refused" /\
  ForwardProxyErrorFallback
    (st_ctx (snd (RoundTrip env_refused (initSt ctx_with_empty_fallback req_example)))) = None /\
  st_dials (snd (RoundTrip env_refused (initSt ctx_with_empty_fallback req_example))) = 1%nat /\
  ForwardProxy (st_ctx (snd (RoundTrip env_refused (initSt ctx_with_empty_fallback req_example))))
    = "10.0.0.1:3128" /\
  fst (RoundTrip env_refused (initSt ctx_with_empty_fallback req_example)) = (None, None).
Proof. repeat split; vm_compute; reflexivity. Qed.

(** ** What a failed forward dial returns *)

(** In forward mode without callback, a failed dial ends the pass with the
    error of the resolver chain (nil when the resolver answered), whatever
    the dial error was, and with the error metric run exactly when both
    address families are non-empty. *)
Lemma failed_forward_dial_returns_resolver_error env s dialErr :
  RoundTripper (st_ctx s) = None ->
  ForwardProxy (st_ctx s) <> "" ->
  ForwardProxyErrorFallback (st_ctx s) = None ->
  dial_conn (env_dial env (st_dials s)) = inr dialErr ->
  exists s1 s',
    dialled s s1 /\
    let '(c4, c6, err, _) := resolveChain env (dialHost (st_req s)) s1 in
    attempt env s = Done (None, err) s' /\
    st_ctx s' = (if (0 <? Z.of_nat (length c4)) && (0 <? Z.of_nat (length c6))
                 then SetErrorMetric (st_ctx s1) else st_ctx s1).
Proof.
  intros Hrt Hfp Hcb Hdial.
  destruct (attempt_forward env s Hrt Hfp) as (s1 & tr & Hd & (t & X) & _ & _ & ->).
  rewrite Hdial.
  destruct (dialFailure_spec env (dialHost (st_req s)) dialErr s1) as (s2 & Hs2).
  exists s1, s2. split; [exact Hd|].
  destruct (resolveChain env (dialHost (st_req s)) s1) as [[[c4 c6] err] sx].
  destruct Hs2 as (_ & _ & _ & _ & Hcase).
  assert (Hcb1 : ForwardProxyErrorFallback (st_ctx s1) = None) by (rewrite X; exact Hcb).
  rewrite Hcb1 in Hcase. exact Hcase.
Qed.

(** In forward mode, when the dial fails and the callback returns an empty
    address, the pass returns: the callback is cleared, the forward proxy
    stays, there was one dial, and the error returned is again the
    resolver chain's. *)
Lemma empty_fallback_is_consumed env s fallback dialErr :
  RoundTripper (st_ctx s) = None ->
  ForwardProxy (st_ctx s) <> "" ->
  ForwardProxyErrorFallback (st_ctx s) = Some fallback ->
  fst (fallback tt) = "" ->
  dial_conn (env_dial env (st_dials s)) = inr dialErr ->
  exists s1 s',
    dialled s s1 /\
    let '(_, _, err, _) := resolveChain env (dialHost (st_req s)) s1 in
    attempt env s = Done (None, err) s' /\
    ForwardProxyErrorFallback (st_ctx s') = None /\
    ForwardProxy (st_ctx s') = ForwardProxy (st_ctx s) /\
    st_dials s' = S (st_dials s).
Proof.
  intros Hrt Hfp Hcb Hnp Hdial.
  destruct (attempt_forward env s Hrt Hfp) as (s1 & tr & Hd & (t & X) & _ & _ & ->).
  rewrite Hdial.
  destruct (dialFailure_spec env (dialHost (st_req s)) dialErr s1) as (s2 & Hs2).
  exists s1, s2. split; [exact Hd|].
  destruct Hd as (_ & _ & _ & _ & D1).
  destruct (resolveChain env (dialHost (st_req s)) s1) as [[[c4 c6] err] sx].
  destruct Hs2 as (_ & _ & D2 & _ & Hcase).
  assert (Hcb1 : ForwardProxyErrorFallback (st_ctx s1) = Some fallback) by (rewrite X; exact Hcb).
  rewrite Hcb1 in Hcase. apply nonempty_false in Hnp. rewrite Hnp in Hcase.
  destruct Hcase as (-> & Hctx).
  destruct (classified_fields ((0 <? Z.of_nat (length c4)) && (0 <? Z.of_nat (length c6)))
              (st_ctx s1)) as (_ & F2 & _).
  split; [reflexivity|]. rewrite Hctx, D2, D1. cbn. rewrite F2, X. auto.
Qed.

(** * Further properties of the code *)

(** ** The two workers on one connection *)

(** A write and a read touch different fields of the wrapper and of the
    raw connection. *)
Lemma Write_Read_commute c w r :
  fst (ProxyTCPConn.Read (fst (ProxyTCPConn.Write c w)) r)
  = fst (ProxyTCPConn.Write (fst (ProxyTCPConn.Read c r)) w).
Proof.
  unfold ProxyTCPConn.Write, ProxyTCPConn.Read, ProxyTCPConn.armWrite, ProxyTCPConn.armRead,
    ProxyTCPConn.set_Conn.
  destruct (io_err w), (io_err r); cbn;
    destruct (0 <? ProxyTCPConn.WriteTimeout c), (0 <? ProxyTCPConn.ReadTimeout c); reflexivity.
Qed.

Lemma runWrites_Read ws : forall c r,
  runWrites ws (fst (ProxyTCPConn.Read c r)) = fst (ProxyTCPConn.Read (runWrites ws c) r).
Proof.
  induction ws as [|w ws IH]; intros c r; [reflexivity|].
  cbn. rewrite <- Write_Read_commute. apply IH.
Qed.

(** X1. Whatever the order in which the writer's raw writes and the
    reader's raw reads reach the instrumented connection, the connection
    ends as if all the writes had come first and the reads after them:
    counters, deadlines and configuration depend only on the sequence of
    writes and on the sequence of reads. *)
Theorem workers_interleaving (ops : list Op) (conn : ProxyTCPConn.proxyTCPConn) :
  runOps ops conn = runReads (reads_of ops) (runWrites (writes_of ops) conn).
Proof.
  revert conn. induction ops as [|[w|r] ops IH]; intros conn.
  - reflexivity.
  - change (runOps (OpWrite w :: ops) conn) with (runOps ops (fst (ProxyTCPConn.Write conn w))).
    rewrite IH. reflexivity.
  - change (runOps (OpRead r :: ops) conn) with (runOps ops (fst (ProxyTCPConn.Read conn r))).
    rewrite IH. cbn [reads_of writes_of]. rewrite runWrites_Read. reflexivity.
Qed.

(** ** A fresh wrapper *)

(** With both timeouts at zero no call arms a deadline, and clearing a
    deadline that is not set changes nothing. *)
Lemma runOp_no_timeouts conn op :
  ProxyTCPConn.ReadTimeout conn = 0 -> ProxyTCPConn.WriteTimeout conn = 0 ->
  writeDeadline (ProxyTCPConn.Conn conn) = None ->
  readDeadline (ProxyTCPConn.Conn conn) = None ->
  ProxyTCPConn.Conn (runOp conn op) = ProxyTCPConn.Conn conn /\
  ProxyTCPConn.ReadTimeout (runOp conn op) = 0 /\
  ProxyTCPConn.WriteTimeout (runOp conn op) = 0 /\
  ProxyTCPConn.Logger (runOp conn op) = ProxyTCPConn.Logger conn /\
  ProxyTCPConn.IgnoreDeadlineErrors (runOp conn op) = ProxyTCPConn.IgnoreDeadlineErrors conn.
Proof.
  intros Hr Hw Dw Dr.
  destruct conn as [raw bw br rt wt lg ig]. cbn in Hr, Hw, Dw, Dr. subst rt wt.
  destruct raw as [tcp wd rd ka kap cl cc]. cbn in Dw, Dr. subst wd rd.
  destruct op as [io|io]; cbn; unfold ProxyTCPConn.Write, ProxyTCPConn.Read;
    destruct (io_err io); cbn; auto.
Qed.

Lemma runOps_no_timeouts ops : forall conn,
  ProxyTCPConn.ReadTimeout conn = 0 -> ProxyTCPConn.WriteTimeout conn = 0 ->
  writeDeadline (ProxyTCPConn.Conn conn) = None ->
  readDeadline (ProxyTCPConn.Conn conn) = None ->
  ProxyTCPConn.Conn (runOps ops conn) = ProxyTCPConn.Conn conn /\
  ProxyTCPConn.ReadTimeout (runOps ops conn) = 0 /\
  ProxyTCPConn.WriteTimeout (runOps ops conn) = 0 /\
  ProxyTCPConn.Logger (runOps ops conn) = ProxyTCPConn.Logger conn /\
  ProxyTCPConn.IgnoreDeadlineErrors (runOps ops conn) = ProxyTCPConn.IgnoreDeadlineErrors conn.
Proof.
  induction ops as [|op ops IH]; intros conn Hr Hw Dw Dr; [cbn; auto|].
  change (runOps (op :: ops) conn) with (runOps ops (runOp conn op)).
  destruct (runOp_no_timeouts conn op Hr Hw Dw Dr) as (C & R & W & L & I).
  destruct (IH (runOp conn op) R W) as (C' & R' & W' & L' & I'); [rewrite C; assumption ..|].
  rewrite C', L', I'. auto.
Qed.

(** X2. A connection wrapped by [newProxyTCPConn] and used as it is (no
    timeout assigned) never gets a deadline: after any run of reads and
    writes the raw connection is the one that was wrapped, and the two
    counters are exactly the bytes of the writes and of the reads that
    returned no error (for raw calls that report a non-negative count and
    totals below 2^63). *)
Theorem fresh_connection_accounting (raw : RawConn) (ops : list Op) :
  writeDeadline raw = None -> readDeadline raw = None ->
  Forall io_nonneg ops -> written ops <= int64_max -> received ops <= int64_max ->
  runOps ops (ProxyTCPConn.newProxyTCPConn raw)
  = ProxyTCPConn.mk raw (written ops) (received ops) 0 0 false false.
Proof.
  intros Dw Dr Hnn Hw Hr.
  destruct (runOps_no_timeouts ops (ProxyTCPConn.newProxyTCPConn raw)
              eq_refl eq_refl Dw Dr) as (C & R & W & L & I).
  destruct (TCPFacts.runOps_counters ops (ProxyTCPConn.newProxyTCPConn raw) Hnn)
    as (Bw & Br); cbn; try lia.
  cbn in C, L, I, Bw, Br.
  destruct (runOps ops (ProxyTCPConn.newProxyTCPConn raw)) as [raw' bw br rt wt lg ig].
  cbn in *. subst. f_equal; lia.
Qed.

Lemma fresh_connection_accounting_witness :
  runOps [OpWrite (mkRawIO 10 120 None); OpRead (mkRawIO 20 0 (Some "i/o timeout"));
          OpRead (mkRawIO 30 100 None)]
         (ProxyTCPConn.newProxyTCPConn (mkRawConn true None None false None false 0))
  = ProxyTCPConn.mk (mkRawConn true None None false None false 0) 120 100 0 0 false false.
Proof.
  apply (fresh_connection_accounting (mkRawConn true None None false None false 0)
           [OpWrite (mkRawIO 10 120 None); OpRead (mkRawIO 20 0 (Some "i/o timeout"));
            OpRead (mkRawIO 30 100 None)]).
  - reflexivity.
  - reflexivity.
  - repeat constructor; unfold io_nonneg; cbn; lia.
  - vm_compute. discriminate.
  - vm_compute. discriminate.
Defined.

(** ** Charset *)

(** Unfolds [+:+] on a string that starts with a known character. *)
Ltac string_app :=
  repeat match goal with
  | |- context [String ?a ?p +:+ ?r] => change (String a p +:+ r) with (String a (p +:+ r))
  | |- context [EmptyString +:+ ?r] => change (EmptyString +:+ r) with r
  | H : context [String ?a ?p +:+ ?r] |- _ =>
      change (String a p +:+ r) with (String a (p +:+ r)) in H
  | H : context [EmptyString +:+ ?r] |- _ => change (EmptyString +:+ r) with r in H
  end.

Lemma CutPrefix_Some (p : string) : forall s rest,
  strings_CutPrefix s p = Some rest <-> s = p +:+ rest.
Proof.
  induction p as [|a p IH]; intros s rest; string_app.
  - destruct s; cbn; split; congruence.
  - destruct s as [|b s]; cbn; [split; discriminate|].
    destruct (Ascii.eqb_spec a b) as [->|Hab].
    + rewrite IH. split; congruence.
    + split; [discriminate|]. intros [= -> _]. congruence.
Qed.

Lemma CutPrefix_prefix (p : string) : forall s,
  String.prefix p s = notnil (strings_CutPrefix s p).
Proof.
  induction p as [|a p IH]; intros s.
  - destruct s; reflexivity.
  - destruct s as [|b s]; [reflexivity|]. cbn.
    destruct (ascii_dec a b) as [->|Hab].
    + rewrite Ascii.eqb_refl. apply IH.
    + apply Ascii.eqb_neq in Hab. rewrite Hab. reflexivity.
Qed.

Lemma prefix_cons (a b : ascii) (p s : string) :
  String.prefix (String a p) (String b s) = if ascii_dec a b then String.prefix p s else false.
Proof. reflexivity. Qed.

Lemma prefix_app (p a b : string) : String.prefix (p +:+ a) (p +:+ b) = String.prefix a b.
Proof.
  induction p as [|c p IH]; string_app; [reflexivity|].
  cbn. destruct (ascii_dec c c); [exact IH|congruence].
Qed.

Lemma prefix_charsetGroup (s : string) : String.prefix (charsetGroup s) s = true.
Proof.
  induction s as [|c s IH]; [reflexivity|].
  cbn. destruct (_ || _); [reflexivity|].
  cbn. destruct (ascii_dec c c); [exact IH|congruence].
Qed.

Lemma charsetGroup_noSeparator (s : string) : noSeparator (charsetGroup s).
Proof.
  unfold noSeparator. induction s as [|c s IH]; cbn; [constructor|].
  destruct (Ascii.eqb_spec c " "); [constructor|].
  destruct (Ascii.eqb_spec c ";"); [constructor|].
  cbn. constructor; auto.
Qed.

Lemma charsetGroup_id (cs rest : string) :
  noSeparator cs ->
  rest = "" \/ String.prefix " " rest = true \/ String.prefix ";" rest = true ->
  charsetGroup (cs +:+ rest) = cs.
Proof.
  unfold noSeparator. intros Hcs Hrest.
  induction cs as [|c cs IH]; string_app.
  - destruct rest as [|b rest]; [reflexivity|].
    destruct Hrest as [H|[H|H]]; [discriminate| |]; rewrite prefix_cons in H;
      destruct (ascii_dec _ b) as [<-|]; try discriminate; reflexivity.
  - cbn in Hcs. inversion Hcs as [|? ? [H1 H2] Hrest']; subst.
    apply Ascii.eqb_neq in H1, H2. cbn. rewrite H1, H2. cbn. rewrite IH; auto.
Qed.

Lemma Contains_cons (c : ascii) (s sub : string) :
  strings_Contains (String c s) sub = String.prefix sub (String c s) || strings_Contains s sub.
Proof. reflexivity. Qed.

(** What [FindStringSubmatch] returns. *)
Lemma FindStringSubmatch_spec (s : string) :
  match charsetFinder_FindStringSubmatch s with
  | None => strings_Contains s "charset=" = false
  | Some m =>
      exists g, m = ["charset=" +:+ g; g] /\ noSeparator g /\
                strings_Contains s ("charset=" +:+ g) = true
  end.
Proof.
  induction s as [|c s IH]; [reflexivity|].
  cbn [charsetFinder_FindStringSubmatch].
  destruct (strings_CutPrefix (String c s) "charset=") as [rest|] eqn:Hcut.
  - exists (charsetGroup rest). split; [reflexivity|]. split; [apply charsetGroup_noSeparator|].
    apply CutPrefix_Some in Hcut. rewrite Hcut.
    change ("charset=" +:+ rest) with (String "c" ("harset=" +:+ rest)).
    rewrite Contains_cons.
    change (String "c" ("harset=" +:+ rest)) with ("charset=" +:+ rest).
    rewrite prefix_app, prefix_charsetGroup. reflexivity.
  - pose proof (CutPrefix_prefix "charset=" (String c s)) as Hp. rewrite Hcut in Hp.
    rewrite Contains_cons.
    destruct (charsetFinder_FindStringSubmatch s) as [m|].
    + destruct IH as (g & -> & Hg & Hc). exists g. split; [reflexivity|]. split; [exact Hg|].
      rewrite Contains_cons, Hc. apply orb_true_r.
    + rewrite Hp, IH. reflexivity.
Qed.

(** The literal [charset=] does not overlap itself: a match cannot start
    inside [pre] and end inside the literal that follows. *)
Ltac border_step :=
  match goal with
  | Hp : String.prefix (String ?l ?p) (String ?a ?pre) = false
    |- strings_CutPrefix (String ?a ?rest) (String ?l ?p) = None =>
      cbn [strings_CutPrefix];
      destruct (Ascii.eqb_spec l a) as [<-|]; [|reflexivity];
      rewrite prefix_cons in Hp;
      destruct (ascii_dec l l); [|congruence]
  end.

Lemma charset_literal_no_border (pre x : string) :
  pre <> "" -> String.prefix "charset=" pre = false ->
  strings_CutPrefix (pre +:+ "charset=" +:+ x) "charset=" = None.
Proof.
  intros Hne Hp.
  destruct pre as [|a pre]; [congruence|]. clear Hne. string_app.
  do 7 (border_step; destruct pre as [|? pre]; string_app; [reflexivity|]).
  border_step. destruct pre; discriminate.
Qed.

Lemma FindStringSubmatch_first (pre x : string) :
  strings_Contains pre "charset=" = false ->
  charsetFinder_FindStringSubmatch (pre +:+ "charset=" +:+ x)
  = Some ["charset=" +:+ charsetGroup x; charsetGroup x].
Proof.
  induction pre as [|a pre IH]; intros Hc.
  - change ("" +:+ "charset=" +:+ x) with (String "c" ("harset=" +:+ x)).
    cbn [charsetFinder_FindStringSubmatch].
    change (String "c" ("harset=" +:+ x)) with ("charset=" +:+ x).
    rewrite (proj2 (CutPrefix_Some "charset=" ("charset=" +:+ x) x) eq_refl). reflexivity.
  - rewrite Contains_cons in Hc. apply orb_false_iff in Hc as [Hp Hc].
    change (String a pre +:+ "charset=" +:+ x) with (String a (pre +:+ "charset=" +:+ x)).
    cbn [charsetFinder_FindStringSubmatch].
    change (String a (pre +:+ "charset=" +:+ x)) with (String a pre +:+ "charset=" +:+ x).
    rewrite charset_literal_no_border by (congruence || exact Hp).
    apply IH, Hc.
Qed.

Lemma prefix_app_l (p g : string) : forall s,
  String.prefix (p +:+ g) s = true -> String.prefix p s = true.
Proof.
  induction p as [|a p IH]; intros s; string_app.
  - intros _. destruct s; reflexivity.
  - destruct s as [|b s]; [discriminate|].
    rewrite !prefix_cons. destruct (ascii_dec a b); [apply IH|discriminate].
Qed.

Lemma Contains_app_l (s p g : string) :
  strings_Contains s (p +:+ g) = true -> strings_Contains s p = true.
Proof.
  induction s as [|c s IH].
  - change (String.prefix (p +:+ g) "" || false = true -> String.prefix p "" || false = true).
    rewrite !orb_false_r. apply prefix_app_l.
  - rewrite !Contains_cons. intros H. apply orb_true_iff in H as [H|H].
    + rewrite (prefix_app_l _ _ _ H). reflexivity.
    + rewrite (IH H). apply orb_true_r.
Qed.

(** X4. On a response that is there, [Charset] returns a string without
    space and semicolon, and when the Content-Type header contains
    [charset=] that string stands in the header right after [charset=]. *)
Theorem Charset_sound (header : gmap string (list string)) :
  exists r,
    Charset (Some header) = Some r /\ noSeparator r /\
    strings_Contains (Header_Get header "Content-Type") ("charset=" +:+ r)
    = strings_Contains (Header_Get header "Content-Type") "charset=".
Proof.
  unfold Charset.
  pose proof (FindStringSubmatch_spec (Header_Get header "Content-Type")) as H.
  destruct (charsetFinder_FindStringSubmatch (Header_Get header "Content-Type")) as [m|].
  - destruct H as (g & -> & Hg & Hc). exists g. cbn. split; [reflexivity|]. split; [exact Hg|].
    rewrite Hc, (Contains_app_l _ _ _ Hc). reflexivity.
  - exists "". split; [reflexivity|]. split; [constructor|]. reflexivity.
Qed.

(** X5. [Charset] returns the empty string when the response has no
    Content-Type header, and whenever the header does not contain the
    literal [charset=] in exactly this spelling. *)
Theorem Charset_absent (header : gmap string (list string)) :
  strings_Contains (Header_Get header "Content-Type") "charset=" = false ->
  Charset (Some header) = Some "".
Proof.
  intros Hc. unfold Charset.
  pose proof (FindStringSubmatch_spec (Header_Get header "Content-Type")) as H.
  destruct (charsetFinder_FindStringSubmatch (Header_Get header "Content-Type")) as [m|];
    [|reflexivity].
  destruct H as (g & _ & _ & Hg).
  rewrite (Contains_app_l _ _ _ Hg) in Hc. discriminate.
Qed.

Lemma Charset_absent_witness :
  Charset (Some (Header_Set "Content-Type" "text/html; Charset=UTF-8" ∅)) = Some "" /\
  Charset (Some ∅) = Some "".
Proof.
  split.
  - apply (Charset_absent (Header_Set "Content-Type" "text/html; Charset=UTF-8" ∅)).
    vm_compute. reflexivity.
  - apply (Charset_absent ∅). vm_compute. reflexivity.
Defined.

(** X6. When the Content-Type header is some text without [charset=],
    then [charset=], then a value without space and semicolon, and the
    value is followed by nothing, by a space or by a semicolon, [Charset]
    returns that value. *)
Theorem Charset_round_trip (header : gmap string (list string)) (pre cs rest : string) :
  Header_Get header "Content-Type" = pre +:+ "charset=" +:+ cs +:+ rest ->
  strings_Contains pre "charset=" = false ->
  noSeparator cs ->
  rest = "" \/ String.prefix " " rest = true \/ String.prefix ";" rest = true ->
  Charset (Some header) = Some cs.
Proof.
  intros Hh Hpre Hcs Hrest. unfold Charset.
  rewrite Hh, FindStringSubmatch_first by exact Hpre.
  rewrite charsetGroup_id by assumption. reflexivity.
Qed.

Lemma Charset_round_trip_witness :
  Charset (Some (Header_Set "Content-Type" "text/html; charset=utf-8; boundary=x" ∅))
  = Some "utf-8".
Proof.
  apply (Charset_round_trip
           (Header_Set "Content-Type" "text/html; charset=utf-8; boundary=x" ∅)
           "text/html; " "utf-8" "; boundary=x").
  - vm_compute. reflexivity.
  - vm_compute. reflexivity.
  - unfold noSeparator. cbn. repeat constructor; discriminate.
  - right. right. vm_compute. reflexivity.
Defined.

(** ** Logging *)

Lemma session_tag (session : Z) :
  Z.land session 255 = session mod 256 /\ 0 <= Z.land session 255 < 256.
Proof.
  change 255 with (Z.ones 8). rewrite Z.land_ones by lia.
  change (2 ^ 8) with 256. split; [reflexivity|]. apply Z.mod_pos_bound. lia.
Qed.

(** X7. [Logf], [Infof] and [Warnf] make at most one call. With a leveled
    logger the call goes to its [Debugf], [Infof] or [Warningf]; without
    one all three do what [printf] does, which is a [Printf] on the proxy's
    logger when the proxy is verbose and nothing otherwise: also a warning
    is dropped then. The first argument of the call is the request id when
    there is one, and else the session number modulo 256 (between 0 and
    255, also for a negative session); the caller's arguments follow. *)
Theorem logging_outcome (l : Logging.Level) (ctx : Logging.LogCtx) (msg : string)
    (argv : list Logging.Arg) :
  match Logging.log l ctx msg argv with
  | None => Logging.ProxyLogger ctx = false /\ Logging.Verbose ctx = false
  | Some call =>
      Logging.sink call
        = (if Logging.ProxyLogger ctx
           then match l with
                | Logging.LevelLogf => Logging.toDebugf
                | Logging.LevelInfof => Logging.toInfof
                | Logging.LevelWarnf => Logging.toWarningf
                end
           else Logging.toPrintf) /\
      (Logging.ProxyLogger ctx = false ->
         Logging.Verbose ctx = true /\ Logging.printf ctx msg argv = Some call) /\
      Logging.args call
        = (if nonempty (Logging.LogRequestID ctx)
           then Logging.ArgString (Logging.LogRequestID ctx)
           else Logging.ArgInt (Logging.Session ctx mod 256)) :: argv /\
      0 <= Logging.Session ctx mod 256 < 256
  end.
Proof.
  destruct (session_tag (Logging.Session ctx)) as [Etag Htag]. rewrite <- Etag.
  destruct l; cbn; unfold Logging.Logf, Logging.Infof, Logging.Warnf, Logging.printf;
    destruct (Logging.ProxyLogger ctx), (Logging.Verbose ctx),
      (nonempty (Logging.LogRequestID ctx)); cbn; conjs; auto; try discriminate; lia.
Qed.

Lemma logging_outcome_witness :
  Logging.log Logging.LevelWarnf (Logging.mkLogCtx false "" (-1) true) "dial failed" []
  = Some (Logging.mkCall Logging.toPrintf ("[%03d] dial failed" +:+ Logging.LF)
            [Logging.ArgInt 255]) /\
  Logging.log Logging.LevelWarnf (Logging.mkLogCtx false "" (-1) false) "dial failed" [] = None.
Proof.
  pose proof (logging_outcome Logging.LevelWarnf (Logging.mkLogCtx false "" (-1) true)
                "dial failed" []) as H.
  destruct (Logging.log Logging.LevelWarnf (Logging.mkLogCtx false "" (-1) true)
              "dial failed" []) as [call|] eqn:E.
  - destruct H as (_ & H & _). destruct (H eq_refl) as (_ & <-). split; reflexivity.
  - destruct H as (_ & H). discriminate H.
Defined.

(** ** More on one pass and on the exchange *)

Lemma exchange_rest cs conn s :
  st_req (snd (exchange cs conn s)) = ensureUserAgent (st_req s) /\
  st_resolves (snd (exchange cs conn s)) = st_resolves s /\
  st_conn (snd (exchange cs conn s)) <> None.
Proof.
  unfold exchange.
  destruct (cs_ser_err cs) as [e|];
    [destruct (strings_Contains e "timeout")
    |destruct (cs_parse cs) as [[status body]|e]; [|destruct (strings_Contains e "timeout")]];
    cbn; auto.
Qed.

Lemma exchangeStart_rest cs ka s :
  st_req (exchangeStart cs ka s) = set_RequestURI (URL_String (st_req s)) (st_req s) /\
  st_resolves (exchangeStart cs ka s) = st_resolves s.
Proof.
  unfold exchangeStart, tuned, wrapAndTune.
  destruct ka; cbn; [|auto].
  destruct (ProxyTCPConn.SetKeepaliveParameters _ _ _ _ _ _ _) as [c [e|]]; cbn; auto.
Qed.

Lemma afterDial_rest cs ka s :
  st_req (snd (afterDial cs ka s))
    = ensureUserAgent (set_RequestURI (URL_String (st_req s)) (st_req s)) /\
  st_resolves (snd (afterDial cs ka s)) = st_resolves s /\
  st_conn (snd (afterDial cs ka s)) <> None.
Proof.
  rewrite afterDial_unfold.
  destruct (exchange_rest cs (fst (tuned cs ka s)) (exchangeStart cs ka s)) as (-> & -> & C).
  destruct (exchangeStart_rest cs ka s) as (-> & ->). auto.
Qed.

(** The context after an exchange in which the writer signalled nil. *)
Lemma exchange_reader_ctx cs conn s :
  cs_ser_err cs = None ->
  let snapshot :=
    runReads (firstn (cs_reads_done cs) (cs_reads cs))
      (runWrites (cs_flush_writes cs) (runWrites (cs_ser_writes cs) conn)) in
  let final := runReads (skipn (cs_reads_done cs) (cs_reads cs)) snapshot in
  let c0 :=
    set_Bytes (st_ctx s) (ProxyTCPConn.BytesWrote snapshot) (ProxyTCPConn.BytesRead snapshot) in
  st_ctx (snd (exchange cs conn s))
  = match cs_parse cs with
    | inl _ =>
        addBandwidth (wrap64 (ProxyTCPConn.BytesWrote final + ProxyTCPConn.BytesRead final))
          (SetSuccessMetric c0)
    | inr e => if strings_Contains e "timeout" then c0 else SetErrorMetric c0
    end.
Proof.
  intros He. unfold exchange. rewrite He.
  destruct (cs_parse cs) as [[status body]|e]; [|destruct (strings_Contains e "timeout")];
    reflexivity.
Qed.

(** Every pass of the built-in round trip dials exactly once; a pass
    that ends without a connection leaves the request alone. *)
Lemma attempt_dials env s :
  RoundTripper (st_ctx s) = None ->
  match attempt env s with
  | Done _ s' =>
      st_dials s' = S (st_dials s) /\ (st_conn s' = st_conn s -> st_conn s = None ->
                                       st_req s' = st_req s)
  | Retry s' =>
      st_dials s' = S (st_dials s) /\ st_req s' = st_req s /\
      exists e, dial_conn (env_dial env (st_dials s)) = inr e
  end.
Proof.
  intros Hrt.
  destruct (nonempty (ForwardProxy (st_ctx s))) eqn:Hne.
  - apply nonempty_true in Hne as Hfp.
    destruct (attempt_forward env s Hrt Hfp) as (s1 & tr & Hd & _ & _ & _ & ->).
    destruct Hd as (_ & _ & C1 & R1 & D1).
    destruct (dial_conn (env_dial env (st_dials s))) as [cs|err].
    + cbv zeta. destruct (afterDial_frame cs false
        (upd_ctx (observeTLSTime
                    (Z.quot (dial_end (env_dial env (st_dials s))) 1000000
                     - Z.quot (dial_start (env_dial env (st_dials s))) 1000000)) s1)) as (D & _).
      destruct (afterDial_rest cs false
        (upd_ctx (observeTLSTime
                    (Z.quot (dial_end (env_dial env (st_dials s))) 1000000
                     - Z.quot (dial_start (env_dial env (st_dials s))) 1000000)) s1)) as (_ & _ & C).
      split; [rewrite D; exact D1|]. intros E N. rewrite N in E. contradiction.
    + destruct (dialFailure_spec env (dialHost (st_req s)) err s1) as (s2 & Hs2).
      destruct (resolveChain env (dialHost (st_req s)) s1) as [[[c4 c6] err'] sx].
      destruct Hs2 as (R2 & C2 & D2 & _ & Hcase).
      destruct (ForwardProxyErrorFallback (st_ctx s1)) as [f|].
      * destruct (nonempty (fst (f tt))); destruct Hcase as (-> & _).
        -- split; [congruence|]. split; [congruence|eauto].
        -- split; [congruence|]. intros _ _. congruence.
      * destruct Hcase as (-> & _). split; [congruence|]. intros _ _. congruence.
  - apply nonempty_false in Hne as Hfp.
    destruct (attempt_direct env s Hrt Hfp) as (s1 & Hd & _ & ->).
    destruct Hd as (_ & _ & C1 & R1 & D1).
    destruct (dial_conn (env_dial env (st_dials s))) as [cs|err].
    + destruct (afterDial_frame cs true s1) as (D & _).
      destruct (afterDial_rest cs true s1) as (_ & _ & C).
      split; [rewrite D; exact D1|]. intros E N. rewrite N in E. contradiction.
    + split; [exact D1|]. intros _ _. exact R1.
Qed.

(** X8. Without a plugged round tripper, [RoundTrip] dials once or twice
    and never more. It dials twice only in forward mode, when the first
    dial failed and the context held a fallback callback. *)
Theorem RoundTrip_dials_once_or_twice (env : Env) (ctx : ProxyCtx) (req : Request) :
  RoundTripper ctx = None ->
  let n := st_dials (snd (RoundTrip env (initSt ctx req))) in
  (n = 1%nat \/ n = 2%nat) /\
  (n = 2%nat ->
     ForwardProxy ctx <> "" /\ ForwardProxyErrorFallback ctx <> None /\
     exists e, dial_conn (env_dial env 0) = inr e).
Proof.
  intros Hrt. cbv zeta. rewrite RoundTrip_step.
  pose proof (attempt_dials env (initSt ctx req) Hrt) as D1.
  destruct (attempt_cases env (initSt ctx req) Hrt)
    as [(s' & E & Hcb & Hno & Hne & _ & _ & _ & K) | [(r & s' & E & _) | (cs & s1 & E & _)]];
    rewrite E in D1 |- *.
  2,3: destruct D1 as (D1 & _); cbn [snd]; rewrite D1; cbn;
       (split; [left; reflexivity|discriminate]).
  destruct D1 as (D1 & _ & Hdial).
  assert (Hrt' : RoundTripper (st_ctx s') = None).
  { destruct K as (-> & _). exact Hrt. }
  rewrite RoundTrip_step.
  pose proof (attempt_dials env s' Hrt') as D2.
  destruct (attempt_cases env s' Hrt')
    as [(s'' & _ & Hcb' & _) | [(r & s'' & E' & _) | (cs & s1 & E' & _)]].
  { contradiction. }
  all: rewrite E' in D2 |- *; destruct D2 as (D2 & _); cbn [snd]; rewrite D2, D1; cbn.
  all: split; [right; reflexivity|]; intros _; cbn in Hne, Hcb, Hdial.
  all: apply nonempty_true in Hne; auto.
Qed.

Lemma RoundTrip_dials_once_or_twice_witness :
  st_dials (snd (RoundTrip env_second_connects (initSt ctx_with_fallback req_example))) = 2%nat /\
  st_dials (snd (RoundTrip env_refused (initSt ctx_direct_with_fallback req_example))) = 1%nat.
Proof.
  split.
  - destruct (RoundTrip_dials_once_or_twice env_second_connects ctx_with_fallback req_example
                eq_refl) as ([H|H] & _); [|exact H].
    vm_compute in H. discriminate H.
  - destruct (RoundTrip_dials_once_or_twice env_refused ctx_direct_with_fallback req_example
                eq_refl) as ([H|H] & G); [exact H|].
    destruct (G H) as (F & _). exfalso. apply F. reflexivity.
Defined.

(** ** How the exchange ends when the writer succeeded *)

Lemma requestCount_set_Bytes c a b t (o : string) :
  requestCount (set_Bytes c a b) t o = requestCount c t o.
Proof. reflexivity. Qed.




(** ** Direct mode *)

(** A pass in direct mode, with the state after the dial written out. *)
Lemma attempt_direct_exact env s :
  RoundTripper (st_ctx s) = None -> ForwardProxy (st_ctx s) = "" ->
  exists tr s0,
    core s0 = core s /\
    let s1 := count_dial (emit (EvDial tr "tcp4" (dialHost (st_req s)) ∅) s0) in
    attempt env s =
      match dial_conn (env_dial env (st_dials s)) with
      | inr err => Done (None, Some err) s1
      | inl cs => Done (fst (afterDial cs true s1)) (snd (afterDial cs true s1))
      end.
Proof.
  intros Hrt Hfp.
  destruct (attempt_unfold env s Hrt) as (d & s0 & Hc & ->).
  rewrite Hfp. cbn [nonempty String.eqb negb].
  destruct (core_fields _ _ Hc) as (_ & _ & _ & _ & Hd & _).
  destruct (directMode_spec env d (poolOf (st_ctx s)) (dialHost (st_req s)) s0) as (tr & _ & ->).
  rewrite Hd. exists tr, s0. split; [exact Hc|reflexivity].
Qed.

Lemma set_Bytes_same (c : ProxyCtx) : set_Bytes c (BytesSent c) (BytesReceived c) = c.
Proof. destruct c. reflexivity. Qed.

Lemma ctx_shape (c : ProxyCtx) a b :
  exists bw,
    set_Bytes c a b
    = set_Bytes
        (set_ForwardMetricsCounters c
           (mkMetrics (Requests (ForwardMetricsCounters c)) bw
                      (TLSTimes (ForwardMetricsCounters c)))) a b.
Proof.
  exists (ProxyBandwidth (ForwardMetricsCounters c)).
  destruct c as [? ? ? ? ? ? ? ? [? ? ?]]. reflexivity.
Qed.

Lemma addBandwidth_shape n (c : ProxyCtx) a b :
  exists bw,
    addBandwidth n (set_Bytes c a b)
    = set_Bytes
        (set_ForwardMetricsCounters c
           (mkMetrics (Requests (ForwardMetricsCounters c)) bw
                      (TLSTimes (ForwardMetricsCounters c)))) a b.
Proof.
  unfold addBandwidth.
  destruct c as [? ? ? ? ? ? ? ? [rq [bw|] tl]]; cbn; eexists; reflexivity.
Qed.

(** X11. Without a forward proxy [RoundTrip] dials once and never asks
    the resolver or the fallback callback; a failed dial is returned as it
    is, with the context untouched; and however the run ends, the context
    differs from the caller's at most in [BytesSent], [BytesReceived] and
    the bandwidth counter: no request is counted, neither as "ok" nor as
    "err". *)
Theorem direct_mode_run (env : Env) (ctx : ProxyCtx) (req : Request) :
  RoundTripper ctx = None -> ForwardProxy ctx = "" ->
  st_dials (snd (RoundTrip env (initSt ctx req))) = 1%nat /\
  st_resolves (snd (RoundTrip env (initSt ctx req))) = 0%nat /\
  (forall np extra,
     ~ In (EvFallback np extra) (st_trace (snd (RoundTrip env (initSt ctx req))))) /\
  (exists bw a b,
     st_ctx (snd (RoundTrip env (initSt ctx req)))
     = set_Bytes
         (set_ForwardMetricsCounters ctx
            (mkMetrics (Requests (ForwardMetricsCounters ctx)) bw
                       (TLSTimes (ForwardMetricsCounters ctx)))) a b) /\
  (forall e, dial_conn (env_dial env 0) = inr e ->
     fst (RoundTrip env (initSt ctx req)) = (None, Some e) /\
     st_ctx (snd (RoundTrip env (initSt ctx req))) = ctx /\
     st_conn (snd (RoundTrip env (initSt ctx req))) = None).
Proof.
  intros Hrt Hfp. rewrite RoundTrip_step.
  destruct (attempt_direct_exact env (initSt ctx req) Hrt Hfp) as (tr & s0 & Hc & E).
  cbv zeta in E. rewrite E. clear E.
  destruct (core_fields _ _ Hc) as (Hctx & _ & Hconn & Htr & Hd & Hr & _).
  cbn [initSt st_ctx st_dials st_resolves st_conn st_trace st_req] in *.
  set (s1 := count_dial (emit (EvDial tr "tcp4" (dialHost req) ∅) s0)).
  assert (Hctx1 : st_ctx s1 = ctx) by exact Hctx.
  assert (Htr1 : forall np extra, ~ In (EvFallback np extra) (st_trace s1)).
  { intros np extra. cbn. rewrite Htr. cbn. intros [H|[]]. discriminate H. }
  destruct (dial_conn (env_dial env 0)) as [cs|err]; cbn [fst snd].
  2:{ conjs.
      - cbn. rewrite Hd. reflexivity.
      - exact Hr.
      - exact Htr1.
      - rewrite Hctx1. destruct (ctx_shape ctx (BytesSent ctx) (BytesReceived ctx)) as (bw & X).
        exists bw, (BytesSent ctx), (BytesReceived ctx). rewrite <- X, set_Bytes_same. reflexivity.
      - intros e [= <-]. auto. }
  destruct (afterDial_frame cs true s1) as (D & A).
  destruct (afterDial_rest cs true s1) as (_ & R & _).
  conjs.
  - rewrite D. cbn. rewrite Hd. reflexivity.
  - rewrite R. exact Hr.
  - intros np extra Hin. destruct (appends_In _ _ _ _ A Hin) as [H|[[_ []]|[]]].
    exact (Htr1 _ _ H).
  - rewrite afterDial_unfold.
    destruct (exchangeStart_frame cs true s1) as (Hc0 & _).
    destruct (cs_ser_err cs) as [e|] eqn:He.
    + destruct (exchange_writer_failed cs (fst (tuned cs true s1)) (exchangeStart cs true s1) e He)
        as (_ & -> & _).
      rewrite Hc0, Hctx1, SetErrorMetric_off by (left; exact Hfp).
      destruct (ctx_shape ctx (BytesSent ctx) (BytesReceived ctx)) as (bw & X).
      exists bw, (BytesSent ctx), (BytesReceived ctx). rewrite <- X, set_Bytes_same.
      destruct (strings_Contains e "timeout"); reflexivity.
    + rewrite (exchange_reader_ctx cs (fst (tuned cs true s1)) (exchangeStart cs true s1) He).
      cbv zeta. rewrite Hc0, Hctx1.
      destruct (cs_parse cs) as [[status body]|e].
      * rewrite SetSuccessMetric_off by (left; exact Hfp).
        match goal with |- context [addBandwidth ?n (set_Bytes ctx ?a ?b)] =>
          destruct (addBandwidth_shape n ctx a b) as (bw & ->) end.
        eauto.
      * rewrite SetErrorMetric_off by (left; exact Hfp).
        match goal with |- context [set_Bytes ctx ?a ?b] =>
          destruct (ctx_shape ctx a b) as (bw & X) end.
        eexists bw, _, _. destruct (strings_Contains e "timeout"); exact X.
  - intros e H. discriminate H.
Qed.

Lemma direct_mode_run_witness :
  fst (RoundTrip env_refused (initSt ctx_direct_with_fallback req_example))
    = (None, Some "connection refused") /\
  st_ctx (snd (RoundTrip env_refused (initSt ctx_direct_with_fallback req_example)))
    = ctx_direct_with_fallback.
Proof.
  destruct (direct_mode_run env_refused ctx_direct_with_fallback req_example eq_refl eq_refl)
    as (_ & _ & _ & _ & H).
  destruct (H "connection refused" eq_refl) as (R & C & _). split; [exact R | exact C].
Defined.

(** ** What the round trip does to the caller's request *)

Lemma ensureUserAgent_spec (r : Request) :
  URL_Host (ensureUserAgent r) = URL_Host r /\
  URL_String (ensureUserAgent r) = URL_String r /\
  RequestURI (ensureUserAgent r) = RequestURI r /\
  (forall k, Header_Get (req_Header (ensureUserAgent r)) k = Header_Get (req_Header r) k) /\
  is_Some (req_Header (ensureUserAgent r) !! "User-Agent") /\
  (forall k, k <> "User-Agent" -> req_Header (ensureUserAgent r) !! k = req_Header r !! k).
Proof.
  unfold ensureUserAgent.
  destruct (String.eqb_spec (Header_Get (req_Header r) "User-Agent") "") as [E|E]; cbn.
  - conjs; try reflexivity.
    + intros k. unfold Header_Get, Header_Set in *.
      destruct (decide (k = "User-Agent")) as [->|Hk].
      * rewrite lookup_insert_eq. symmetry. exact E.
      * rewrite lookup_insert_ne by congruence. reflexivity.
    + unfold Header_Set. rewrite lookup_insert_eq. eauto.
    + intros k Hk. unfold Header_Set. apply lookup_insert_ne. congruence.
  - conjs; try reflexivity.
    unfold Header_Get in E. destruct (req_Header r !! "User-Agent"); [eauto|contradiction].
Qed.

(** What a pass does to the request, for a state without connection. *)
Lemma attempt_request env s :
  RoundTripper (st_ctx s) = None -> st_conn s = None ->
  match attempt env s with
  | Done _ s' =>
      (st_conn s' = None /\ st_req s' = st_req s) \/
      (st_conn s' <> None /\
       st_req s' = ensureUserAgent (set_RequestURI (URL_String (st_req s)) (st_req s)))
  | Retry s' =>
      st_conn s' = None /\ st_req s' = st_req s /\
      RoundTripper (st_ctx s') = None /\
      ForwardProxyErrorFallback (st_ctx s') = None
  end.
Proof.
  intros Hs Hn.
  pose proof (attempt_dials env s Hs) as D.
  destruct (attempt_cases env s Hs)
    as [(s' & E & _ & Hno & _ & C & R & _ & K)
       | [(r & s' & E & _ & C & _) | (cs & s1 & E & _ & R & _)]];
    rewrite E in D |- *.
  - destruct K as (Krt & _). conjs; congruence.
  - destruct D as (_ & D). left. split; [congruence|auto].
  - right. destruct (afterDial_rest cs (negb (nonempty (ForwardProxy (st_ctx s)))) s1)
      as (Rq & _ & Cn).
    split; [exact Cn|]. rewrite Rq, R. reflexivity.
Qed.

(** X12. [RoundTrip] works on the caller's request. When no connection
    is made the request is left as it was. When one is made, [RequestURI]
    is overwritten with the full URL and the header gets a User-Agent
    entry if [Get] found none (an empty one, so that the library does not
    send its default); every other header entry, what [Get] returns for
    every name, and the URL are unchanged. *)
Theorem request_after_round_trip (env : Env) (ctx : ProxyCtx) (req : Request) :
  RoundTripper ctx = None ->
  let s' := snd (RoundTrip env (initSt ctx req)) in
  URL_Host (st_req s') = URL_Host req /\
  URL_String (st_req s') = URL_String req /\
  (forall k, Header_Get (req_Header (st_req s')) k = Header_Get (req_Header req) k) /\
  (forall k, k <> "User-Agent" -> req_Header (st_req s') !! k = req_Header req !! k) /\
  (st_conn s' = None -> st_req s' = req) /\
  (st_conn s' <> None ->
     RequestURI (st_req s') = URL_String req /\
     is_Some (req_Header (st_req s') !! "User-Agent")).
Proof.
  intros Hrt. cbv zeta.
  assert (Hfin : forall s',
            (st_conn s' = None /\ st_req s' = req) \/
            (st_conn s' <> None /\
             st_req s' = ensureUserAgent (set_RequestURI (URL_String req) req)) ->
            URL_Host (st_req s') = URL_Host req /\
            URL_String (st_req s') = URL_String req /\
            (forall k, Header_Get (req_Header (st_req s')) k = Header_Get (req_Header req) k) /\
            (forall k, k <> "User-Agent" -> req_Header (st_req s') !! k = req_Header req !! k) /\
            (st_conn s' = None -> st_req s' = req) /\
            (st_conn s' <> None ->
               RequestURI (st_req s') = URL_String req /\
               is_Some (req_Header (st_req s') !! "User-Agent"))).
  { intros s' [(C & ->)|(C & ->)].
    - conjs; intros; try reflexivity; contradiction.
    - destruct (ensureUserAgent_spec (set_RequestURI (URL_String req) req))
        as (A1 & A2 & A3 & A4 & A5 & A6).
      conjs; intros; try contradiction; try split; first [exact A1|exact A2|exact A3|exact A5|auto]. }
  rewrite RoundTrip_step.
  pose proof (attempt_request env (initSt ctx req) Hrt eq_refl) as H1.
  destruct (attempt env (initSt ctx req)) as [r s'|s'].
  - apply Hfin. exact H1.
  - destruct H1 as (C1 & R1 & Hrt' & Hno).
    rewrite RoundTrip_step.
    pose proof (attempt_request env s' Hrt' C1) as H2.
    destruct (attempt_cases env s' Hrt')
      as [(s'' & _ & Hcb & _) | [(r & s'' & E & _) | (cs & s1 & E & _)]].
    + contradiction.
    + rewrite E in H2 |- *. apply Hfin. cbn in R1. rewrite R1 in H2. exact H2.
    + rewrite E in H2 |- *. apply Hfin. cbn in R1. rewrite R1 in H2. exact H2.
Qed.

Lemma request_after_round_trip_witness :
  RequestURI (st_req (snd (RoundTrip env_connects (initSt ctx_direct req_example))))
    = "http://example.com/" /\
  req_Header (st_req (snd (RoundTrip env_connects (initSt ctx_direct req_example))))
    !! "User-Agent" = Some [""].
Proof.
  destruct (request_after_round_trip env_connects ctx_direct req_example eq_refl)
    as (_ & _ & _ & _ & _ & H).
  destruct H as (U & _); [vm_compute; discriminate|].
  split; [exact U | vm_compute; reflexivity].
Defined.

(** ** Keepalive on a direct connection *)

Lemma keepaliveOf_result cs ctx :
  exists res,
    keepaliveOf cs ctx
    = EvKeepalive (if 0 <? TCPKeepAliveCount ctx then TCPKeepAliveCount ctx else 3)
                  (if 0 <? TCPKeepAliveInterval ctx then TCPKeepAliveInterval ctx else 3)
                  (if 0 <? TCPKeepAlivePeriod ctx then TCPKeepAlivePeriod ctx else 5) res /\
    (res = None <->
     cs_isTCP cs = true /\ cs_SetKeepAlive cs = None /\ cs_SetKeepAlivePeriod cs = None).
Proof.
  unfold keepaliveOf, ProxyTCPConn.SetKeepaliveParameters, ProxyTCPConn.setKeepaliveParameters.
  cbn. eexists. split; [reflexivity|].
  destruct (cs_isTCP cs); cbn; [|intuition discriminate].
  destruct (cs_SetKeepAlive cs); cbn; [intuition discriminate|].
  destruct (cs_SetKeepAlivePeriod cs); cbn; intuition discriminate.
Qed.




(** ** Forward mode, with the state after the dial written out *)

Lemma forwardMode_exact env pool host s :
  exists s1 tr,
    st_ctx s1 = afterForwardDial (st_ctx s) /\
    st_trace s1 = (st_trace s ++ [EvDial tr "tcp4" host (connectReqHandler (st_ctx s) ∅)])%list /\
    tr_DialContext tr
      = (if 0 <? ForwardProxyFallbackTimeout (st_ctx s)
         then Some (wrap64 (ForwardProxyFallbackTimeout (st_ctx s) * time_Second)) else None) /\
    st_dials s1 = S (st_dials s) /\ st_resolves s1 = st_resolves s /\
    forwardMode env pool host s =
      match dial_conn (env_dial env (st_dials s)) with
      | inr err => dialFailure env host err s1
      | inl cs =>
          let s2 :=
            upd_ctx (observeTLSTime
                       (Z.quot (dial_end (env_dial env (st_dials s))) 1000000
                        - Z.quot (dial_start (env_dial env (st_dials s))) 1000000)) s1 in
          Done (fst (afterDial cs false s2)) (snd (afterDial cs false s2))
      end.
Proof.
  unfold forwardMode, forwardDial, afterForwardDial.
  destruct s as [c rq cn trc lg dl rs bc]. cbn [st_ctx st_trace st_dials st_resolves].
  destruct c as [rt pl fp fdt ftt fa proto hs mc rw fba fb ft fst_ sip dka dns bdns
                 kp kc ki mi mih ict prd pwd cbs acc bs br].
  cbn [ForwardProxyProto ForwardProxyFallbackTimeout ForwardProxyFallbackSecondaryTimeout].
  destruct (String.eqb proto "") eqn:Ep; destruct (0 <? ft) eqn:Ef;
    cbn -[wrap64 Z.mul Z.quot connectReqHandler afterDial dialFailure]; rewrite ?Ep, ?Ef;
    cbn -[wrap64 Z.mul Z.quot connectReqHandler afterDial dialFailure].
  all: match goal with
       | |- context [fold_left ?f ?l ?b] =>
           pose proof (core_fields _ _ (log_each_core l b)) as (Lc & Lr & Ln & Lt & Ld & Lrs & _)
       end.
  all: rewrite ?Ld; cbn [st_dials upd_ctx].
  all: eexists _, _.
  all: (split; [|split; [|split; [|split; [|split]]]]);
    [..|destruct (dial_conn _); [apply afterDial_pair|reflexivity]].
  all: cbn -[wrap64 Z.mul connectReqHandler]; rewrite ?Lc, ?Lt, ?Ld, ?Lrs; try reflexivity.
Qed.

Lemma attempt_forward_exact env s :
  RoundTripper (st_ctx s) = None -> ForwardProxy (st_ctx s) <> "" ->
  exists s1 tr,
    st_ctx s1 = afterForwardDial (st_ctx s) /\
    st_trace s1
      = (st_trace s ++ [EvDial tr "tcp4" (dialHost (st_req s)) (connectReqHandler (st_ctx s) ∅)])%list /\
    tr_DialContext tr
      = (if 0 <? ForwardProxyFallbackTimeout (st_ctx s)
         then Some (wrap64 (ForwardProxyFallbackTimeout (st_ctx s) * time_Second)) else None) /\
    st_dials s1 = S (st_dials s) /\ st_resolves s1 = st_resolves s /\
    attempt env s =
      match dial_conn (env_dial env (st_dials s)) with
      | inr err => dialFailure env (dialHost (st_req s)) err s1
      | inl cs =>
          let s2 :=
            upd_ctx (observeTLSTime
                       (Z.quot (dial_end (env_dial env (st_dials s))) 1000000
                        - Z.quot (dial_start (env_dial env (st_dials s))) 1000000)) s1 in
          Done (fst (afterDial cs false s2)) (snd (afterDial cs false s2))
      end.
Proof.
  intros Hrt Hfp.
  destruct (attempt_unfold env s Hrt) as (d & s0 & Hc & ->).
  apply nonempty_true in Hfp. rewrite Hfp.
  destruct (core_fields _ _ Hc) as (Hctx & _ & _ & Htr & Hd & Hr & _).
  destruct (forwardMode_exact env (poolOf (st_ctx s)) (dialHost (st_req s)) s0)
    as (s1 & tr & C & T & DC & D & R & ->).
  rewrite Hctx, Htr, Hd, Hr in *. exists s1, tr. auto 10.
Qed.

(** The three fields a forward-mode pass rewrites or reads for it. *)
Lemma afterForwardDial_again c c' :
  ForwardProxyProto c' = ForwardProxyProto (afterForwardDial c) ->
  ForwardProxyFallbackTimeout c' = ForwardProxyFallbackTimeout (afterForwardDial c) ->
  ForwardProxyFallbackSecondaryTimeout c' = ForwardProxyFallbackSecondaryTimeout c ->
  ForwardProxyProto (afterForwardDial c') = ForwardProxyProto (afterForwardDial c) /\
  ForwardProxyFallbackTimeout (afterForwardDial c')
    = ForwardProxyFallbackTimeout (afterForwardDial c).
Proof.
  unfold afterForwardDial. cbn. intros -> -> ->. split.
  - destruct (String.eqb_spec (ForwardProxyProto c) ""); [reflexivity|].
    destruct (String.eqb_spec (ForwardProxyProto c) ""); [contradiction|reflexivity].
  - destruct (0 <? ForwardProxyFallbackTimeout c) eqn:E; [|rewrite E; reflexivity].
    destruct (0 <? ForwardProxyFallbackSecondaryTimeout c) eqn:E2; [rewrite E2; reflexivity|].
    reflexivity.
Qed.

Lemma attempt_forward_fields env s :
  RoundTripper (st_ctx s) = None -> ForwardProxy (st_ctx s) <> "" ->
  exists s1 tr,
    st_trace s1
      = (st_trace s ++ [EvDial tr "tcp4" (dialHost (st_req s)) (connectReqHandler (st_ctx s) ∅)])%list /\
    tr_DialContext tr
      = (if 0 <? ForwardProxyFallbackTimeout (st_ctx s)
         then Some (wrap64 (ForwardProxyFallbackTimeout (st_ctx s) * time_Second)) else None) /\
    match attempt env s with
    | Done _ s' | Retry s' =>
        ForwardProxyProto (st_ctx s') = ForwardProxyProto (afterForwardDial (st_ctx s)) /\
        ForwardProxyFallbackTimeout (st_ctx s')
          = ForwardProxyFallbackTimeout (afterForwardDial (st_ctx s)) /\
        ForwardProxyFallbackSecondaryTimeout (st_ctx s')
          = ForwardProxyFallbackSecondaryTimeout (st_ctx s) /\
        exists l, st_trace s' = (st_trace s1 ++ l)%list
    end.
Proof.
  intros Hrt Hfp.
  destruct (attempt_forward_exact env s Hrt Hfp) as (s1 & tr & C & T & DC & _ & _ & ->).
  exists s1, tr. split; [exact T|]. split; [exact DC|].
  destruct (dial_conn (env_dial env (st_dials s))) as [cs|err].
  - cbv zeta.
    match goal with |- context [afterDial cs false ?x] =>
      destruct (afterDial_ctx cs false x) as (m & a & b & ->);
      destruct (afterDial_frame cs false x) as (_ & (l & -> & _)) end.
    cbn. unfold observeTLSTime. rewrite C.
    destruct (TLSTimes _); cbn; eauto 10.
  - destruct (dialFailure_spec env (dialHost (st_req s)) err s1) as (s2 & Hs2).
    destruct (resolveChain env (dialHost (st_req s)) s1) as [[[c4 c6] err'] sx].
    destruct Hs2 as (_ & _ & _ & (l & Tl & _) & Hcase).
    assert (Hc1 : forall b : bool,
              ForwardProxyProto (if b then SetErrorMetric (st_ctx s1) else st_ctx s1)
                = ForwardProxyProto (st_ctx s1) /\
              ForwardProxyFallbackTimeout (if b then SetErrorMetric (st_ctx s1) else st_ctx s1)
                = ForwardProxyFallbackTimeout (st_ctx s1) /\
              ForwardProxyFallbackSecondaryTimeout
                (if b then SetErrorMetric (st_ctx s1) else st_ctx s1)
                = ForwardProxyFallbackSecondaryTimeout (st_ctx s1)).
    { intros [|]; [|auto]. destruct (SetErrorMetric_frame (st_ctx s1)) as (m & -> & _). auto. }
    destruct (Hc1 ((0 <? Z.of_nat (length c4)) && (0 <? Z.of_nat (length c6)))) as (P1 & P2 & P3).
    destruct (ForwardProxyErrorFallback (st_ctx s1)) as [f|].
    + destruct (nonempty (fst (f tt))); destruct Hcase as (-> & ->);
        [destruct (ForwardProxyErrorFallbackAuth (st_ctx s1))|]; cbn;
        rewrite P1, P2, P3, C; eauto 10.
    + destruct Hcase as (-> & ->). rewrite P1, P2, P3, C. eauto 10.
Qed.

(** X14. A round trip through a forward proxy rewrites configuration
    fields of the caller's context: an empty [ForwardProxyProto] becomes
    "http", and a positive [ForwardProxyFallbackTimeout], once it has been
    given to the transport of the first dial, is replaced by the secondary
    timeout when that is positive and by 10 otherwise; this holds however
    the run ends, the retry included. *)
Theorem forward_mode_rewrites_context (env : Env) (ctx : ProxyCtx) (req : Request) :
  RoundTripper ctx = None -> ForwardProxy ctx <> "" ->
  ForwardProxyProto (st_ctx (snd (RoundTrip env (initSt ctx req))))
    = (if String.eqb (ForwardProxyProto ctx) "" then "http" else ForwardProxyProto ctx) /\
  ForwardProxyFallbackTimeout (st_ctx (snd (RoundTrip env (initSt ctx req))))
    = (if 0 <? ForwardProxyFallbackTimeout ctx
       then (if 0 <? ForwardProxyFallbackSecondaryTimeout ctx
             then ForwardProxyFallbackSecondaryTimeout ctx else 10)
       else ForwardProxyFallbackTimeout ctx) /\
  exists tr rest,
    st_trace (snd (RoundTrip env (initSt ctx req)))
      = EvDial tr "tcp4" (dialHost req) (connectReqHandler ctx ∅) :: rest /\
    tr_DialContext tr
      = (if 0 <? ForwardProxyFallbackTimeout ctx
         then Some (wrap64 (ForwardProxyFallbackTimeout ctx * time_Second)) else None).
Proof.
  intros Hrt Hfp.
  change (if String.eqb (ForwardProxyProto ctx) "" then "http" else ForwardProxyProto ctx)
    with (ForwardProxyProto (afterForwardDial ctx)).
  change (if 0 <? ForwardProxyFallbackTimeout ctx
          then (if 0 <? ForwardProxyFallbackSecondaryTimeout ctx
                then ForwardProxyFallbackSecondaryTimeout ctx else 10)
          else ForwardProxyFallbackTimeout ctx)
    with (ForwardProxyFallbackTimeout (afterForwardDial ctx)).
  rewrite RoundTrip_step.
  destruct (attempt_forward_fields env (initSt ctx req) Hrt Hfp) as (s1 & tr & T & DC & H1).
  cbn [initSt st_ctx st_trace st_req app] in T, DC, H1.
  destruct (attempt_cases env (initSt ctx req) Hrt)
    as [(s' & E & _ & Hno & Hne & _ & _ & _ & K) | [(r & s' & E & _) | (cs & x & E & _)]];
    rewrite E in H1 |- *.
  2,3: destruct H1 as (P1 & P2 & _ & (l & Tl)); cbn [snd]; rewrite Tl, T;
       split; [exact P1|split; [exact P2|eauto]].
  destruct H1 as (P1 & P2 & P3 & (l & Tl)).
  assert (Hrt' : RoundTripper (st_ctx s') = None).
  { destruct K as (-> & _). exact Hrt. }
  assert (Hfp' : ForwardProxy (st_ctx s') <> "").
  { apply nonempty_true. destruct K as (_ & _ & _ & _ & _ & _ & -> & _). exact Hne. }
  rewrite RoundTrip_step.
  destruct (attempt_forward_fields env s' Hrt' Hfp') as (s1' & tr' & T' & _ & H2).
  destruct (afterForwardDial_again ctx (st_ctx s') P1 P2 P3) as (Q1 & Q2).
  destruct (attempt_cases env s' Hrt')
    as [(s'' & _ & Hcb & _) | [(r & s'' & E' & _) | (cs & x & E' & _)]].
  { contradiction. }
  all: rewrite E' in H2 |- *; destruct H2 as (R1 & R2 & _ & (l' & Tl')); cbn [snd].
  all: rewrite R1, R2, Q1, Q2, Tl', T', Tl, T.
  all: split; [reflexivity|split; [reflexivity|]].
  all: exists tr; eexists; split; [|exact DC]; cbn; reflexivity.
Qed.

Lemma forward_mode_rewrites_context_witness :
  ForwardProxyProto
    (st_ctx (snd (RoundTrip env_second_connects (initSt ctx_with_fallback req_example))))
  = "http".
Proof.
  destruct (forward_mode_rewrites_context env_second_connects ctx_with_fallback req_example
              eq_refl) as (P & _); [discriminate|exact P].
Defined.

(** ** Where the dials go *)

Lemma dialFailure_events env host dialErr s :
  match dialFailure env host dialErr s with
  | Done _ s' | Retry s' => appends isFailureEvent s s'
  end.
Proof.
  unfold dialFailure, resolveChain.
  destruct (env_resolveDomain env (st_resolves s) _ _) as [[a4 a6] e1].
  destruct (notnil e1 && _);
    [destruct (env_resolveDomain env _ _ _) as [[b4 b6] e2]|]; cbv beta iota.
  all: destruct (_ && _); cbn [st_ctx upd_ctx Logf count_resolve emit].
  all: match goal with |- context [ForwardProxyErrorFallback ?c] =>
         destruct (ForwardProxyErrorFallback c) as [f|] end.
  all: try (destruct (f tt) as [np extra]; destruct (nonempty np);
            [match goal with |- context [ForwardProxyErrorFallbackAuth ?c] =>
               destruct (ForwardProxyErrorFallbackAuth c) end|]).
  all: appends_by_computation.
Qed.

Lemma attempt_dial_events env s :
  RoundTripper (st_ctx s) = None ->
  match attempt env s with
  | Done _ s' | Retry s' => appends (dialsOnly (dialHost (st_req s))) s s'
  end.
Proof.
  intros Hrt.
  assert (Hafter : forall cs ka x,
            appends (dialsOnly (dialHost (st_req s))) x (snd (afterDial cs ka x))).
  { intros cs ka x. destruct (afterDial_frame cs ka x) as (_ & A).
    eapply appends_weaken; [|exact A].
    intros [] H; try exact I; destruct H as [[_ []]|[]]. }
  destruct (nonempty (ForwardProxy (st_ctx s))) eqn:Hne.
  - apply nonempty_true in Hne as Hfp.
    destruct (attempt_forward_exact env s Hrt Hfp) as (s1 & tr & _ & T & _ & _ & _ & ->).
    assert (A1 : appends (dialsOnly (dialHost (st_req s))) s s1).
    { eexists. split; [exact T|]. repeat constructor. }
    destruct (dial_conn (env_dial env (st_dials s))) as [cs|err].
    + cbv zeta. eapply appends_trans; [exact A1|].
      eapply appends_trans; [|apply Hafter]. apply appends_same_trace. reflexivity.
    + pose proof (dialFailure_events env (dialHost (st_req s)) err s1) as A2.
      destruct (dialFailure env (dialHost (st_req s)) err s1).
      all: eapply appends_trans; [exact A1|]; eapply appends_weaken; [|exact A2].
      all: intros [] H; try exact I; destruct H.
  - apply nonempty_false in Hne as Hfp.
    destruct (attempt_direct_exact env s Hrt Hfp) as (tr & s0 & Hc & E).
    cbv zeta in E. rewrite E. clear E.
    destruct (core_fields _ _ Hc) as (_ & _ & _ & Htr & _).
    assert (A1 : appends (dialsOnly (dialHost (st_req s))) s
                   (count_dial (emit (EvDial tr "tcp4" (dialHost (st_req s)) ∅) s0))).
    { eexists. split; [cbn; rewrite Htr; reflexivity|]. repeat constructor. }
    destruct (dial_conn (env_dial env (st_dials s))) as [cs|err]; [|exact A1].
    eapply appends_trans; [exact A1|apply Hafter].
Qed.

Lemma Contains_port (h : string) : strings_Contains (h +:+ ":80") ":" = true.
Proof.
  induction h as [|c h IH]; [reflexivity|].
  change (String c h +:+ ":80") with (String c (h +:+ ":80")).
  rewrite Contains_cons, IH. apply orb_true_r.
Qed.

(** X15. Every dial of a run, the retry included, goes over "tcp4" to the
    same address: the host of the request URL as it is when it contains a
    colon, and with ":80" appended when it contains none (whatever the
    scheme of the URL); so the address dialled always contains a colon. *)
Theorem dial_targets (env : Env) (ctx : ProxyCtx) (req : Request)
    (tr : Transport) (network host : string) (header : gmap string (list string)) :
  RoundTripper ctx = None ->
  In (EvDial tr network host header) (st_trace (snd (RoundTrip env (initSt ctx req)))) ->
  network = "tcp4" /\
  host = (if strings_Contains (URL_Host req) ":" then URL_Host req
          else URL_Host req +:+ ":80") /\
  strings_Contains host ":" = true.
Proof.
  intros Hrt Hin.
  assert (Hhost : dialHost req
                  = (if strings_Contains (URL_Host req) ":" then URL_Host req
                     else URL_Host req +:+ ":80")).
  { unfold dialHost. destruct (strings_Contains (URL_Host req) ":"); reflexivity. }
  assert (Hcolon : strings_Contains (dialHost req) ":" = true).
  { rewrite Hhost. destruct (strings_Contains (URL_Host req) ":") eqn:E;
      [exact E|apply Contains_port]. }
  assert (Hall : appends (dialsOnly (dialHost req)) (initSt ctx req)
                   (snd (RoundTrip env (initSt ctx req)))).
  { rewrite RoundTrip_step.
    pose proof (attempt_dial_events env (initSt ctx req) Hrt) as A1.
    destruct (attempt_cases env (initSt ctx req) Hrt)
      as [(s' & E & _ & Hno & _ & _ & R & _ & K) | [(r & s' & E & _) | (cs & x & E & _)]];
      rewrite E in A1 |- *; [|exact A1|exact A1].
    assert (Hrt' : RoundTripper (st_ctx s') = None).
    { destruct K as (-> & _). exact Hrt. }
    rewrite RoundTrip_step.
    pose proof (attempt_dial_events env s' Hrt') as A2. rewrite R in A2.
    destruct (attempt_cases env s' Hrt')
      as [(s'' & _ & Hcb & _) | [(r & s'' & E' & _) | (cs & x & E' & _)]];
      [contradiction| |]; rewrite E' in A2 |- *; eapply appends_trans; eassumption. }
  destruct (appends_In _ _ _ _ Hall Hin) as [[]|(-> & ->)].
  rewrite <- Hhost. auto.
Qed.

Lemma dial_targets_witness :
  In (EvDial transport_defaults "tcp4" "example.com:80" ∅)
     (st_trace (snd (RoundTrip env_connects (initSt ctx_direct req_example)))) /\
  strings_Contains "example.com:80" ":" = true.
Proof.
  assert (Hin : In (EvDial transport_defaults "tcp4" "example.com:80" ∅)
                   (st_trace (snd (RoundTrip env_connects (initSt ctx_direct req_example)))))
    by (vm_compute; left; reflexivity).
  split; [exact Hin|].
  destruct (dial_targets env_connects ctx_direct req_example
              transport_defaults "tcp4" "example.com:80" ∅ eq_refl Hin) as (_ & _ & H).
  exact H.
Defined.

(** ** Sequences of metric calls *)

Lemma metric_call_count (ok : bool) ctx t (o : string) :
  requestCount (if ok then SetSuccessMetric ctx else SetErrorMetric ctx) t o =
    (requestCount ctx t o +
     if nonempty (ForwardProxy ctx) && notnil (Requests (ForwardMetricsCounters ctx))
        && String.eqb t (targetLabel ctx)
        && String.eqb o (if ok then "ok" else "err")
     then 1 else 0)%nat.
Proof.
  unfold targetLabel.
  destruct ok; unfold SetSuccessMetric, SetErrorMetric, Requests_Inc, requestCount.
  all: destruct (nonempty _); cbn [andb]; [|lia].
  all: destruct (Requests (ForwardMetricsCounters ctx)) as [m|] eqn:Hm; cbn;
    [|rewrite Hm; lia].
  all: destruct (String.eqb_spec t (if strings_HasPrefix (ForwardProxy ctx) "127.0.0.1"
                                    then "local" else "spoof")) as [->|Hne]; cbn [andb].
  all: try (rewrite CounterVec_Inc_other by congruence; lia).
  all: match goal with |- context [String.eqb ?y ?x] =>
         destruct (String.eqb_spec y x) as [->|Ho] end.
  all: try (rewrite CounterVec_Inc_same; lia).
  all: rewrite CounterVec_Inc_other by congruence; lia.
Qed.

Lemma metric_call_frame (ok : bool) ctx :
  exists m,
    (if ok then SetSuccessMetric ctx else SetErrorMetric ctx) = set_ForwardMetricsCounters ctx m /\
    ProxyBandwidth m = ProxyBandwidth (ForwardMetricsCounters ctx) /\
    TLSTimes m = TLSTimes (ForwardMetricsCounters ctx) /\
    notnil (Requests m) = notnil (Requests (ForwardMetricsCounters ctx)).
Proof.
  destruct ok; unfold SetSuccessMetric, SetErrorMetric, Requests_Inc.
  all: destruct (_ && _); [destruct (Requests (ForwardMetricsCounters ctx)) eqn:E|].
  all: try (eexists; repeat split; reflexivity).
  all: exists (ForwardMetricsCounters ctx); destruct ctx; repeat split; try reflexivity.
  all: cbn in E |- *; rewrite E; reflexivity.
Qed.

(** X16. Any sequence of calls of [SetSuccessMetric] and [SetErrorMetric]
    on a context leaves everything but the request counter as it was, and
    the counters only grow: with a forward proxy set and the request
    counter present, the "ok" counter of the context's target label has
    grown by the number of success calls and its "err" counter by the
    number of error calls, whatever their order; every other counter, and
    every counter when the guard fails, is unchanged. *)
Theorem metrics_tally (calls : list bool) (ctx : ProxyCtx) :
  (exists m,
     runMetrics calls ctx = set_ForwardMetricsCounters ctx m /\
     ProxyBandwidth m = ProxyBandwidth (ForwardMetricsCounters ctx) /\
     TLSTimes m = TLSTimes (ForwardMetricsCounters ctx)) /\
  forall t o,
    requestCount (runMetrics calls ctx) t o =
      (requestCount ctx t o +
       if nonempty (ForwardProxy ctx) && notnil (Requests (ForwardMetricsCounters ctx))
          && String.eqb t (targetLabel ctx)
       then callsFor o calls else 0)%nat.
Proof.
  revert ctx. induction calls as [|ok calls IH]; intros ctx.
  - split.
    + exists (ForwardMetricsCounters ctx). destruct ctx; auto.
    + intros t o. cbn. unfold callsFor. cbn.
      destruct (_ && _); [destruct (String.eqb o "ok"); [|destruct (String.eqb o "err")]|]; lia.
  - change (runMetrics (ok :: calls) ctx)
      with (runMetrics calls (if ok then SetSuccessMetric ctx else SetErrorMetric ctx)).
    destruct (metric_call_frame ok ctx) as (m1 & E1 & B1 & T1 & N1).
    destruct (IH (if ok then SetSuccessMetric ctx else SetErrorMetric ctx)) as ((m & E & B & T) & Hc).
    split.
    + exists m. rewrite E, E1. cbn. rewrite E1 in B, T. cbn in B, T.
      repeat split; congruence.
    + intros t o. rewrite Hc, metric_call_count.
      assert (G : nonempty (ForwardProxy (if ok then SetSuccessMetric ctx else SetErrorMetric ctx))
                  && notnil (Requests (ForwardMetricsCounters
                                         (if ok then SetSuccessMetric ctx else SetErrorMetric ctx)))
                  && String.eqb t (targetLabel (if ok then SetSuccessMetric ctx
                                                else SetErrorMetric ctx))
                  = nonempty (ForwardProxy ctx)
                    && notnil (Requests (ForwardMetricsCounters ctx))
                    && String.eqb t (targetLabel ctx)).
      { unfold targetLabel. rewrite E1. cbn. rewrite N1. reflexivity. }
      rewrite G. clear G.
      destruct (nonempty (ForwardProxy ctx) && notnil (Requests (ForwardMetricsCounters ctx))
                && String.eqb t (targetLabel ctx)); cbn [andb]; [|lia].
      unfold callsFor. destruct ok; cbn [List.filter negb length].
      all: destruct (String.eqb_spec o "ok") as [->|H1]; cbn; try lia.
      all: destruct (String.eqb_spec o "err") as [->|H2]; cbn; lia.
Qed.

(** ** The resolver chain after a failed forward dial *)

(** X17. In forward mode without fallback callback, after a failed dial
    the primary resolver is asked for the host name (the dial address up
    to its first colon); the backup resolver is asked, for the same name,
    exactly when the primary returned an error and a backup is configured,
    and then its answer replaces the primary's altogether. [RoundTrip]
    returns the error of that answer, and the "err" counter of the target
    label grows by one exactly when the answer has addresses of both
    families, a forward proxy being set and the request counter present. *)
Theorem backup_resolver_consulted (env : Env) (ctx : ProxyCtx) (req : Request) (e : error) :
  RoundTripper ctx = None -> ForwardProxy ctx <> "" ->
  ForwardProxyErrorFallback ctx = None ->
  dial_conn (env_dial env 0) = inr e ->
  let name := split_head ":"%char (dialHost req) in
  let primary := env_resolveDomain env 0 name (DNSResolver ctx) in
  let useBackup := notnil (snd primary) && nonempty (BackupDNSResolver ctx) in
  let answer :=
    if useBackup then env_resolveDomain env 1 name (BackupDNSResolver ctx) else primary in
  fst (RoundTrip env (initSt ctx req)) = (None, snd answer) /\
  st_resolves (snd (RoundTrip env (initSt ctx req))) = (if useBackup then 2 else 1)%nat /\
  (exists tr,
     st_trace (snd (RoundTrip env (initSt ctx req)))
     = (EvDial tr "tcp4" (dialHost req) (connectReqHandler ctx ∅)
        :: EvResolve name (DNSResolver ctx)
        :: if useBackup then [EvResolve name (BackupDNSResolver ctx)] else [])%list) /\
  forall t,
    requestCount (st_ctx (snd (RoundTrip env (initSt ctx req)))) t "err"
    = (requestCount ctx t "err" +
       if (0 <? Z.of_nat (length (fst (fst answer))))%Z
          && (0 <? Z.of_nat (length (snd (fst answer))))%Z
          && nonempty (ForwardProxy ctx)
          && notnil (Requests (ForwardMetricsCounters ctx))
          && String.eqb t (targetLabel ctx)
       then 1 else 0)%nat.
Proof.
  intros Hrt Hfp Hcb Hdial. cbv zeta. rewrite RoundTrip_step.
  destruct (attempt_forward_exact env (initSt ctx req) Hrt Hfp)
    as (s1 & tr & C & T & _ & _ & R & ->).
  cbn [initSt st_ctx st_trace st_req st_dials st_resolves app] in *. rewrite Hdial.
  unfold dialFailure, resolveChain.
  cbn [st_ctx st_resolves count_resolve emit]. rewrite R, C.
  cbn [DNSResolver BackupDNSResolver afterForwardDial set_ForwardProxyFallbackTimeout
       set_ForwardProxyProto].
  destruct (env_resolveDomain env 0 (split_head ":"%char (dialHost req)) (DNSResolver ctx))
    as [[a4 a6] e1]. cbn [fst snd].
  assert (Hcount : forall (b : bool) t,
            requestCount (if b then SetErrorMetric (afterForwardDial ctx) else afterForwardDial ctx)
              t "err"
            = (requestCount ctx t "err" +
               if b && nonempty (ForwardProxy ctx)
                  && notnil (Requests (ForwardMetricsCounters ctx))
                  && String.eqb t (targetLabel ctx)
               then 1 else 0)%nat).
  { intros [|] t; cbn [andb]; [|unfold requestCount; cbn; lia].
    rewrite SetErrorMetric_err_count. reflexivity. }
  destruct (notnil e1 && nonempty (BackupDNSResolver ctx)).
  - destruct (env_resolveDomain env 1 (split_head ":"%char (dialHost req))
                (BackupDNSResolver ctx)) as [[b4 b6] e2]. cbn [fst snd].
    destruct ((0 <? Z.of_nat (length b4)) && (0 <? Z.of_nat (length b6))) eqn:Eb;
      cbn [st_ctx upd_ctx Logf count_resolve emit]; rewrite ?C;
      try (destruct (SetErrorMetric_fields (afterForwardDial ctx))
             as (_ & _ & _ & _ & _ & _ & ->));
      cbn [ForwardProxyErrorFallback afterForwardDial set_ForwardProxyFallbackTimeout
           set_ForwardProxyProto]; rewrite Hcb; cbn; rewrite ?T, ?C, ?R.
    all: conjs; try reflexivity; [eexists; cbn; reflexivity|].
    + intros t. rewrite ?Eb. apply (Hcount true).
    + intros t. rewrite ?Eb. apply (Hcount false).
  - destruct ((0 <? Z.of_nat (length a4)) && (0 <? Z.of_nat (length a6))) eqn:Eb;
      cbn [st_ctx upd_ctx Logf count_resolve emit]; rewrite ?C;
      try (destruct (SetErrorMetric_fields (afterForwardDial ctx))
             as (_ & _ & _ & _ & _ & _ & ->));
      cbn [ForwardProxyErrorFallback afterForwardDial set_ForwardProxyFallbackTimeout
           set_ForwardProxyProto]; rewrite Hcb; cbn; rewrite ?T, ?C, ?R.
    all: conjs; try reflexivity; [eexists; cbn; reflexivity|].
    + intros t. rewrite ?Eb. apply (Hcount true).
    + intros t. rewrite ?Eb. apply (Hcount false).
Qed.

Lemma backup_resolver_consulted_witness :
  fst (RoundTrip env_backup_resolves (initSt ctx_backup_resolver req_example)) = (None, None) /\
  st_resolves (snd (RoundTrip env_backup_resolves (initSt ctx_backup_resolver req_example)))
    = 2%nat.
Proof.
  destruct (backup_resolver_consulted env_backup_resolves ctx_backup_resolver req_example
              "connection refused" eq_refl) as (R & N & _);
    [discriminate | reflexivity | reflexivity |].
  split; [exact R | exact N].
Defined.

(** ** The observed dial times *)

Lemma addBandwidth_TLSTimes n c :
  TLSTimes (ForwardMetricsCounters (addBandwidth n c)) = TLSTimes (ForwardMetricsCounters c).
Proof. unfold addBandwidth. destruct (ProxyBandwidth _); reflexivity. Qed.

Lemma classified_TLSTimes (b : bool) c :
  TLSTimes (ForwardMetricsCounters (if b then SetErrorMetric c else c))
  = TLSTimes (ForwardMetricsCounters c).
Proof.
  destruct b; [|reflexivity].
  destruct (SetErrorMetric_frame c) as (m & -> & _ & T). exact T.
Qed.

Lemma afterDial_TLSTimes cs ka s :
  TLSTimes (ForwardMetricsCounters (st_ctx (snd (afterDial cs ka s))))
  = TLSTimes (ForwardMetricsCounters (st_ctx s)).
Proof.
  rewrite afterDial_unfold.
  destruct (exchangeStart_frame cs ka s) as (Hc0 & _).
  destruct (cs_ser_err cs) as [e|] eqn:He.
  - destruct (exchange_writer_failed cs (fst (tuned cs ka s)) (exchangeStart cs ka s) e He)
      as (_ & -> & _).
    rewrite Hc0.
    rewrite <- (classified_TLSTimes (negb (strings_Contains e "timeout")) (st_ctx s)).
    destruct (strings_Contains e "timeout"); reflexivity.
  - rewrite (exchange_reader_ctx cs (fst (tuned cs ka s)) (exchangeStart cs ka s) He).
    cbv zeta. rewrite Hc0.
    destruct (cs_parse cs) as [[status body]|e].
    + rewrite addBandwidth_TLSTimes.
      match goal with |- context [SetSuccessMetric ?c] =>
        destruct (SetSuccessMetric_frame c) as (m & -> & _ & T) end.
      exact T.
    + match goal with |- context [set_Bytes (st_ctx s) ?a ?b] =>
        rewrite <- (classified_TLSTimes (negb (strings_Contains e "timeout"))
                      (set_Bytes (st_ctx s) a b)) at 1 end.
      destruct (strings_Contains e "timeout"); reflexivity.
Qed.

(** X18. In forward mode, when the first dial connects, exactly one value
    is handed to the dial-time observer, if there is one: the clock after
    the dial minus the clock before it, each first cut down to whole
    milliseconds. When the dial fails and there is no fallback callback,
    nothing is observed. *)
Theorem dial_time_observed (env : Env) (ctx : ProxyCtx) (req : Request) :
  RoundTripper ctx = None -> ForwardProxy ctx <> "" ->
  (forall cs, dial_conn (env_dial env 0) = inl cs ->
     TLSTimes (ForwardMetricsCounters (st_ctx (snd (RoundTrip env (initSt ctx req)))))
     = match TLSTimes (ForwardMetricsCounters ctx) with
       | Some l =>
           Some (l ++ [Z.quot (dial_end (env_dial env 0)) 1000000
                       - Z.quot (dial_start (env_dial env 0)) 1000000])%list
       | None => None
       end) /\
  (forall e, dial_conn (env_dial env 0) = inr e -> ForwardProxyErrorFallback ctx = None ->
     TLSTimes (ForwardMetricsCounters (st_ctx (snd (RoundTrip env (initSt ctx req)))))
     = TLSTimes (ForwardMetricsCounters ctx)).
Proof.
  intros Hrt Hfp. rewrite RoundTrip_step.
  destruct (attempt_forward_exact env (initSt ctx req) Hrt Hfp)
    as (s1 & tr & C & _ & _ & _ & _ & ->).
  cbn [initSt st_ctx st_req st_dials] in *.
  split.
  - intros cs ->. cbv zeta. cbn [snd]. rewrite afterDial_TLSTimes.
    cbn [st_ctx upd_ctx]. rewrite C. unfold observeTLSTime.
    change (ForwardMetricsCounters (afterForwardDial ctx)) with (ForwardMetricsCounters ctx).
    destruct (TLSTimes (ForwardMetricsCounters ctx)) eqn:E; [reflexivity|exact E].
  - intros e -> Hcb.
    destruct (dialFailure_spec env (dialHost req) e s1) as (s2 & Hs2).
    destruct (resolveChain env (dialHost req) s1) as [[[c4 c6] err'] sx].
    destruct Hs2 as (_ & _ & _ & _ & Hcase).
    rewrite C in Hcase. cbn [ForwardProxyErrorFallback afterForwardDial
      set_ForwardProxyFallbackTimeout set_ForwardProxyProto] in Hcase.
    rewrite Hcb in Hcase. destruct Hcase as (-> & Hctx). cbv beta iota. cbn [snd].
    rewrite Hctx, classified_TLSTimes. reflexivity.
Qed.

Lemma dial_time_observed_witness :
  TLSTimes (ForwardMetricsCounters
              (st_ctx (snd (RoundTrip env_connects (initSt ctx_forward req_example)))))
  = Some [7].
Proof.
  destruct (dial_time_observed env_connects ctx_forward req_example eq_refl) as (H & _);
    [discriminate|].
  exact (H script_ok eq_refl).
Defined.

(** * The exchange, relative to the caller's context *)

(** ** The state in which the exchange starts *)

Lemma forwardMode_state env pool host s :
  exists s1 tr,
    st_ctx s1 = afterForwardDial (st_ctx s) /\
    st_trace s1 = (st_trace s ++ [EvDial tr "tcp4" host (connectReqHandler (st_ctx s) ∅)])%list /\
    st_dials s1 = S (st_dials s) /\ st_resolves s1 = st_resolves s /\
    st_conn s1 = st_conn s /\
    forwardMode env pool host s =
      match dial_conn (env_dial env (st_dials s)) with
      | inr err => dialFailure env host err s1
      | inl cs =>
          let s2 :=
            upd_ctx (observeTLSTime
                       (Z.quot (dial_end (env_dial env (st_dials s))) 1000000
                        - Z.quot (dial_start (env_dial env (st_dials s))) 1000000)) s1 in
          Done (fst (afterDial cs false s2)) (snd (afterDial cs false s2))
      end.
Proof.
  unfold forwardMode, forwardDial, afterForwardDial.
  destruct s as [c rq cn trc lg dl rs bc]. cbn [st_ctx st_trace st_dials st_resolves st_conn].
  destruct c as [rt pl fp fdt ftt fa proto hs mc rw fba fb ft fst_ sip dka dns bdns
                 kp kc ki mi mih ict prd pwd cbs acc bs br].
  cbn [ForwardProxyProto ForwardProxyFallbackTimeout ForwardProxyFallbackSecondaryTimeout].
  destruct (String.eqb proto "") eqn:Ep; destruct (0 <? ft) eqn:Ef;
    cbn -[wrap64 Z.mul Z.quot connectReqHandler afterDial dialFailure]; rewrite ?Ep, ?Ef;
    cbn -[wrap64 Z.mul Z.quot connectReqHandler afterDial dialFailure].
  all: match goal with
       | |- context [fold_left ?f ?l ?b] =>
           pose proof (core_fields _ _ (log_each_core l b)) as (Lc & Lr & Ln & Lt & Ld & Lrs & _)
       end.
  all: rewrite ?Ld; cbn [st_dials upd_ctx].
  all: eexists _, _.
  all: (split; [|split; [|split; [|split; [|split]]]]);
    [..|destruct (dial_conn _); [apply afterDial_pair|reflexivity]].
  all: cbn -[wrap64 Z.mul connectReqHandler]; rewrite ?Lc, ?Lt, ?Ld, ?Lrs, ?Ln; try reflexivity.
Qed.

Lemma attempt_forward_state env s :
  RoundTripper (st_ctx s) = None -> ForwardProxy (st_ctx s) <> "" ->
  exists s1 tr,
    st_ctx s1 = afterForwardDial (st_ctx s) /\
    st_trace s1
      = (st_trace s ++ [EvDial tr "tcp4" (dialHost (st_req s)) (connectReqHandler (st_ctx s) ∅)])%list /\
    st_dials s1 = S (st_dials s) /\ st_resolves s1 = st_resolves s /\
    st_conn s1 = st_conn s /\
    attempt env s =
      match dial_conn (env_dial env (st_dials s)) with
      | inr err => dialFailure env (dialHost (st_req s)) err s1
      | inl cs =>
          let s2 :=
            upd_ctx (observeTLSTime
                       (Z.quot (dial_end (env_dial env (st_dials s))) 1000000
                        - Z.quot (dial_start (env_dial env (st_dials s))) 1000000)) s1 in
          Done (fst (afterDial cs false s2)) (snd (afterDial cs false s2))
      end.
Proof.
  intros Hrt Hfp.
  destruct (attempt_unfold env s Hrt) as (d & s0 & Hc & ->).
  apply nonempty_true in Hfp. rewrite Hfp.
  destruct (core_fields _ _ Hc) as (Hctx & _ & Hcn & Htr & Hd & Hr & _).
  destruct (forwardMode_state env (poolOf (st_ctx s)) (dialHost (st_req s)) s0)
    as (s1 & tr & C & T & D & R & Cn & ->).
  rewrite Hctx, Htr, Hd, Hr, Hcn in *. exists s1, tr. auto 10.
Qed.

(** The answer of the resolver chain, in terms of the resolver service. *)
Lemma resolveChain_answer env host s :
  fst (resolveChain env host s)
  = (let name := split_head ":"%char host in
     let primary := env_resolveDomain env (st_resolves s) name (DNSResolver (st_ctx s)) in
     if notnil (snd primary) && nonempty (BackupDNSResolver (st_ctx s))
     then env_resolveDomain env (S (st_resolves s)) name (BackupDNSResolver (st_ctx s))
     else primary).
Proof.
  unfold resolveChain. cbv zeta.
  destruct (env_resolveDomain env (st_resolves s) _ _) as [[a4 a6] e1].
  cbn [snd st_ctx st_resolves count_resolve emit].
  destruct (notnil e1 && _); [|reflexivity].
  destruct (env_resolveDomain env _ _ _) as [[b4 b6] e2]. reflexivity.
Qed.

Lemma entry_kept_afterForwardDial c : entry_kept c (afterForwardDial c).
Proof. unfold entry_kept. repeat split. Qed.

Lemma entry_kept_observeTLSTime ms c : entry_kept c (observeTLSTime ms c).
Proof. unfold entry_kept, observeTLSTime. destruct (TLSTimes _); repeat split. Qed.

Lemma entry_kept_trans c1 c2 c3 : entry_kept c1 c2 -> entry_kept c2 c3 -> entry_kept c1 c3.
Proof.
  unfold entry_kept. intros (A1 & A2 & A3 & A4 & A5 & A6) (B1 & B2 & B3 & B4 & B5 & B6).
  conjs; congruence.
Qed.

(** The context handed to the tail call: the failure counted or not, the
    callback cleared, the new proxy and its auth or accounting string
    installed. *)
Lemma retry_context (both auth : bool) c np extra :
  let c1 := if both then SetErrorMetric c else c in
  let c2 := set_ForwardProxyErrorFallback c1 None in
  let c3 := if auth then set_ForwardProxyAuth (set_ForwardProxy c2 np) extra
            else set_Accounting (set_ForwardProxy c2 np) extra in
  RoundTripper c3 = RoundTripper c /\
  ForwardProxy c3 = np /\
  ForwardProxyErrorFallback c3 = None /\
  ProxyBandwidth (ForwardMetricsCounters c3) = ProxyBandwidth (ForwardMetricsCounters c) /\
  notnil (Requests (ForwardMetricsCounters c3)) = notnil (Requests (ForwardMetricsCounters c)) /\
  forall t,
    requestCount c3 t "err"
    = (requestCount c t "err" +
       if both && nonempty (ForwardProxy c) && notnil (Requests (ForwardMetricsCounters c))
          && String.eqb t (targetLabel c)
       then 1 else 0)%nat.
Proof.
  cbv zeta.
  assert (H : forall c3,
            c3 = (if auth
                  then set_ForwardProxyAuth
                         (set_ForwardProxy
                            (set_ForwardProxyErrorFallback (if both then SetErrorMetric c else c) None)
                            np) extra
                  else set_Accounting
                         (set_ForwardProxy
                            (set_ForwardProxyErrorFallback (if both then SetErrorMetric c else c) None)
                            np) extra) ->
            RoundTripper c3 = RoundTripper (if both then SetErrorMetric c else c) /\
            ForwardProxy c3 = np /\ ForwardProxyErrorFallback c3 = None /\
            ForwardMetricsCounters c3
              = ForwardMetricsCounters (if both then SetErrorMetric c else c)).
  { intros c3 ->. destruct auth; repeat split. }
  destruct (H _ eq_refl) as (H1 & H2 & H3 & H4). clear H.
  destruct (classified_fields both c) as (F1 & _).
  cbv zeta in F1.
  conjs.
  - rewrite H1. exact F1.
  - exact H2.
  - exact H3.
  - rewrite H4. destruct both; [|reflexivity].
    destruct (SetErrorMetric_frame c) as (m & -> & B & _). exact B.
  - rewrite H4. destruct both; [apply SetErrorMetric_notnil|reflexivity].
  - intros t. unfold requestCount at 1. rewrite H4.
    change (requestCount (if both then SetErrorMetric c else c) t "err" =
            (requestCount c t "err" +
             if both && nonempty (ForwardProxy c) && notnil (Requests (ForwardMetricsCounters c))
                && String.eqb t (targetLabel c)
             then 1 else 0)%nat).
    destruct both; cbn [andb]; [apply SetErrorMetric_err_count|lia].
Qed.

(** [RoundTrip] returns without a connection, or it returns what
    [afterDial] returns from a state whose context is the caller's but
    for what the dial and a first failure have done to it. *)
Lemma RoundTrip_entry env ctx req :
  RoundTripper ctx = None ->
  (fst (fst (RoundTrip env (initSt ctx req))) = None /\
   st_conn (snd (RoundTrip env (initSt ctx req))) = None /\
   appends isDialEvent (initSt ctx req) (snd (RoundTrip env (initSt ctx req)))) \/
  (exists cs s1,
     RoundTrip env (initSt ctx req) = afterDial cs (negb (nonempty (ForwardProxy ctx))) s1 /\
     dial_conn (lastDial env ctx) = inl cs /\
     appends isDialEvent (initSt ctx req) s1 /\
     ctx_kept ctx (st_ctx s1) /\
     (ForwardProxy ctx = "" -> st_ctx s1 = ctx) /\
     ForwardProxy (st_ctx s1) = proxyAtExchange env ctx /\
     ProxyBandwidth (ForwardMetricsCounters (st_ctx s1))
       = ProxyBandwidth (ForwardMetricsCounters ctx) /\
     forall t, requestCount (st_ctx s1) t "err" = errBeforeExchange env ctx req t).
Proof.
  intros Hrt. rewrite RoundTrip_step.
  unfold lastDial, proxyAtExchange, errBeforeExchange, firstDialFails.
  destruct (nonempty (ForwardProxy ctx)) eqn:Hne; cbn [andb negb].
  - apply nonempty_true in Hne as Hfp.
    destruct (attempt_forward_state env (initSt ctx req) Hrt Hfp)
      as (s1 & tr & C & T & D & R & Cn & ->).
    cbn [initSt st_ctx st_trace st_req st_dials st_resolves st_conn app] in *.
    assert (A1 : appends isDialEvent (initSt ctx req) s1).
    { eexists. split; [exact T|]. repeat constructor. }
    assert (K1 : ctx_kept ctx (st_ctx s1)).
    { rewrite C. apply ctx_kept_dial_defaults. }
    destruct (dial_conn (env_dial env 0)) as [cs|err] eqn:Hdial.
    + right. cbv zeta.
      set (s2 := upd_ctx (observeTLSTime
                            (Z.quot (dial_end (env_dial env 0)) 1000000
                             - Z.quot (dial_start (env_dial env 0)) 1000000)) s1).
      destruct (entry_kept_trans _ _ _ (entry_kept_afterForwardDial ctx)
                  (entry_kept_observeTLSTime
                     (Z.quot (dial_end (env_dial env 0)) 1000000
                      - Z.quot (dial_start (env_dial env 0)) 1000000) (afterForwardDial ctx)))
        as (E1 & E2 & E3 & E4 & E5 & E6).
      exists cs, s2. conjs.
      * destruct (afterDial cs false s2); reflexivity.
      * exact Hdial.
      * exact A1.
      * cbn. eapply ctx_kept_trans; [exact K1|apply ctx_kept_observeTLSTime].
      * intros H. contradiction.
      * cbn. rewrite C. exact E2.
      * cbn. rewrite C. exact E4.
      * intros t. cbn. rewrite C, E6. lia.
    + pose proof (resolveChain_answer env (dialHost req) s1) as Ans.
      rewrite R, C in Ans.
      change (fst (resolveChain env (dialHost req) s1) = resolverAnswer env ctx req) in Ans.
      destruct (dialFailure_spec env (dialHost req) err s1) as (s2 & Hs2).
      destruct (resolveChain env (dialHost req) s1) as [[[c4 c6] err'] sx].
      cbn [fst] in Ans. rewrite <- Ans. cbn [fst snd].
      destruct Hs2 as (_ & C2 & D2 & A2 & Hcase).
      rewrite C in Hcase.
      change (ForwardProxyErrorFallback (afterForwardDial ctx))
        with (ForwardProxyErrorFallback ctx) in Hcase.
      change (ForwardProxyErrorFallbackAuth (afterForwardDial ctx))
        with (ForwardProxyErrorFallbackAuth ctx) in Hcase.
      assert (A12 : appends isDialEvent (initSt ctx req) s2)
        by (eapply appends_trans; eassumption).
      destruct (ForwardProxyErrorFallback ctx) as [f|] eqn:Hcb.
      2:{ destruct Hcase as (-> & _). left. cbn. conjs; [reflexivity|congruence|exact A12]. }
      destruct (nonempty (fst (f tt))) eqn:Hnp; destruct Hcase as (-> & Hctx).
      2:{ left. cbn. conjs; [reflexivity|congruence|exact A12]. }
      set (both := (0 <? Z.of_nat (length c4)) && (0 <? Z.of_nat (length c6))) in *.
      destruct (retry_context both (ForwardProxyErrorFallbackAuth ctx) (afterForwardDial ctx)
                  (fst (f tt)) (snd (f tt))) as (Q1 & Q2 & Q3 & Q4 & Q5 & Q6).
      cbv zeta in Q1, Q2, Q3, Q4, Q5, Q6. rewrite <- Hctx in Q1, Q2, Q3, Q4, Q5, Q6.
      assert (K2 : ctx_kept ctx (st_ctx s2)).
      { eapply ctx_kept_trans; [exact K1|]. rewrite Hctx, C.
        change (ForwardProxyErrorFallbackAuth ctx)
          with (ForwardProxyErrorFallbackAuth (afterForwardDial ctx)).
        eapply ctx_kept_trans; [apply (ctx_kept_classified both)|].
        eapply ctx_kept_trans; [apply ctx_kept_callback|].
        apply ctx_kept_fallback; [|exact Hnp].
        cbn. destruct (classified_fields both (afterForwardDial ctx)) as (_ & -> & _).
        exact Hne. }
      assert (Hrt2 : RoundTripper (st_ctx s2) = None) by (rewrite Q1; exact Hrt).
      assert (Hfp2 : ForwardProxy (st_ctx s2) <> "").
      { rewrite Q2. apply nonempty_true. exact Hnp. }
      rewrite RoundTrip_step.
      destruct (attempt_forward_state env s2 Hrt2 Hfp2)
        as (s3 & tr' & C' & T' & D' & R' & Cn' & ->).
      assert (A3 : appends isDialEvent (initSt ctx req) s3).
      { eapply appends_trans; [exact A12|]. eexists. split; [exact T'|]. repeat constructor. }
      assert (K3 : ctx_kept ctx (st_ctx s3)).
      { eapply ctx_kept_trans; [exact K2|]. rewrite C'. apply ctx_kept_dial_defaults. }
      rewrite D2, D. 
      destruct (dial_conn (env_dial env 1)) as [cs|err2] eqn:Hdial2.
      * right. cbv zeta.
        set (ms := Z.quot (dial_end (env_dial env 1)) 1000000
                   - Z.quot (dial_start (env_dial env 1)) 1000000).
        destruct (entry_kept_trans _ _ _ (entry_kept_afterForwardDial (st_ctx s2))
                    (entry_kept_observeTLSTime ms (afterForwardDial (st_ctx s2))))
          as (E1 & E2 & E3 & E4 & E5 & E6).
        exists cs, (upd_ctx (observeTLSTime ms) s3). conjs.
        -- destruct (afterDial cs false _); reflexivity.
        -- reflexivity.
        -- exact A3.
        -- cbn. eapply ctx_kept_trans; [exact K3|apply ctx_kept_observeTLSTime].
        -- intros H. contradiction.
        -- cbn. rewrite C', E2. exact Q2.
        -- cbn. rewrite C', E4. exact Q4.
        -- intros t. cbn. rewrite C', E6, Q6.
           change (nonempty (ForwardProxy (afterForwardDial ctx)))
             with (nonempty (ForwardProxy ctx)).
           change (requestCount (afterForwardDial ctx) t "err") with (requestCount ctx t "err").
           change (Requests (ForwardMetricsCounters (afterForwardDial ctx)))
             with (Requests (ForwardMetricsCounters ctx)).
           change (targetLabel (afterForwardDial ctx)) with (targetLabel ctx).
           rewrite Hne. subst both.
           destruct (0 <? Z.of_nat (length c4)), (0 <? Z.of_nat (length c6)); reflexivity.
      * destruct (dialFailure_spec env (dialHost (st_req s2)) err2 s3) as (s4 & Hs4).
        destruct (resolveChain env (dialHost (st_req s2)) s3) as [[[d4 d6] err''] sy].
        destruct Hs4 as (_ & C4 & _ & A4 & Hcase4).
        assert (Hcb3 : ForwardProxyErrorFallback (st_ctx s3) = None).
        { rewrite C'. exact Q3. }
        rewrite Hcb3 in Hcase4. destruct Hcase4 as (-> & _).
        left. cbn. conjs; [reflexivity|congruence|eapply appends_trans; eassumption].
  - apply nonempty_false in Hne as Hfp.
    destruct (attempt_direct_exact env (initSt ctx req) Hrt Hfp) as (tr & s0 & Hc & E).
    cbv zeta in E. rewrite E. clear E.
    destruct (core_fields _ _ Hc) as (Hctx & _ & Hcn & Htr & _).
    cbn [initSt st_ctx st_trace st_req st_dials st_conn] in *.
    set (s1 := count_dial (emit (EvDial tr "tcp4" (dialHost req) ∅) s0)).
    assert (A1 : appends isDialEvent (initSt ctx req) s1).
    { eexists. split; [cbn; rewrite Htr; reflexivity|]. repeat constructor. }
    destruct (dial_conn (env_dial env 0)) as [cs|err] eqn:Hdial.
    + right. exists cs, s1. conjs.
      * destruct (afterDial cs true s1); reflexivity.
      * reflexivity.
      * exact A1.
      * cbn. rewrite Hctx. apply ctx_kept_refl.
      * intros _. exact Hctx.
      * cbn. rewrite Hctx. reflexivity.
      * cbn. rewrite Hctx. reflexivity.
      * intros t. cbn. rewrite Hctx. lia.
    + left. cbn. conjs; [reflexivity|exact Hcn|exact A1].
Qed.

(** ** When the writer fails *)

(** C4, as the code has it. When the orchestrator receives an error [e]
    from the writer, it returns [(nil, e)]; it has not received from the
    reader; the context's byte fields and its bandwidth counter are the
    caller's; no "ok" counter moved; and every "err" counter is what it
    was when the exchange started (the caller's, and one more under the
    caller's label when a failed first dial was counted), but that the
    error metric function was run once unless [e] contains "timeout":
    this adds one under the label of the forward proxy then in use, when
    a forward proxy is set and the request counter is present. *)
Theorem writer_error_aborts (env : Env) (ctx : ProxyCtx) (req : Request) (e : error) :
  RoundTripper ctx = None ->
  In (EvWriteDone (Some e)) (st_trace (snd (RoundTrip env (initSt ctx req)))) ->
  fst (RoundTrip env (initSt ctx req)) = (None, Some e) /\
  BytesSent (st_ctx (snd (RoundTrip env (initSt ctx req)))) = BytesSent ctx /\
  BytesReceived (st_ctx (snd (RoundTrip env (initSt ctx req)))) = BytesReceived ctx /\
  (forall x, ~ In (EvReadDone x) (st_trace (snd (RoundTrip env (initSt ctx req))))) /\
  (forall t, requestCount (st_ctx (snd (RoundTrip env (initSt ctx req)))) t "ok"
             = requestCount ctx t "ok") /\
  ProxyBandwidth (ForwardMetricsCounters (st_ctx (snd (RoundTrip env (initSt ctx req)))))
    = ProxyBandwidth (ForwardMetricsCounters ctx) /\
  (forall t,
     requestCount (st_ctx (snd (RoundTrip env (initSt ctx req)))) t "err"
     = (errBeforeExchange env ctx req t +
        if negb (strings_Contains e "timeout")
           && nonempty (ForwardProxy ctx)
           && notnil (Requests (ForwardMetricsCounters ctx))
           && String.eqb t (if strings_HasPrefix (proxyAtExchange env ctx) "127.0.0.1"
                            then "local" else "spoof")
        then 1 else 0)%nat) /\
  exists before : ProxyCtx,
    ctx_kept ctx before /\
    ForwardProxy before = proxyAtExchange env ctx /\
    (forall t, requestCount before t "err" = errBeforeExchange env ctx req t) /\
    st_ctx (snd (RoundTrip env (initSt ctx req)))
      = (if strings_Contains e "timeout" then before else SetErrorMetric before).
Proof.
  intros Hrt Hin.
  destruct (RoundTrip_entry env ctx req Hrt)
    as [(_ & _ & A) | (cs & s1 & HRT & _ & A & K & _ & Pfp & Pbw & Perr)].
  { destruct (appends_In _ _ _ _ A Hin) as [[]|[]]. }
  rewrite HRT in *. rewrite afterDial_unfold in *.
  set (ka := negb (nonempty (ForwardProxy ctx))) in *.
  pose proof (exchangeStart_trace cs ka (initSt ctx req) s1) as Hstart.
  destruct (exchangeStart_frame cs ka s1) as (Hc0 & _ & _).
  destruct (cs_ser_err cs) as [e'|] eqn:He.
  - destruct (exchange_writer_failed cs (fst (tuned cs ka s1)) (exchangeStart cs ka s1) e' He)
      as (R & C & T & _ & _).
    rewrite T in Hin. apply in_app_or in Hin as [Hin|Hin].
    { destruct (Hstart _ eq_refl A Hin) as [[]|[_ Hk]]. discriminate Hk. }
    destruct Hin as [[=]|[[= <-]|[]]].
    rewrite R, C, T, Hc0.
    pose proof K as (_ & Bs & Br & _ & _ & _ & Kfp & Knn & Kok).
    destruct (SetErrorMetric_frame (st_ctx s1)) as (m & Em & Bm & _).
    conjs.
    + reflexivity.
    + destruct (strings_Contains e' "timeout"); [exact Bs|]. rewrite Em. exact Bs.
    + destruct (strings_Contains e' "timeout"); [exact Br|]. rewrite Em. exact Br.
    + intros x Hx. apply in_app_or in Hx as [Hx|Hx].
      * destruct (Hstart _ eq_refl A Hx) as [[]|[_ Hk]]. discriminate Hk.
      * destruct Hx as [[=]|[[=]|[]]].
    + intros t. destruct (strings_Contains e' "timeout"); [apply Kok|].
      rewrite SetErrorMetric_ok_count. apply Kok.
    + destruct (strings_Contains e' "timeout"); [exact Pbw|].
      rewrite Em. cbn. rewrite Bm. exact Pbw.
    + intros t. rewrite <- Kfp, <- Knn, <- Pfp, <- Perr.
      destruct (strings_Contains e' "timeout"); cbn [negb andb]; [lia|].
      apply SetErrorMetric_err_count.
    + exists (st_ctx s1). conjs; [exact K|exact Pfp|exact Perr|reflexivity].
  - destruct (exchange_writer_ok cs (fst (tuned cs ka s1)) (exchangeStart cs ka s1) He)
      as (_ & _ & _ & _ & T & _).
    rewrite T in Hin. apply in_app_or in Hin as [Hin|Hin].
    { destruct (Hstart _ eq_refl A Hin) as [[]|[_ Hk]]. discriminate Hk. }
    destruct Hin as [[=]|[[=]|[[=]|[[=]|[]]]]].
Qed.

Lemma writer_error_aborts_witness :
  (fst (RoundTrip env_broken_pipe (initSt ctx_forward req_example))
     = (None, Some "write tcp: broken pipe") /\
   BytesSent (st_ctx (snd (RoundTrip env_broken_pipe (initSt ctx_forward req_example)))) = 0 /\
   requestCount (st_ctx (snd (RoundTrip env_broken_pipe (initSt ctx_forward req_example))))
     "spoof" "err" = 1%nat) /\
  (fst (RoundTrip env_write_timeout (initSt ctx_forward req_example))
     = (None, Some "write tcp 10.0.0.1:3128: i/o timeout") /\
   requestCount (st_ctx (snd (RoundTrip env_write_timeout (initSt ctx_forward req_example))))
     "spoof" "err" = 0%nat).
Proof.
  split.
  - destruct (writer_error_aborts env_broken_pipe ctx_forward req_example
                "write tcp: broken pipe")
      as (R & B & _ & _ & _ & _ & E & _); [reflexivity | vm_compute; auto |].
    split; [exact R | split; [exact B | exact (E "spoof")]].
  - destruct (writer_error_aborts env_write_timeout ctx_forward req_example
                "write tcp 10.0.0.1:3128: i/o timeout")
      as (R & _ & _ & _ & _ & _ & E & _); [reflexivity | vm_compute; auto |].
    split; [exact R | exact (E "spoof")].
Defined.

(** ** When the reader fails, and when it delivers *)

(** A run in which the reader signalled, looked at from the exchange: the
    writer had signalled nil, and the reader's signal is what
    [http.ReadResponse] returned. *)
Lemma reader_signal env ctx req x :
  RoundTripper ctx = None ->
  In (EvReadDone x) (st_trace (snd (RoundTrip env (initSt ctx req)))) ->
  exists cs s1,
    RoundTrip env (initSt ctx req)
      = exchange cs (fst (tuned cs (negb (nonempty (ForwardProxy ctx))) s1))
          (exchangeStart cs (negb (nonempty (ForwardProxy ctx))) s1) /\
    ctx_kept ctx (st_ctx s1) /\
    ForwardProxy (st_ctx s1) = proxyAtExchange env ctx /\
    ProxyBandwidth (ForwardMetricsCounters (st_ctx s1))
      = ProxyBandwidth (ForwardMetricsCounters ctx) /\
    (forall t, requestCount (st_ctx s1) t "err" = errBeforeExchange env ctx req t) /\
    st_ctx (exchangeStart cs (negb (nonempty (ForwardProxy ctx))) s1) = st_ctx s1 /\
    cs_ser_err cs = None /\
    x = match cs_parse cs with inl _ => None | inr e => Some e end.
Proof.
  intros Hrt Hin.
  destruct (RoundTrip_entry env ctx req Hrt)
    as [(_ & _ & A) | (cs & s1 & HRT & _ & A & K & _ & Pfp & Pbw & Perr)].
  { destruct (appends_In _ _ _ _ A Hin) as [[]|[]]. }
  rewrite HRT in *. rewrite afterDial_unfold in *.
  set (ka := negb (nonempty (ForwardProxy ctx))) in *.
  pose proof (exchangeStart_trace cs ka (initSt ctx req) s1) as Hstart.
  destruct (exchangeStart_frame cs ka s1) as (Hc0 & _ & _).
  exists cs, s1. conjs; try assumption; try reflexivity.
  all: destruct (cs_ser_err cs) as [e'|] eqn:He; [|try reflexivity].
  all: try (destruct (exchange_writer_failed cs (fst (tuned cs ka s1)) (exchangeStart cs ka s1) e' He)
      as (_ & _ & T & _ & _);
    rewrite T in Hin; apply in_app_or in Hin as [Hin|Hin];
    [destruct (Hstart _ eq_refl A Hin) as [[]|[_ Hk]]; discriminate Hk
    |destruct Hin as [[=]|[[=]|[]]]]).
  destruct (exchange_writer_ok cs (fst (tuned cs ka s1)) (exchangeStart cs ka s1) He)
    as (_ & _ & _ & _ & T & _).
  rewrite T in Hin. apply in_app_or in Hin as [Hin|Hin].
  { destruct (Hstart _ eq_refl A Hin) as [[]|[_ Hk]]. discriminate Hk. }
  destruct Hin as [[=]|[[=]|[[=]|[[= <-]|[]]]]]. reflexivity.
Qed.

(** X9. When the reader signals an error [e] (the response could not be
    read), [RoundTrip] returns [(nil, e)]; by then the byte fields of the
    context were already assigned, [BytesSent] being the connection's
    write counter; no "ok" counter moved and the bandwidth counter is the
    caller's; and every "err" counter is what it was when the exchange
    started, but that the error metric function was run once unless [e]
    contains "timeout": this adds one under the label of the forward
    proxy then in use, when a forward proxy is set and the request
    counter is present. *)
Theorem reader_error_outcome (env : Env) (ctx : ProxyCtx) (req : Request) (e : error) :
  RoundTripper ctx = None ->
  In (EvReadDone (Some e)) (st_trace (snd (RoundTrip env (initSt ctx req)))) ->
  fst (RoundTrip env (initSt ctx req)) = (None, Some e) /\
  (exists conn,
     st_conn (snd (RoundTrip env (initSt ctx req))) = Some conn /\
     BytesSent (st_ctx (snd (RoundTrip env (initSt ctx req)))) = ProxyTCPConn.BytesWrote conn) /\
  (forall t, requestCount (st_ctx (snd (RoundTrip env (initSt ctx req)))) t "ok"
             = requestCount ctx t "ok") /\
  ProxyBandwidth (ForwardMetricsCounters (st_ctx (snd (RoundTrip env (initSt ctx req)))))
    = ProxyBandwidth (ForwardMetricsCounters ctx) /\
  forall t,
    requestCount (st_ctx (snd (RoundTrip env (initSt ctx req)))) t "err"
    = (errBeforeExchange env ctx req t +
       if negb (strings_Contains e "timeout")
          && nonempty (ForwardProxy ctx)
          && notnil (Requests (ForwardMetricsCounters ctx))
          && String.eqb t (if strings_HasPrefix (proxyAtExchange env ctx) "127.0.0.1"
                           then "local" else "spoof")
       then 1 else 0)%nat.
Proof.
  intros Hrt Hin.
  destruct (reader_signal env ctx req _ Hrt Hin)
    as (cs & s1 & -> & K & Pfp & Pbw & Perr & Hc0 & He & Hx).
  set (ka := negb (nonempty (ForwardProxy ctx))) in *.
  destruct (exchange_writer_ok cs (fst (tuned cs ka s1)) (exchangeStart cs ka s1) He)
    as (Bs & _ & C & R & _).
  pose proof (exchange_reader_ctx cs (fst (tuned cs ka s1)) (exchangeStart cs ka s1) He) as X.
  cbv zeta in *.
  destruct (cs_parse cs) as [[status body]|e']; [discriminate Hx|].
  injection Hx as <-. rewrite Hc0 in X.
  pose proof K as (_ & _ & _ & _ & _ & _ & Kfp & Knn & Kok).
  conjs.
  - exact R.
  - eexists. split; [exact C|]. rewrite Bs, !runReads_BytesWrote. reflexivity.
  - intros t. rewrite X. destruct (strings_Contains e "timeout");
      rewrite ?SetErrorMetric_ok_count, requestCount_set_Bytes; apply Kok.
  - rewrite X. rewrite <- Pbw.
    destruct (strings_Contains e "timeout"); [reflexivity|].
    match goal with |- context [SetErrorMetric ?c] =>
      destruct (SetErrorMetric_frame c) as (m & -> & Bm & _) end.
    exact Bm.
  - intros t. rewrite X, <- Kfp, <- Knn, <- Pfp, <- Perr.
    destruct (strings_Contains e "timeout"); cbn [negb andb].
    + rewrite requestCount_set_Bytes. lia.
    + rewrite SetErrorMetric_err_count, requestCount_set_Bytes. reflexivity.
Qed.

Lemma reader_error_outcome_witness :
  (fst (RoundTrip env_reader_eof (initSt ctx_forward req_example))
     = (None, Some "unexpected EOF") /\
   requestCount (st_ctx (snd (RoundTrip env_reader_eof (initSt ctx_forward req_example))))
     "spoof" "err" = 1%nat) /\
  (fst (RoundTrip env_read_timeout (initSt ctx_forward req_example))
     = (None, Some "read tcp 10.0.0.1:3128: i/o timeout") /\
   requestCount (st_ctx (snd (RoundTrip env_read_timeout (initSt ctx_forward req_example))))
     "spoof" "err" = 0%nat).
Proof.
  split.
  - destruct (reader_error_outcome env_reader_eof ctx_forward req_example "unexpected EOF")
      as (R & _ & _ & _ & E); [reflexivity | vm_compute; auto 10 |].
    split; [exact R | exact (E "spoof")].
  - destruct (reader_error_outcome env_read_timeout ctx_forward req_example
                "read tcp 10.0.0.1:3128: i/o timeout")
      as (R & _ & _ & _ & E); [reflexivity | vm_compute; auto 10 |].
    split; [exact R | exact (E "spoof")].
Defined.



(** ** When the keepalive parameters cannot be set *)

(** A direct run on a connection that the dial returned. *)
Lemma direct_run env ctx req cs :
  RoundTripper ctx = None -> ForwardProxy ctx = "" ->
  dial_conn (env_dial env 0) = inl cs ->
  exists s1,
    RoundTrip env (initSt ctx req) = afterDial cs true s1 /\
    st_ctx s1 = ctx /\ appends isDialEvent (initSt ctx req) s1.
Proof.
  intros Hrt Hfp Hdial. rewrite RoundTrip_step.
  destruct (attempt_direct_exact env (initSt ctx req) Hrt Hfp) as (tr & s0 & Hc & E).
  cbv zeta in E. rewrite E. clear E.
  destruct (core_fields _ _ Hc) as (Hctx & _ & _ & Htr & _).
  cbn [initSt st_ctx st_dials st_trace st_req] in *. rewrite Hdial.
  eexists. split; [symmetry; apply surjective_pairing|]. split; [exact Hctx|].
  exists [EvDial tr "tcp4" (dialHost req) ∅]. split.
  - cbn. rewrite Htr. reflexivity.
  - repeat constructor.
Qed.

(** Without a keepalive call the wrapped socket is as the dial left it. *)
Lemma wrapAndTune_untouched cs s :
  keepAlive (ProxyTCPConn.Conn (fst (wrapAndTune cs false s))) = cs_keepAlive cs /\
  keepAlivePeriod (ProxyTCPConn.Conn (fst (wrapAndTune cs false s))) = cs_keepAlivePeriod cs.
Proof. split; reflexivity. Qed.

(** C6. In direct mode, when the dial returned a connection on which the
    keepalive parameters cannot be set (it is not a TCP connection, or its
    socket refuses [SetKeepAlive] or [SetKeepAlivePeriod]), the keepalive
    call is on record with its tunables and an error, and the connection
    of the exchange has the caller's proxy deadlines (seconds, as 64-bit
    nanoseconds) as read and write timeouts and no longer ignores deadline
    errors. The same holds whenever a failed keepalive call is on record.
    A keepalive call is on record only if no forward proxy is configured;
    and in forward mode the connection keeps the 5 s timeouts and the
    flag, and its socket the keepalive state it had when the dial
    returned it. *)
Theorem keepalive_failure_degrades (env : Env) (ctx : ProxyCtx) (req : Request) :
  RoundTripper ctx = None ->
  (ForwardProxy ctx = "" ->
   forall cs,
     dial_conn (env_dial env 0) = inl cs ->
     cs_isTCP cs = false \/ cs_SetKeepAlive cs <> None \/ cs_SetKeepAlivePeriod cs <> None ->
     exists conn err,
       In (EvKeepalive (if 0 <? TCPKeepAliveCount ctx then TCPKeepAliveCount ctx else 3)
                       (if 0 <? TCPKeepAliveInterval ctx then TCPKeepAliveInterval ctx else 3)
                       (if 0 <? TCPKeepAlivePeriod ctx then TCPKeepAlivePeriod ctx else 5)
                       (Some err))
          (st_trace (snd (RoundTrip env (initSt ctx req)))) /\
       st_conn (snd (RoundTrip env (initSt ctx req))) = Some conn /\
       ProxyTCPConn.ReadTimeout conn = wrap64 (time_Second * ProxyReadDeadline ctx) /\
       ProxyTCPConn.WriteTimeout conn = wrap64 (time_Second * ProxyWriteDeadline ctx) /\
       ProxyTCPConn.IgnoreDeadlineErrors conn = false) /\
  (forall count interval period err,
     In (EvKeepalive count interval period (Some err))
        (st_trace (snd (RoundTrip env (initSt ctx req)))) ->
     exists conn,
       st_conn (snd (RoundTrip env (initSt ctx req))) = Some conn /\
       ProxyTCPConn.ReadTimeout conn = wrap64 (time_Second * ProxyReadDeadline ctx) /\
       ProxyTCPConn.WriteTimeout conn = wrap64 (time_Second * ProxyWriteDeadline ctx) /\
       ProxyTCPConn.IgnoreDeadlineErrors conn = false) /\
  (forall count interval period res,
     In (EvKeepalive count interval period res)
        (st_trace (snd (RoundTrip env (initSt ctx req)))) ->
     ForwardProxy ctx = "") /\
  (ForwardProxy ctx <> "" ->
   forall cs conn,
     dial_conn (lastDial env ctx) = inl cs ->
     st_conn (snd (RoundTrip env (initSt ctx req))) = Some conn ->
     ProxyTCPConn.ReadTimeout conn = time_Second * 5 /\
     ProxyTCPConn.WriteTimeout conn = time_Second * 5 /\
     ProxyTCPConn.IgnoreDeadlineErrors conn = true /\
     keepAlive (ProxyTCPConn.Conn conn) = cs_keepAlive cs /\
     keepAlivePeriod (ProxyTCPConn.Conn conn) = cs_keepAlivePeriod cs).
Proof.
  intros Hrt. split.
  { intros Hfp cs Hdial Hfail.
    destruct (direct_run env ctx req cs Hrt Hfp Hdial) as (s1 & -> & Hctx & _).
    rewrite afterDial_unfold.
    destruct (exchangeStart_frame cs true s1) as (_ & _ & T).
    destruct (exchange_frame cs (fst (tuned cs true s1)) (exchangeStart cs true s1))
      as (_ & (rest & Trest & _)).
    destruct (exchange_conn cs (fst (tuned cs true s1)) (exchangeStart cs true s1))
      as (c' & Hc' & (S1 & S2 & S3 & _)).
    pose proof (wrapAndTune_timeouts cs true
                  (upd_req (fun r => set_RequestURI (URL_String r) r) s1)) as Ht.
    cbn [st_ctx upd_req] in Ht. fold (tuned cs true s1) in Ht.
    rewrite Hctx in *.
    destruct (keepaliveOf_result cs ctx) as (res & Ek & Hres).
    destruct res as [err|].
    2:{ destruct Hres as (Hres & _). destruct (Hres eq_refl) as (H1 & H2 & H3).
        destruct Hfail as [F|[F|F]]; [congruence|contradiction|contradiction]. }
    rewrite Ek in *. cbn [andb notnil keepaliveResult] in Ht. destruct Ht as (T1 & T2 & T3).
    exists c', err. rewrite Trest, T, Hc', S1, S2, S3, T1, T2, T3.
    conjs; try reflexivity.
    apply in_or_app. left. apply in_or_app. right. left. reflexivity. }
  destruct (RoundTrip_entry env ctx req Hrt)
    as [(_ & C & A) | (cs & s1 & HRT & Hlast & A & K & _)].
  { conjs.
    - intros ? ? ? ? Hin. destruct (appends_In _ _ _ _ A Hin) as [[]|[]].
    - intros ? ? ? ? Hin. destruct (appends_In _ _ _ _ A Hin) as [[]|[]].
    - intros _ ? conn _ Hc. rewrite C in Hc. discriminate Hc. }
  rewrite HRT, afterDial_unfold.
  remember (negb (nonempty (ForwardProxy ctx))) as ka eqn:Eka.
  pose proof (exchangeStart_trace cs ka (initSt ctx req) s1) as Hstart.
  destruct (exchange_frame cs (fst (tuned cs ka s1)) (exchangeStart cs ka s1)) as (_ & Ax).
  destruct (exchange_conn cs (fst (tuned cs ka s1)) (exchangeStart cs ka s1))
    as (c' & Hc' & (S1 & S2 & S3 & _ & _ & S6 & S7)).
  pose proof (wrapAndTune_timeouts cs ka (upd_req (fun r => set_RequestURI (URL_String r) r) s1))
    as Ht.
  cbn [st_ctx upd_req] in Ht. fold (tuned cs ka s1) in Ht.
  pose proof K as (_ & _ & _ & Krd & Kwr & _).
  assert (Hka : forall ev, isKeepaliveEvent ev ->
                  In ev (st_trace (snd (exchange cs (fst (tuned cs ka s1)) (exchangeStart cs ka s1)))) ->
                  ka = true /\ ev = keepaliveOf cs (st_ctx s1)).
  { intros ev Hev Hin. destruct (appends_In _ _ _ _ Ax Hin) as [Hin'|Hex].
    - destruct (Hstart ev eq_refl A Hin') as [Hd|Hk]; [|exact Hk].
      destruct ev; destruct Hev; destruct Hd.
    - destruct ev; destruct Hev; destruct Hex. }
  conjs.
  - intros count interval period err Hin.
    destruct (Hka (EvKeepalive count interval period (Some err)) I Hin) as (Hk & Hev).
    subst ka. rewrite Hk in *. rewrite <- Hev in Ht.
    cbn [andb notnil keepaliveResult] in Ht. destruct Ht as (T1 & T2 & T3).
    exists c'. rewrite S1, S2, S3, T1, T2, T3, Krd, Kwr. auto.
  - intros count interval period res Hin.
    destruct (Hka (EvKeepalive count interval period res) I Hin) as (Hk & _).
    rewrite Hk in Eka. symmetry in Eka.
    apply negb_true_iff, nonempty_false in Eka. exact Eka.
  - intros Hfp cs0 conn Hd Hc. rewrite Hc' in Hc. injection Hc as <-.
    rewrite Hlast in Hd. injection Hd as <-.
    apply nonempty_true in Hfp. rewrite Hfp in Eka. cbn in Eka. subst ka.
    cbn [andb] in Ht. destruct Ht as (T1 & T2 & T3).
    rewrite S1, S2, S3, S6, S7. conjs; try assumption.
    + apply (wrapAndTune_untouched cs).
    + apply (wrapAndTune_untouched cs).
Qed.

Lemma keepalive_failure_degrades_witness :
  exists conn,
    st_conn (snd (RoundTrip env_keepalive_refused (initSt ctx_direct req_example))) = Some conn /\
    ProxyTCPConn.ReadTimeout conn = 30000000000 /\
    ProxyTCPConn.WriteTimeout conn = 30000000000 /\
    ProxyTCPConn.IgnoreDeadlineErrors conn = false.
Proof.
  destruct (keepalive_failure_degrades env_keepalive_refused ctx_direct req_example eq_refl)
    as (H & _).
  destruct (H eq_refl script_keepalive_refused eq_refl) as (conn & err & _ & C & R & W & G).
  - right. left. discriminate.
  - exists conn. split; [exact C|]. split; [exact R|]. split; [exact W|exact G].
Defined.

(** ** The keepalive parameters of a socket *)

(** X3. For a positive period whose nanoseconds fit 64 bits, which is
    what [RoundTrip] hands over, [setKeepaliveParameters] returns nil
    exactly when the connection is a TCP connection and both socket calls
    succeed; the socket then has keepalive on and the period in
    nanoseconds, a positive duration, and is otherwise as before. On a
    connection that is not a TCP connection the error names the type of
    the connection, and when switching keepalive on fails the socket's
    error is returned: in both cases the connection is untouched. When
    only setting the period fails, the socket's error is returned,
    keepalive is on and the period is the old one. The counters and
    timeouts of the wrapper are never changed, and the probe count and
    the interval have no effect at all. *)
Theorem keepalive_parameters_outcome (typ : string) (ka kap : option error)
    (conn : ProxyTCPConn.proxyTCPConn) (count interval period : Z) :
  0 < period -> period * time_Second <= int64_max ->
  let r := ProxyTCPConn.setKeepaliveParameters typ ka kap conn count interval period in
  (snd r = None <-> isTCPConn (ProxyTCPConn.Conn conn) = true /\ ka = None /\ kap = None) /\
  (snd r = None ->
     0 < period * time_Second /\
     keepAlive (ProxyTCPConn.Conn (fst r)) = true /\
     keepAlivePeriod (ProxyTCPConn.Conn (fst r)) = Some (period * time_Second) /\
     ProxyTCPConn.Conn (fst r)
     = SetKeepAlivePeriod (period * time_Second) (SetKeepAlive true (ProxyTCPConn.Conn conn))) /\
  (isTCPConn (ProxyTCPConn.Conn conn) = false ->
     r = (conn, Some ("Could not convert proxy conn from " +:+ typ +:+ " to net.TCPConn"))) /\
  (forall e, isTCPConn (ProxyTCPConn.Conn conn) = true -> ka = Some e -> r = (conn, Some e)) /\
  (forall e, isTCPConn (ProxyTCPConn.Conn conn) = true -> ka = None -> kap = Some e ->
     snd r = Some e /\
     ProxyTCPConn.Conn (fst r) = SetKeepAlive true (ProxyTCPConn.Conn conn)) /\
  ProxyTCPConn.set_Conn (ProxyTCPConn.Conn conn) (fst r) = conn /\
  (forall count' interval',
     ProxyTCPConn.setKeepaliveParameters typ ka kap conn count' interval' period = r).
Proof.
  intros Hpos Hfit.
  assert (Hns : 0 < period * time_Second) by (unfold time_Second; lia).
  assert (Hw : wrap64 (period * time_Second) = period * time_Second).
  { apply wrap64_id. unfold int64_min. lia. }
  unfold ProxyTCPConn.setKeepaliveParameters. rewrite Hw.
  destruct conn as [raw bw br rt wt lg ig]. cbn.
  destruct (isTCPConn raw) eqn:Htcp; cbn; [destruct ka as [e1|]; [|destruct kap as [e2|]]|];
    cbn; conjs; try reflexivity; try exact Hns; try solve [intuition congruence].
Qed.

Lemma keepalive_parameters_outcome_witness :
  ProxyTCPConn.Conn
    (fst (ProxyTCPConn.setKeepaliveParameters "*net.TCPConn" None None conn_5s 3 3 5))
  = mkRawConn true None None true (Some 5000000000) false 0.
Proof.
  destruct (keepalive_parameters_outcome "*net.TCPConn" None None conn_5s 3 3 5)
    as (H1 & H2 & _); [lia | unfold time_Second, int64_max; lia |].
  destruct H2 as (_ & _ & _ & ->); [apply H1; repeat split | reflexivity].
Defined.
